(** * TimerLight: the time-to-visual-state scheduling engine of Timerclock.py

    A shallow embedding of the MicroPython program [Timerclock.py]: the
    DS3231 clock source, the timezone/DST resolver, the brightness ramp and
    the day/night/transition/flash state machine of [update_leds].

    Conventions of the embedding:
    - Python [int] is [Z]; Python [float] is modelled by exact rationals [Q]
      (the values the theorems pin down, 0, 0.5 and 1, are exact in binary
      floating point as well);
    - Python exceptions are the constructors of [exn], and code that can
      raise lives in the error monad [result];
    - the module-level globals of the program ([settings], [rtc],
      [external_rtc], [np], [flash_start_time], [last_flash_toggle]) are the
      fields of the record [World], passed explicitly. *)

From Stdlib Require Import ZArith QArith Qround List String Ascii Bool Lia Lqa.
From Stdlib Require Import DecimalString.
From Stdlib Require HexadecimalString.
Import ListNotations.
Open Scope Z_scope.

(** ** Python values and exceptions *)

Module Py.

Inductive exn : Type :=
| ValueError
| IndexError
| ZeroDivisionError
| OSError.

Inductive result (A : Type) : Type :=
| Ok (a : A)
| Raise (e : exn).
Arguments Ok {A} a.
Arguments Raise {A} e.

Definition bind {A B : Type} (r : result A) (k : A -> result B) : result B :=
  match r with
  | Ok a => k a
  | Raise e => Raise e
  end.

(** [a / b] on numbers: true division, raising on a zero divisor. *)
Definition truediv (a b : Q) : result Q :=
  if Qeq_bool b 0%Q then Raise ZeroDivisionError else Ok (a / b)%Q.

(** [int(x)] on a float: truncation toward zero. *)
Definition int_of_float (x : Q) : Z :=
  if Qle_bool 0%Q x then Qfloor x else Qceiling x.

(** [x < y] and [x >= y] on floats. *)
Definition ltb (x y : Q) : bool := negb (Qle_bool y x).
Definition geb (x y : Q) : bool := Qle_bool y x.

(** [s.split(sep)] for a one-character separator. *)
Fixpoint split_on (sep : ascii) (s : string) : list string :=
  match s with
  | EmptyString => [EmptyString]
  | String c rest =>
      if Ascii.eqb c sep then EmptyString :: split_on sep rest
      else match split_on sep rest with
           | [] => [String c EmptyString]
           | hd :: tl => String c hd :: tl
           end
  end.

Definition digit_of (c : ascii) : option Z :=
  let n := Z.of_nat (nat_of_ascii c) in
  if (48 <=? n) && (n <=? 57) then Some (n - 48) else None.

Fixpoint digits_value (acc : Z) (s : string) : option Z :=
  match s with
  | EmptyString => Some acc
  | String c rest =>
      match digit_of c with
      | Some d => digits_value (10 * acc + d) rest
      | None => None
      end
  end.

(** [int(s)] on a string: an optional sign followed by at least one
    decimal digit; anything else raises [ValueError]. *)
Definition int_of_string (s : string) : result Z :=
  match s with
  | EmptyString => Raise ValueError
  | String c rest =>
      if Ascii.eqb c "-"%char then
        match rest, digits_value 0 rest with
        | String _ _, Some v => Ok (- v)
        | _, _ => Raise ValueError
        end
      else if Ascii.eqb c "+"%char then
        match rest, digits_value 0 rest with
        | String _ _, Some v => Ok v
        | _, _ => Raise ValueError
        end
      else
        match digits_value 0 s with
        | Some v => Ok v
        | None => Raise ValueError
        end
  end.

(** [l[i]] for a non-negative index. *)
Definition index {A : Type} (l : list A) (i : nat) : result A :=
  match nth_error l i with
  | Some a => Ok a
  | None => Raise IndexError
  end.

End Py.
Import Py.

Notation "x <- c1 ;; c2" := (Py.bind c1 (fun x => c2))
  (at level 61, c1 at next level, right associativity).
Notation "' pat <- c1 ;; c2" := (Py.bind c1 (fun x => match x with pat => c2 end))
  (at level 61, pat pattern, c1 at next level, right associativity).

(** ** The MicroPython [time] module

    [time.mktime] and [time.localtime] are library functions, not code of
    the repository.  They are modelled over the proleptic Gregorian calendar
    with the Unix epoch: [mktime] normalises out-of-range fields instead of
    raising (day 31 of a 30-day month is day 1 of the next month), and
    [localtime] numbers weekdays 0 (Monday) to 6 (Sunday). *)

Module MTime.

Record struct_time : Type := mk_tm {
  tm_year : Z;
  tm_mon : Z;
  tm_mday : Z;
  tm_hour : Z;
  tm_min : Z;
  tm_sec : Z;
  tm_wday : Z;
  tm_yday : Z
}.

(** Number of days from 1970-01-01 to the given civil date. *)
Definition days_from_civil (y m d : Z) : Z :=
  let y0 := y + (m - 1) / 12 in
  let m0 := (m - 1) mod 12 + 1 in
  let y1 := if m0 <=? 2 then y0 - 1 else y0 in
  let era := y1 / 400 in
  let yoe := y1 - era * 400 in
  let mp := if m0 >? 2 then m0 - 3 else m0 + 9 in
  let doy := (153 * mp + 2) / 5 + d - 1 in
  let doe := yoe * 365 + yoe / 4 - yoe / 100 + doy in
  era * 146097 + doe - 719468.

(** The civil date (year, month, day) of a day number. *)
Definition civil_from_days (z : Z) : Z * Z * Z :=
  let z0 := z + 719468 in
  let era := z0 / 146097 in
  let doe := z0 - era * 146097 in
  let yoe := (doe - doe / 1460 + doe / 36524 - doe / 146096) / 365 in
  let y := yoe + era * 400 in
  let doy := doe - (365 * yoe + yoe / 4 - yoe / 100) in
  let mp := (5 * doy + 2) / 153 in
  let d := doy - (153 * mp + 2) / 5 + 1 in
  let m := if mp <? 10 then mp + 3 else mp - 9 in
  (if m <=? 2 then y + 1 else y, m, d).

(** [time.mktime((year, month, mday, hour, minute, second, _, _))]. *)
Definition mktime (year month mday hour minute second : Z) : Z :=
  days_from_civil year month mday * 86400 + hour * 3600 + minute * 60 + second.

(** [time.localtime(t)]. *)
Definition localtime (t : Z) : struct_time :=
  let days := t / 86400 in
  let rem := t mod 86400 in
  let '(y, m, d) := civil_from_days days in
  mk_tm y m d (rem / 3600) (rem mod 3600 / 60) (rem mod 60)
        ((days + 3) mod 7)
        (days - days_from_civil y 1 1 + 1).

End MTime.
Import MTime.

(** ** Program state

    The globals of [Timerclock.py].  The keys of [settings] that only the
    network and web layers read ([timezone], [network_mode], [wifi_ssid],
    [wifi_password], [wifi_ip]) are left out. *)

Definition color : Type := (Z * Z * Z)%type.
Definition pixel : Type := list Z.

Record Settings : Type := mk_settings {
  wake_time : string;
  bedtime : string;
  bedtime_enabled : bool;
  stay_color : color;
  wake_color : color;
  transition_minutes : Z;
  utc_offset_minutes : Z;
  dst_enabled : bool;
  dst_region : option string;
  num_leds : Z;
  leds_enabled : bool;
  brightness : Z;
  led_color_order : string;
  use_external_rtc : bool;
  brightness_ramp_enabled : bool;
  brightness_ramp_minutes : Z;
  brightness_ramp_start : Z;
  flash_enabled : bool;
  flash_duration : Z;
  flash_interval : Z
}.

(** The tuple of [machine.RTC().datetime()]. *)
Record datetime : Type := mk_datetime {
  dt_year : Z;
  dt_month : Z;
  dt_day : Z;
  dt_weekday : Z;
  dt_hours : Z;
  dt_minutes : Z;
  dt_seconds : Z;
  dt_subseconds : Z
}.

(** An I2C bus, seen through [readfrom_mem(addr, memaddr, nbytes)]: the
    bytes read, or the exception of a bus error. *)
Record I2C : Type := mk_i2c {
  readfrom_mem : Z -> Z -> Z -> result (list Z)
}.

(** A [NeoPixel] object: its pixel buffer and what [write()] last sent to
    the ring. *)
Record NeoPixel : Type := mk_np {
  np_pixels : list pixel;
  np_strip : list pixel
}.

(** The globals the functions read and write.  [clock] is the reading of
    [time.time()]: whole seconds on the Pico, the board the program names,
    and fractions of a second on the ports whose clock is a float.  A
    reading is a rational, so that both are covered; a whole-second reading
    is one equal to [inject_Z n]. *)
Record World : Type := mk_world {
  settings : Settings;
  rtc : datetime;
  external_rtc : option I2C;
  np : option NeoPixel;
  flash_start_time : option Q;
  last_flash_toggle : Q;
  clock : Q                       (* the reading of [time.time()] *)
}.

Definition set_rtc (d : datetime) (w : World) : World :=
  mk_world (settings w) d (external_rtc w) (np w)
           (flash_start_time w) (last_flash_toggle w) (clock w).

Definition set_np (p : option NeoPixel) (w : World) : World :=
  mk_world (settings w) (rtc w) (external_rtc w) p
           (flash_start_time w) (last_flash_toggle w) (clock w).

Definition set_flash_start_time (f : option Q) (w : World) : World :=
  mk_world (settings w) (rtc w) (external_rtc w) (np w)
           f (last_flash_toggle w) (clock w).

Definition set_last_flash_toggle (t : Q) (w : World) : World :=
  mk_world (settings w) (rtc w) (external_rtc w) (np w)
           (flash_start_time w) t (clock w).

(** ** DS3231 functions *)

Definition DS3231_ADDR : Z := 104.  (* 0x68 *)

Definition bcd_to_dec (bcd : Z) : Z :=
  Z.shiftr bcd 4 * 10 + Z.land bcd 15.

Definition dec_to_bcd (dec : Z) : Z :=
  Z.lor (Z.shiftl (dec / 10) 4) (dec mod 10).

(** The body of the [try] block of [read_ds3231_time]. *)
Definition read_ds3231_registers (bus : I2C) : result datetime :=
  data <- readfrom_mem bus DS3231_ADDR 0 7 ;;
  d0 <- index data 0 ;;
  d1 <- index data 1 ;;
  d2 <- index data 2 ;;
  d3 <- index data 3 ;;
  d4 <- index data 4 ;;
  d5 <- index data 5 ;;
  d6 <- index data 6 ;;
  let seconds := bcd_to_dec (Z.land d0 127) in
  let minutes := bcd_to_dec (Z.land d1 127) in
  let hours := bcd_to_dec (Z.land d2 63) in
  let day_of_week := bcd_to_dec (Z.land d3 7) in
  let day := bcd_to_dec (Z.land d4 63) in
  let month := bcd_to_dec (Z.land d5 31) in
  let year := bcd_to_dec d6 + 2000 in
  Ok (mk_datetime year month day day_of_week hours minutes seconds 0).

(** [read_ds3231_time]: [None] without an external clock, and [None] when
    the [try] block raises. *)
Definition read_ds3231_time (w : World) : option datetime :=
  match external_rtc w with
  | None => None
  | Some bus =>
      match read_ds3231_registers bus with
      | Ok ds_time => Some ds_time
      | Raise _ => None
      end
  end.

(** [sync_time_from_ds3231]: the returned flag and the world it leaves. *)
Definition sync_time_from_ds3231 (w : World) : bool * World :=
  match external_rtc w with
  | None => (false, w)
  | Some _ =>
      match read_ds3231_time w with
      | Some ds_time => (true, set_rtc ds_time w)
      | None => (false, w)
      end
  end.

(** ** Timezone and DST functions *)

Record DstRule : Type := mk_rule {
  start_month : Z;
  start_week : Z;
  start_hour : Z;
  end_month : Z;
  end_week : Z;
  end_hour : Z;
  offset_minutes : Z
}.

Definition DST_RULES : list (string * DstRule) :=
  [ ("US"%string, mk_rule 3 2 2 11 1 2 60);
    ("EU"%string, mk_rule 3 (-1) 1 10 (-1) 1 60);
    ("UK"%string, mk_rule 3 (-1) 1 10 (-1) 1 60);
    ("AU"%string, mk_rule 10 1 2 4 1 3 60) ].

Fixpoint lookup_rule (region : string) (rules : list (string * DstRule))
  : option DstRule :=
  match rules with
  | [] => None
  | (k, r) :: rest => if String.eqb k region then Some r else lookup_rule region rest
  end.

(** The weekday of a date as [get_nth_weekday_of_month] computes it:
    [(time.localtime(t)[6] + 1) % 7]. *)
Definition current_weekday (year month day : Z) : Z :=
  let t := mktime year month day 0 0 0 in
  (tm_wday (localtime t) + 1) mod 7.

(** The loop [while day <= 31] of the branch [n > 0].  It runs at most 31
    times from [day = 1]; [fuel] counts the iterations left.  [time.mktime]
    normalises a day past the end of the month, so the [except] clause of
    the loop is never entered. *)
Fixpoint scan_forward (fuel : nat) (year month weekday n day count : Z)
  : option Z :=
  match fuel with
  | O => None
  | S fuel' =>
      if day <=? 31 then
        if current_weekday year month day =? weekday then
          let count := count + 1 in
          if count =? n then Some day
          else scan_forward fuel' year month weekday n (day + 1) count
        else scan_forward fuel' year month weekday n (day + 1) count
      else None
  end.

(** The loop [while day >= 1] of the branch of the last occurrence. *)
Fixpoint scan_backward (fuel : nat) (year month weekday day : Z) : option Z :=
  match fuel with
  | O => None
  | S fuel' =>
      if day >=? 1 then
        if current_weekday year month day =? weekday then Some day
        else scan_backward fuel' year month weekday (day - 1)
      else None
  end.

Definition get_nth_weekday_of_month (year month weekday n : Z) : option Z :=
  if n >? 0 then
    scan_forward 31 year month weekday n 1 0
  else
    let '(next_month, next_year) :=
      if month =? 12 then (1, year + 1) else (month + 1, year) in
    let last_day := mktime next_year next_month 1 0 0 0 - 86400 in
    let day := tm_mday (localtime last_day) in
    scan_backward (Z.to_nat day) year month weekday day.

(** Truth value of a result of [get_nth_weekday_of_month]. *)
Definition truthy (d : option Z) : bool :=
  match d with
  | Some v => negb (v =? 0)
  | None => false
  end.

Definition calculate_dst_transitions (year : Z) (dst_region : string)
  : option Z * option Z :=
  match lookup_rule dst_region DST_RULES with
  | None => (None, None)
  | Some rules =>
      let start_day := get_nth_weekday_of_month year (start_month rules) 6 (start_week rules) in
      let end_day := get_nth_weekday_of_month year (end_month rules) 6 (end_week rules) in
      match start_day, end_day with
      | Some sd, Some ed =>
          if truthy start_day && truthy end_day then
            (Some (mktime year (start_month rules) sd (start_hour rules) 0 0),
             Some (mktime year (end_month rules) ed (end_hour rules) 0 0))
          else (None, None)
      | _, _ => (None, None)
      end
  end.

Definition in_rules (dst_region : string) : bool :=
  match lookup_rule dst_region DST_RULES with
  | Some _ => true
  | None => false
  end.

Definition is_dst_active (s : Settings) (current_time : Z) (dst_region : string)
  : bool :=
  if negb (dst_enabled s) || negb (in_rules dst_region) then false
  else
    let year := tm_year (localtime current_time) in
    match calculate_dst_transitions year dst_region, lookup_rule dst_region DST_RULES with
    | (Some dst_start, Some dst_end), Some rules =>
        if start_month rules <? end_month rules then
          (dst_start <=? current_time) && (current_time <? dst_end)
        else
          (current_time >=? dst_start) || (current_time <? dst_end)
    | _, _ => false
    end.

Definition get_local_time (w : World) : struct_time :=
  let utc_time := rtc w in
  let utc_timestamp :=
    mktime (dt_year utc_time) (dt_month utc_time) (dt_day utc_time)
           (dt_hours utc_time) (dt_minutes utc_time) (dt_seconds utc_time) in
  let offset_seconds := utc_offset_minutes (settings w) * 60 in
  let offset_seconds :=
    match dst_region (settings w) with
    | Some region =>
        if negb (String.eqb region "") && is_dst_active (settings w) utc_timestamp region then
          match lookup_rule region DST_RULES with
          | Some rules => offset_seconds + offset_minutes rules * 60
          | None => offset_seconds   (* not reached: the region is in the table *)
          end
        else offset_seconds
    | None => offset_seconds
    end in
  localtime (utc_timestamp + offset_seconds).

Definition get_current_minutes (w : World) : Z :=
  let local_time := get_local_time w in
  tm_hour local_time * 60 + tm_min local_time.

(** ** LED functions *)

Definition time_to_minutes (time_str : string) : result Z :=
  let parts := split_on ":"%char time_str in
  p0 <- index parts 0 ;;
  h <- int_of_string p0 ;;
  p1 <- index parts 1 ;;
  m <- int_of_string p1 ;;
  Ok (h * 60 + m).

Definition ease_in_out_cubic (t : Q) : Q :=
  if ltb t (1 # 2) then (4 * t * t * t)%Q
  else (1 - (-2 * t + 2) ^ 3 / 2)%Q.

Definition interpolate_color (color1 color2 : color) (ratio : Q) : color :=
  let '(r1, g1, b1) := color1 in
  let '(r2, g2, b2) := color2 in
  let eased_ratio := ease_in_out_cubic ratio in
  let r := int_of_float (inject_Z r1 + inject_Z (r2 - r1) * eased_ratio)%Q in
  let g := int_of_float (inject_Z g1 + inject_Z (g2 - g1) * eased_ratio)%Q in
  let b := int_of_float (inject_Z b1 + inject_Z (b2 - b1) * eased_ratio)%Q in
  (r, g, b).

Definition get_current_brightness (w : World) : result Q :=
  let s := settings w in
  let base_brightness := brightness s in
  if negb (brightness_ramp_enabled s) then Ok (inject_Z base_brightness)
  else
    wake_minutes <- time_to_minutes (wake_time s) ;;
    let current_minutes := get_current_minutes w in
    let ramp_duration := brightness_ramp_minutes s in
    let ramp_start_brightness := brightness_ramp_start s in
    if (current_minutes >=? wake_minutes)
       && (current_minutes <? wake_minutes + ramp_duration) then
      let minutes_into_ramp := current_minutes - wake_minutes in
      ramp_progress <- truediv (inject_Z minutes_into_ramp) (inject_Z ramp_duration) ;;
      let eased_progress := ease_in_out_cubic ramp_progress in
      Ok (inject_Z ramp_start_brightness
          + inject_Z (base_brightness - ramp_start_brightness) * eased_progress)%Q
    else if current_minutes >=? wake_minutes + ramp_duration then
      Ok (inject_Z base_brightness)
    else
      Ok (inject_Z base_brightness).

Definition apply_brightness (r g b : Z) (w : World) : result color :=
  current <- get_current_brightness w ;;
  let brightness := (current / 100)%Q in
  Ok (int_of_float (inject_Z r * brightness)%Q,
      int_of_float (inject_Z g * brightness)%Q,
      int_of_float (inject_Z b * brightness)%Q).

Definition convert_color_order (s : Settings) (r g b : Z) : pixel :=
  let color_order := led_color_order s in
  if String.eqb color_order "RGB" then [r; g; b]
  else if String.eqb color_order "GRB" then [g; r; b]
  else if String.eqb color_order "RGBW" then [r; g; b; 0]
  else if String.eqb color_order "GRBW" then [g; r; b; 0]
  else [r; g; b].

(** [np[i] = c] on the pixel buffer.  A pixel of the buffer is the list of
    its channel bytes, three on a ring created for the orders RGB and GRB,
    four on one created for RGBW and GRBW; the assignment is modelled for a
    [c] of that width, which it stores as it is. *)
Fixpoint set_pixel (buf : list pixel) (i : nat) (c : pixel) : list pixel :=
  match buf, i with
  | [], _ => []
  | _ :: rest, O => c :: rest
  | p :: rest, S i' => p :: set_pixel rest i' c
  end.

(** The loop [for i in range(count): np[i] = c] from index [i] on: the
    buffer it leaves and whether it finished without an [IndexError]. *)
Fixpoint assign_range (count i : nat) (c : pixel) (buf : list pixel)
  : list pixel * bool :=
  match count with
  | O => (buf, true)
  | S count' =>
      if (i <? List.length buf)%nat then assign_range count' (S i) c (set_pixel buf i c)
      else (buf, false)
  end.

(** The [try] block shared by [set_all_leds] and [turn_off_leds]: fill the
    buffer, then [np.write()] unless the loop raised (the handler only
    prints). *)
Definition show_all (s : Settings) (c : pixel) (leds : NeoPixel) : NeoPixel :=
  let '(buf, finished) := assign_range (Z.to_nat (num_leds s)) 0 c (np_pixels leds) in
  mk_np buf (if finished then buf else np_strip leds).

Definition set_all_leds (r g b : Z) (w : World) : result World :=
  match np w with
  | None => Ok w
  | Some leds =>
      if negb (leds_enabled (settings w)) then Ok w
      else
        '(r', g', b') <- apply_brightness r g b w ;;
        let c := convert_color_order (settings w) r' g' b' in
        Ok (set_np (Some (show_all (settings w) c leds)) w)
  end.

(** [turn_off_leds] assigns the three-channel tuple [(0, 0, 0)] whatever the
    ring: the properties of it below are stated for rings of three-byte
    pixels or are about the strip only. *)
Definition turn_off_leds (w : World) : World :=
  match np w with
  | None => w
  | Some leds => set_np (Some (show_all (settings w) [0; 0; 0] leds)) w
  end.

Definition should_flash (w : World) : result (bool * World) :=
  let s := settings w in
  if negb (flash_enabled s) then Ok (false, set_flash_start_time None w)
  else if negb (bedtime_enabled s) then Ok (false, set_flash_start_time None w)
  else
    bedtime_minutes <- time_to_minutes (bedtime s) ;;
    let current_minutes := get_current_minutes w in
    if current_minutes =? bedtime_minutes then
      let start :=
        match flash_start_time w with
        | None => clock w
        | Some t0 => t0
        end in
      let w := set_flash_start_time (Some start) w in
      let elapsed := (clock w - start)%Q in
      if ltb elapsed (inject_Z (flash_duration s)) then Ok (true, w)
      else Ok (false, set_flash_start_time None w)
    else Ok (false, set_flash_start_time None w).

(** The states of the schedule, and the branch of [update_leds] that
    selects the colour.  [InStayPeriod] is the bedtime branch, which returns
    before the flash is looked at. *)
Inductive SchedState : Type := NIGHT | TRANSITION | DAY.

Inductive Branch : Type :=
| InStayPeriod
| AfterWake
| InTransition
| BeforeTransition.

Definition state_of (br : Branch) : SchedState :=
  match br with
  | InStayPeriod => NIGHT
  | AfterWake => DAY
  | InTransition => TRANSITION
  | BeforeTransition => NIGHT
  end.

(** The normal wake-up transition logic of [update_leds]. *)
Definition wake_transition (s : Settings) (wake_minutes transition_start current_minutes : Z)
  : result (Branch * color) :=
  if current_minutes >=? wake_minutes then Ok (AfterWake, wake_color s)
  else if current_minutes >=? transition_start then
    progress <- truediv (inject_Z (current_minutes - transition_start))
                        (inject_Z (transition_minutes s)) ;;
    Ok (InTransition, interpolate_color (stay_color s) (wake_color s) progress)
  else Ok (BeforeTransition, stay_color s).

(** The value of the variable [in_stay_period] of [update_leds]. *)
Definition in_stay_period (bedtime_minutes wake_minutes transition_start current_minutes : Z)
  : bool :=
  if bedtime_minutes >? wake_minutes then
    (current_minutes >=? bedtime_minutes) || (current_minutes <? transition_start)
  else
    (current_minutes >=? bedtime_minutes) && (current_minutes <? transition_start).

(** The colour selection of [update_leds], from the read of [wake_time] to
    the end of the wake-up transition logic, with the branch taken. *)
Definition select_color (w : World) : result (Branch * color) :=
  let s := settings w in
  wake_minutes <- time_to_minutes (wake_time s) ;;
  let transition_start := wake_minutes - transition_minutes s in
  let current_minutes := get_current_minutes w in
  if bedtime_enabled s then
    bedtime_minutes <- time_to_minutes (bedtime s) ;;
    if in_stay_period bedtime_minutes wake_minutes transition_start current_minutes
    then Ok (InStayPeriod, stay_color s)
    else wake_transition s wake_minutes transition_start current_minutes
  else wake_transition s wake_minutes transition_start current_minutes.

(** The flash phase test of [update_leds]:
    [int(current_time / flash_interval) % 2 == 0]. *)
Definition flash_phase_on (current_time flash_interval : Q) : result bool :=
  q <- truediv current_time flash_interval ;;
  Ok (int_of_float q mod 2 =? 0).

Definition update_leds (w : World) : result World :=
  if negb (leds_enabled (settings w)) then Ok (turn_off_leds w)
  else
    '(br, (r, g, b)) <- select_color w ;;
    match br with
    | InStayPeriod => set_all_leds r g b w
    | _ =>
        '(flashing, w) <- should_flash w ;;
        if flashing then
          let flash_interval := (inject_Z (flash_interval (settings w)) / 1000)%Q in
          let current_time := clock w in
          if geb (current_time - last_flash_toggle w)%Q flash_interval then
            let w := set_last_flash_toggle current_time w in
            on <- flash_phase_on current_time flash_interval ;;
            if on then set_all_leds r g b w
            else set_all_leds 0 0 0 w
          else Ok w
        else set_all_leds r g b w
    end.

(** ** The specification's reading of the schedule

    Stated from the specification's words, to be compared with the code. *)

(** The night period of the bedtime logic. *)
Definition in_night_period (bedtime_minute wake_minute transition_start m : Z) : Prop :=
  (bedtime_minute > wake_minute -> m >= bedtime_minute \/ m < transition_start)
  /\ (bedtime_minute <= wake_minute -> bedtime_minute <= m /\ m < transition_start).

(** An evaluation selects the state [st] when the colour selection of
    [update_leds] returns from a branch of that state. *)
Definition selects (w : World) (st : SchedState) : Prop :=
  exists br c, select_color w = Ok (br, c) /\ state_of br = st.

(** An evaluation that does not end in a [ZeroDivisionError]. *)
Definition no_zerodiv {A : Type} (r : result A) : Prop :=
  r <> Raise ZeroDivisionError.

(** ** Example configurations and worlds *)

(** The default [settings] of the program. *)
Definition default_settings : Settings :=
  mk_settings "07:00" "21:00" true (255, 0, 0) (0, 255, 0) 30 0 true None
              12 false 100 "RGB" true false 15 10 false 10 500.

(** The defaults with the LEDs switched on, and the schedule, ramp and flash
    switches as given. *)
Definition example_settings (wake bed : string) (transition : Z) (ramp flash : bool)
  : Settings :=
  mk_settings wake bed true (255, 0, 0) (0, 255, 0) transition 0 true None
              12 true 100 "RGB" true ramp 15 10 flash 10 500.

Definition blank_ring (n : nat) : NeoPixel :=
  mk_np (repeat [0; 0; 0] n) (repeat [0; 0; 0] n).

(** A world without external clock and with a ring of 12 dark pixels.  The
    internal clock reads [hh:mm:ss] UTC on 2024-01-15, [time.time()] reads
    that instant plus [frac] seconds, no flash session is open and the last
    flash toggle was at [last]. *)
Definition example_world (s : Settings) (hh mm ss : Z) (frac last : Q) : World :=
  mk_world s (mk_datetime 2024 1 15 0 hh mm ss 0) None (Some (blank_ring 12))
           None last (inject_Z (mktime 2024 1 15 hh mm ss) + frac)%Q.

(** A bus whose reads fail, and a world that owns it. *)
Definition failing_bus : I2C := mk_i2c (fun _ _ _ => Raise OSError).

Definition failing_bus_world : World :=
  mk_world default_settings (mk_datetime 2024 1 15 0 12 0 0 0) (Some failing_bus)
           None None 0%Q 0%Q.

(** What the ring shows after an evaluation. *)
Definition shown (r : result World) : option (list pixel) :=
  match r with
  | Ok w =>
      match np w with
      | Some leds => Some (np_strip leds)
      | None => None
      end
  | Raise _ => None
  end.

(** ** Calendar notions used to state properties of the DST search *)

Definition is_leap_year (y : Z) : bool :=
  (y mod 4 =? 0) && (negb (y mod 100 =? 0) || (y mod 400 =? 0)).

Definition days_in_month (y m : Z) : Z :=
  if m =? 2 then (if is_leap_year y then 29 else 28)
  else if (m =? 4) || (m =? 6) || (m =? 9) || (m =? 11) then 30 else 31.

(** The value of the variable [day] with which the backward loop of
    [get_nth_weekday_of_month] starts: [time.localtime(last_day)[2]]. *)
Definition last_day_of_month (year month : Z) : Z :=
  let '(next_month, next_year) :=
    if month =? 12 then (1, year + 1) else (month + 1, year) in
  tm_mday (localtime (mktime next_year next_month 1 0 0 0 - 86400)).

(** The two loops of [get_nth_weekday_of_month] over an arbitrary weekday
    function, to enumerate their runs over the seven possible alignments of
    a month. *)
Fixpoint scan_forward_by (wd_of : Z -> Z) (fuel : nat) (weekday n day count : Z)
  : option Z :=
  match fuel with
  | O => None
  | S fuel' =>
      if day <=? 31 then
        if wd_of day =? weekday then
          let count := count + 1 in
          if count =? n then Some day
          else scan_forward_by wd_of fuel' weekday n (day + 1) count
        else scan_forward_by wd_of fuel' weekday n (day + 1) count
      else None
  end.

Fixpoint scan_backward_by (wd_of : Z -> Z) (fuel : nat) (weekday day : Z) : option Z :=
  match fuel with
  | O => None
  | S fuel' =>
      if day >=? 1 then
        if wd_of day =? weekday then Some day
        else scan_backward_by wd_of fuel' weekday (day - 1)
      else None
  end.

(** The integers [0 .. n-1]. *)
Definition Z_range (n : nat) : list Z := map Z.of_nat (seq 0 n).

(** The UTC timestamp [get_local_time] computes from the internal clock. *)
Definition utc_timestamp (w : World) : Z :=
  mktime (dt_year (rtc w)) (dt_month (rtc w)) (dt_day (rtc w))
         (dt_hours (rtc w)) (dt_minutes (rtc w)) (dt_seconds (rtc w)).

(** Enumeration of the runs of the two loops: the alignment [k] of the month
    (the converted weekday of its "day 0"), the weekday asked for and, for
    the forward loop, the ordinal [n] from 1 to 5; for the backward loop, the
    month length from 28 to 31. *)
Definition option_Z_eqb (a b : option Z) : bool :=
  match a, b with
  | Some x, Some y => x =? y
  | None, None => true
  | _, _ => false
  end.

Definition first_match (k weekday : Z) : Z := (weekday - k - 1) mod 7 + 1.

Definition forward_check (i : Z) : bool :=
  let k := i mod 7 in
  let weekday := (i / 7) mod 7 in
  let n := i / 49 + 1 in
  let d := first_match k weekday + 7 * (n - 1) in
  option_Z_eqb (scan_forward_by (fun day => (day + k) mod 7) 31 weekday n 1 0)
               (if d <=? 31 then Some d else None).

Definition backward_check (i : Z) : bool :=
  let k := i mod 7 in
  let weekday := (i / 7) mod 7 in
  let last := i / 49 + 28 in
  match scan_backward_by (fun day => (day + k) mod 7) (Z.to_nat last) weekday last with
  | Some d => (last - 7 <? d) && (d <=? last) && ((d + k) mod 7 =? weekday)
  | None => false
  end.

(** The years 0 to 399 and the twelve months, one index each. *)
Definition last_day_check (i : Z) : bool :=
  last_day_of_month (i / 12) (i mod 12 + 1) =? days_in_month (i / 12) (i mod 12 + 1).

(** ** Further functions of the program *)

(** [bytearray(l)] on a list of integers: [ValueError] unless every element
    is a byte.  (MicroPython stores the low eight bits instead; the
    properties below only use lists of bytes, where both agree.) *)
Definition bytearray (l : list Z) : result (list Z) :=
  if forallb (fun b => (0 <=? b) && (b <=? 255)) l then Ok l else Raise ValueError.

(** [write_ds3231_time].  The record [I2C] carries the read method of the
    bus only, so its write method [writeto_mem(addr, memaddr, buf)] is an
    argument here. *)
Definition write_ds3231_time (w : World) (writeto_mem : Z -> Z -> list Z -> result unit)
           (year month day hours minutes seconds : Z) : bool :=
  match external_rtc w with
  | None => false
  | Some _ =>
      match
        (data <- bytearray [dec_to_bcd seconds; dec_to_bcd minutes; dec_to_bcd hours;
                            1; dec_to_bcd day; dec_to_bcd month; dec_to_bcd (year - 2000)] ;;
         writeto_mem DS3231_ADDR 0 data)
      with
      | Ok _ => true
      | Raise _ => false
      end
  end.

(** [str(n)] and the format [{n:02d}] of an integer. *)
Definition str_of_int (n : Z) : string := NilZero.string_of_int (Z.to_int n).

Definition format_02d (n : Z) : string :=
  let s := str_of_int n in
  if (String.length s <? 2)%nat then String "0"%char s else s.

Definition get_current_time_str (w : World) : string :=
  let local_time := get_local_time w in
  (format_02d (tm_hour local_time) ++ ":" ++ format_02d (tm_min local_time))%string.

Definition get_current_date_str (w : World) : string :=
  let local_time := get_local_time w in
  (str_of_int (tm_year local_time) ++ "-" ++ format_02d (tm_mon local_time)
   ++ "-" ++ format_02d (tm_mday local_time))%string.

(** [set_time_from_string]: the world it leaves; the write to the external
    clock (whose outcome the function ignores) goes through [writeto_mem]. *)
Definition set_time_from_string (date_str time_str : string)
           (writeto_mem : Z -> Z -> list Z -> result unit) (w : World) : result World :=
  let date_parts := split_on "-"%char date_str in
  y0 <- index date_parts 0 ;;
  year <- int_of_string y0 ;;
  m0 <- index date_parts 1 ;;
  month <- int_of_string m0 ;;
  d0 <- index date_parts 2 ;;
  day <- int_of_string d0 ;;
  let time_parts := split_on ":"%char time_str in
  h0 <- index time_parts 0 ;;
  hour <- int_of_string h0 ;;
  mi0 <- index time_parts 1 ;;
  minute <- int_of_string mi0 ;;
  let w := set_rtc (mk_datetime year month day 0 hour minute 0 0) w in
  let _ :=
    match external_rtc w with
    | Some _ => write_ds3231_time w writeto_mem year month day hour minute 0
    | None => false
    end in
  Ok w.

(** Enumerations of the packed-decimal codec and of the date and time
    formats. *)
Definition bcd_check (v : Z) : bool :=
  (0 <=? dec_to_bcd v) && (dec_to_bcd v <=? 153)
  && (bcd_to_dec (dec_to_bcd v) =? v)
  && ((80 <=? v) || (bcd_to_dec (Z.land (dec_to_bcd v) 127) =? v))
  && ((40 <=? v) || (bcd_to_dec (Z.land (dec_to_bcd v) 63) =? v))
  && ((20 <=? v) || (bcd_to_dec (Z.land (dec_to_bcd v) 31) =? v)).

Definition bcd_byte_check (b : Z) : bool :=
  negb ((Z.land b 15 <=? 9) && (Z.shiftr b 4 <=? 9))
  || ((dec_to_bcd (bcd_to_dec b) =? b) && (bcd_to_dec b <=? 99)).

Definition result_Z_eqb (a : result Z) (b : Z) : bool :=
  match a with
  | Ok x => x =? b
  | Raise _ => false
  end.

Fixpoint has_char (c : ascii) (s : string) : bool :=
  match s with
  | EmptyString => false
  | String c' rest => Ascii.eqb c' c || has_char c rest
  end.

Definition year_str_check (y : Z) : bool :=
  negb (has_char "-" (str_of_int y)) && result_Z_eqb (int_of_string (str_of_int y)) y.

Definition field_str_check (v : Z) : bool :=
  negb (has_char "-" (format_02d v)) && negb (has_char ":" (format_02d v))
  && result_Z_eqb (int_of_string (format_02d v)) v.

(** A later reading of [time.time()]. *)
Definition set_clock (now : Q) (w : World) : World :=
  mk_world (settings w) (rtc w) (external_rtc w) (np w)
           (flash_start_time w) (last_flash_toggle w) now.

(** ** The web form helpers *)

(** [s.replace(old, new)] for a one-character [old]. *)
Fixpoint replace_char (old : ascii) (new : string) (s : string) : string :=
  match s with
  | EmptyString => EmptyString
  | String c rest =>
      if Ascii.eqb c old then (new ++ replace_char old new rest)%string
      else String c (replace_char old new rest)
  end.

(** The double quote character. *)
Definition dquote : ascii := "034"%char.

(** [html_escape] on an [int] (left) or a [str] (right). *)
Definition html_escape (text : Z + string) : string :=
  match text with
  | inl n => str_of_int n
  | inr text =>
      let text := replace_char "&" "&amp;" text in
      let text := replace_char "<" "&lt;" text in
      let text := replace_char ">" "&gt;" text in
      let text := replace_char dquote "&quot;" text in
      let text := replace_char "'" "&#x27;" text in
      text
  end.

(** [s.lstrip(c)] for a one-character set. *)
Fixpoint lstrip_char (c : ascii) (s : string) : string :=
  match s with
  | EmptyString => EmptyString
  | String c' rest => if Ascii.eqb c' c then lstrip_char c rest else s
  end.

(** [hex_to_rgb].  [int(s, 16)] is the argument [int16]; the slice
    [s[i:i+2]] is [substring i 2 s], which like the slice stops at the end
    of the string. *)
Definition hex_to_rgb (int16 : string -> result Z) (hex_color : string)
  : result (list Z) :=
  let hex_color := lstrip_char "#" hex_color in
  r <- int16 (substring 0 2 hex_color) ;;
  g <- int16 (substring 2 2 hex_color) ;;
  b <- int16 (substring 4 2 hex_color) ;;
  Ok [r; g; b].

(** The format [{n:02x}] of an integer. *)
Definition format_02x (n : Z) : string :=
  let s := HexadecimalString.NilZero.string_of_int (Z.to_hex_int n) in
  if (String.length s <? 2)%nat then String "0"%char s else s.

(** The value the page of [web_page] gives a colour input:
    [#{c[0]:02x}{c[1]:02x}{c[2]:02x}]. *)
Definition color_input_value (c : color) : string :=
  let '(r, g, b) := c in
  ("#" ++ format_02x r ++ format_02x g ++ format_02x b)%string.

(** The lower-case hexadecimal digit of a value below 16. *)
Definition hex_char (d : Z) : ascii :=
  match d with
  | 0 => "0" | 1 => "1" | 2 => "2" | 3 => "3" | 4 => "4" | 5 => "5" | 6 => "6"
  | 7 => "7" | 8 => "8" | 9 => "9" | 10 => "a" | 11 => "b" | 12 => "c"
  | 13 => "d" | 14 => "e" | _ => "f"
  end%char.

(** A reading of [int(s, 16)] on strings of lower-case hexadecimal digits,
    the strings the colour inputs carry. *)
Definition hex_value_of (c : ascii) : option Z :=
  let n := Z.of_nat (nat_of_ascii c) in
  if (48 <=? n) && (n <=? 57) then Some (n - 48)
  else if (97 <=? n) && (n <=? 102) then Some (n - 87)
  else None.

Fixpoint hex_digits_value (acc : Z) (s : string) : option Z :=
  match s with
  | EmptyString => Some acc
  | String c rest =>
      match hex_value_of c with
      | Some d => hex_digits_value (16 * acc + d) rest
      | None => None
      end
  end.

Definition int16_of_hex_digits (s : string) : result Z :=
  match s, hex_digits_value 0 s with
  | String _ _, Some v => Ok v
  | _, _ => Raise ValueError
  end.

Definition format_02x_check (n : Z) : bool :=
  String.eqb (format_02x n)
             (String (hex_char (n / 16)) (String (hex_char (n mod 16)) EmptyString)).

(** The characters [html_escape] replaces. *)
Definition special (c : ascii) : Prop :=
  c = "&"%char \/ c = "<"%char \/ c = ">"%char \/ c = dquote \/ c = "'"%char.

(** The characters that open markup or close an attribute value. *)
Definition markup (c : ascii) : Prop :=
  c = "<"%char \/ c = ">"%char \/ c = dquote \/ c = "'"%char.

Fixpoint chars (s : string) : list ascii :=
  match s with
  | EmptyString => []
  | String c rest => c :: chars rest
  end.

(** * Properties *)

(** ** The calendar of the [time] module *)

Module CalendarFacts.

Lemma yoe_of_doe yoe doy :
  0 <= yoe <= 399 -> 0 <= doy <= 305 ->
  (yoe * 365 + yoe / 4 - yoe / 100 + doy
   - (yoe * 365 + yoe / 4 - yoe / 100 + doy) / 1460
   + (yoe * 365 + yoe / 4 - yoe / 100 + doy) / 36524
   - (yoe * 365 + yoe / 4 - yoe / 100 + doy) / 146096) / 365 = yoe.
Proof. intros. Z.div_mod_to_equations. lia. Qed.

Lemma doy_of_doe doe :
  0 <= doe < 146097 ->
  let yoe := (doe - doe / 1460 + doe / 36524 - doe / 146096) / 365 in
  0 <= doe - (365 * yoe + yoe / 4 - yoe / 100) <= 365.
Proof. intros H yoe. subst yoe. Z.div_mod_to_equations. lia. Qed.

Lemma mday_of_doy doy :
  0 <= doy <= 365 ->
  1 <= doy - (153 * ((5 * doy + 2) / 153) + 2) / 5 + 1 <= 31.
Proof. intros H. Z.div_mod_to_equations. lia. Qed.

(** From March on, a date with a day number up to 31 lies in its own year,
    also when the day overflows the month. *)
Lemma civil_year_of_days y m d :
  3 <= m <= 12 -> 1 <= d <= 31 ->
  fst (fst (civil_from_days (days_from_civil y m d))) = y.
Proof.
  intros Hm Hd. cbv beta zeta iota delta [fst civil_from_days days_from_civil].
  replace ((m - 1) / 12) with 0 by (Z.div_mod_to_equations; lia).
  replace ((m - 1) mod 12 + 1) with m by (Z.div_mod_to_equations; lia).
  destruct (m <=? 2) eqn:E1; [lia|].
  destruct (m >? 2) eqn:E2; [|lia].
  rewrite Z.add_0_r.
  set (era := y / 400).
  set (yoe := y - era * 400).
  set (doy := (153 * (m - 3) + 2) / 5 + d - 1).
  assert (Hyoe : 0 <= yoe <= 399) by (subst yoe era; Z.div_mod_to_equations; lia).
  assert (Hdoy : 0 <= doy <= 305) by (subst doy; Z.div_mod_to_equations; lia).
  set (doe := yoe * 365 + yoe / 4 - yoe / 100 + doy).
  assert (Hdoe : 0 <= doe < 146097) by (subst doe; Z.div_mod_to_equations; lia).
  replace (era * 146097 + doe - 719468 + 719468) with (doe + era * 146097) by lia.
  rewrite Z.div_add by lia. rewrite (Z.div_small doe) by lia. rewrite Z.add_0_l.
  replace (doe + era * 146097 - era * 146097) with doe by lia.
  assert (Hy : (doe - doe / 1460 + doe / 36524 - doe / 146096) / 365 = yoe)
    by (subst doe; apply yoe_of_doe; assumption).
  rewrite Hy.
  replace (doe - (365 * yoe + yoe / 4 - yoe / 100)) with doy by (subst doe; lia).
  assert (Hmp : 0 <= (5 * doy + 2) / 153 < 10) by (Z.div_mod_to_equations; lia).
  destruct (Z.ltb_spec ((5 * doy + 2) / 153) 10); [|lia].
  destruct (Z.leb_spec ((5 * doy + 2) / 153 + 3) 2); [lia|].
  subst yoe. lia.
Qed.

Lemma civil_mday_bounds z :
  1 <= snd (civil_from_days z) <= 31.
Proof.
  cbv beta zeta iota delta [snd civil_from_days].
  set (z0 := z + 719468).
  set (doe := z0 - z0 / 146097 * 146097).
  assert (Hdoe : 0 <= doe < 146097) by (subst doe; Z.div_mod_to_equations; lia).
  pose proof (doy_of_doe doe Hdoe) as Hdoy. cbv zeta in Hdoy.
  apply mday_of_doy. exact Hdoy.
Qed.

Lemma mktime_days y m d h :
  0 <= h < 24 -> mktime y m d h 0 0 / 86400 = days_from_civil y m d.
Proof.
  intros Hh. unfold mktime.
  generalize (days_from_civil y m d). intros n.
  Z.div_mod_to_equations. lia.
Qed.

Lemma localtime_year t :
  tm_year (localtime t) = fst (fst (civil_from_days (t / 86400))).
Proof.
  unfold localtime. destruct (civil_from_days (t / 86400)) as [[y m] d].
  reflexivity.
Qed.

Lemma localtime_mday t :
  tm_mday (localtime t) = snd (civil_from_days (t / 86400)).
Proof.
  unfold localtime. destruct (civil_from_days (t / 86400)) as [[y m] d].
  reflexivity.
Qed.

Lemma localtime_wday t :
  tm_wday (localtime t) = (t / 86400 + 3) mod 7.
Proof.
  unfold localtime. destruct (civil_from_days (t / 86400)) as [[y m] d].
  reflexivity.
Qed.

Lemma localtime_mktime_year y m d h :
  3 <= m <= 12 -> 1 <= d <= 31 -> 0 <= h < 24 ->
  tm_year (localtime (mktime y m d h 0 0)) = y.
Proof.
  intros Hm Hd Hh. rewrite localtime_year, mktime_days by assumption.
  apply civil_year_of_days; assumption.
Qed.

Lemma localtime_mday_bounds t : 1 <= tm_mday (localtime t) <= 31.
Proof. rewrite localtime_mday. apply civil_mday_bounds. Qed.

(** Two months apart, the order of the months decides the order of the
    instants, whatever the days and hours. *)
Lemma mktime_month_lt y m1 d1 h1 m2 d2 h2 :
  3 <= m1 -> m1 + 2 <= m2 -> m2 <= 12 ->
  1 <= d1 <= 31 -> 1 <= d2 <= 31 -> 0 <= h1 < 24 -> 0 <= h2 < 24 ->
  mktime y m1 d1 h1 0 0 < mktime y m2 d2 h2 0 0.
Proof.
  intros Hm1 Hm12 Hm2 Hd1 Hd2 Hh1 Hh2.
  cbv beta zeta iota delta [mktime days_from_civil].
  replace ((m1 - 1) / 12) with 0 by (Z.div_mod_to_equations; lia).
  replace ((m1 - 1) mod 12 + 1) with m1 by (Z.div_mod_to_equations; lia).
  replace ((m2 - 1) / 12) with 0 by (Z.div_mod_to_equations; lia).
  replace ((m2 - 1) mod 12 + 1) with m2 by (Z.div_mod_to_equations; lia).
  destruct (Z.leb_spec m1 2); [lia|]. destruct (Z.leb_spec m2 2); [lia|].
  destruct (Z.gtb_spec m1 2); [|lia]. destruct (Z.gtb_spec m2 2); [|lia].
  rewrite Z.add_0_r.
  generalize (y / 400). intros era.
  generalize ((y - era * 400) * 365 + (y - era * 400) / 4 - (y - era * 400) / 100).
  intros base.
  Z.div_mod_to_equations. lia.
Qed.

End CalendarFacts.

(** ** The Nth-weekday search and the DST boundaries *)

Module DstFacts.
Import CalendarFacts.

Lemma scan_forward_found fuel year month weekday n :
  forall day count d,
    1 <= day ->
    scan_forward fuel year month weekday n day count = Some d ->
    day <= d <= 31 /\ current_weekday year month d = weekday.
Proof.
  induction fuel as [|fuel IH]; intros day count d Hday H; simpl in H.
  - discriminate.
  - destruct (Z.leb_spec day 31); [|discriminate].
    destruct (Z.eqb_spec (current_weekday year month day) weekday).
    + destruct (Z.eqb_spec (count + 1) n).
      * inversion H; subst. split; [lia | reflexivity].
      * apply IH in H; [|lia]. split; [lia | apply H].
    + apply IH in H; [|lia]. split; [lia | apply H].
Qed.

Lemma scan_backward_found fuel year month weekday :
  forall day d,
    scan_backward fuel year month weekday day = Some d ->
    1 <= d <= day /\ current_weekday year month d = weekday.
Proof.
  induction fuel as [|fuel IH]; intros day d H; simpl in H.
  - discriminate.
  - destruct (Z.geb_spec day 1); [|discriminate].
    destruct (Z.eqb_spec (current_weekday year month day) weekday).
    + inversion H; subst. split; [lia | reflexivity].
    + apply IH in H. split; [lia | apply H].
Qed.

(** Whatever [get_nth_weekday_of_month] returns is a day number from 1 to
    31 whose converted weekday is the one asked for. *)
Lemma get_nth_weekday_found year month weekday n d :
  get_nth_weekday_of_month year month weekday n = Some d ->
  1 <= d <= 31 /\ current_weekday year month d = weekday.
Proof.
  unfold get_nth_weekday_of_month. destruct (n >? 0).
  - intros H. apply scan_forward_found in H; [|lia].
    split; [lia | apply H].
  - destruct (if month =? 12 then (1, year + 1) else (month + 1, year))
      as [next_month next_year].
    intros H. apply scan_backward_found in H.
    pose proof (localtime_mday_bounds (mktime next_year next_month 1 0 0 0 - 86400)).
    split; [lia | apply H].
Qed.

(** The converted weekday 6 is Saturday: [tm_wday] 5, Monday being 0. *)
Lemma current_weekday_6 year month d :
  current_weekday year month d = 6 ->
  tm_wday (localtime (mktime year month d 0 0 0)) = 5.
Proof.
  unfold current_weekday. rewrite localtime_wday.
  generalize (mktime year month d 0 0 0 / 86400). intros days H.
  Z.div_mod_to_equations. lia.
Qed.

Lemma lookup_rule_cases region rules :
  lookup_rule region DST_RULES = Some rules ->
  rules = mk_rule 3 2 2 11 1 2 60
  \/ rules = mk_rule 3 (-1) 1 10 (-1) 1 60
  \/ rules = mk_rule 10 1 2 4 1 3 60.
Proof.
  unfold DST_RULES, lookup_rule.
  destruct (String.eqb "US" region); [intros H; inversion H; auto|].
  destruct (String.eqb "EU" region); [intros H; inversion H; auto|].
  destruct (String.eqb "UK" region); [intros H; inversion H; auto|].
  destruct (String.eqb "AU" region); [intros H; inversion H; auto|].
  discriminate.
Qed.

(** What [calculate_dst_transitions] returns when it returns boundaries. *)
Lemma calculate_dst_transitions_some year region rules dst_start dst_end :
  lookup_rule region DST_RULES = Some rules ->
  calculate_dst_transitions year region = (Some dst_start, Some dst_end) ->
  exists sd ed,
    get_nth_weekday_of_month year (start_month rules) 6 (start_week rules) = Some sd
    /\ get_nth_weekday_of_month year (end_month rules) 6 (end_week rules) = Some ed
    /\ dst_start = mktime year (start_month rules) sd (start_hour rules) 0 0
    /\ dst_end = mktime year (end_month rules) ed (end_hour rules) 0 0.
Proof.
  intros Hr. unfold calculate_dst_transitions. rewrite Hr.
  destruct (get_nth_weekday_of_month year (start_month rules) 6 (start_week rules))
    as [sd|]; [|discriminate].
  destruct (get_nth_weekday_of_month year (end_month rules) 6 (end_week rules))
    as [ed|]; [|discriminate].
  destruct (truthy (Some sd) && truthy (Some ed)); [|discriminate].
  intros H. inversion H; subst. exists sd, ed. auto.
Qed.

Lemma is_dst_active_unfold s t region rules dst_start dst_end :
  dst_enabled s = true ->
  lookup_rule region DST_RULES = Some rules ->
  calculate_dst_transitions (tm_year (localtime t)) region = (Some dst_start, Some dst_end) ->
  is_dst_active s t region =
    if start_month rules <? end_month rules
    then (dst_start <=? t) && (t <? dst_end)
    else (t >=? dst_start) || (t <? dst_end).
Proof.
  intros He Hr Hc. unfold is_dst_active, in_rules.
  rewrite He, Hr, Hc. reflexivity.
Qed.

End DstFacts.

Import CalendarFacts DstFacts.

(** C2 (the code departs from the claim).  The claim asks that the day the
    Nth-weekday search returns for a DST boundary be a Sunday.  The search
    is called with weekday 6 and compares it with
    [(time.localtime(t)[6] + 1) % 7], which is 6 on Saturdays: for every
    year and every region of the rule set, whatever days the two searches
    return are Saturdays ([tm_wday] 5), not Sundays ([tm_wday] 6). *)
Theorem dst_boundary_days_are_saturdays year region rules sd ed :
  lookup_rule region DST_RULES = Some rules ->
  get_nth_weekday_of_month year (start_month rules) 6 (start_week rules) = Some sd ->
  get_nth_weekday_of_month year (end_month rules) 6 (end_week rules) = Some ed ->
  tm_wday (localtime (mktime year (start_month rules) sd 0 0 0)) = 5
  /\ tm_wday (localtime (mktime year (end_month rules) ed 0 0 0)) = 5.
Proof.
  intros _ Hs He.
  apply get_nth_weekday_found in Hs. apply get_nth_weekday_found in He.
  split; apply current_weekday_6; tauto.
Qed.

(** The rule of the region US in 2024: the searches return 9 March and
    2 November, the Saturdays before the Sundays 10 March and 3 November. *)
Lemma dst_boundary_days_are_saturdays_witness :
  tm_wday (localtime (mktime 2024 3 9 0 0 0)) = 5
  /\ tm_wday (localtime (mktime 2024 11 2 0 0 0)) = 5.
Proof.
  apply (dst_boundary_days_are_saturdays 2024 "US" (mk_rule 3 2 2 11 1 2 60) 9 2);
    vm_compute; reflexivity.
Defined.

(** A rule of the table whose start month is before its end month: the
    instant of the start boundary is in DST and that of the end boundary is
    not. *)
Lemma northern_rule_boundaries s year region rules dst_start dst_end :
  dst_enabled s = true ->
  lookup_rule region DST_RULES = Some rules ->
  start_month rules < end_month rules ->
  calculate_dst_transitions year region = (Some dst_start, Some dst_end) ->
  is_dst_active s dst_start region = true
  /\ is_dst_active s dst_end region = false.
Proof.
  intros Hen Hr Hlt Hc.
  destruct (calculate_dst_transitions_some _ _ _ _ _ Hr Hc)
    as (sd & ed & Hsd & Hed & Hs & He).
  apply get_nth_weekday_found in Hsd. apply get_nth_weekday_found in Hed.
  destruct Hsd as [Hsd _]. destruct Hed as [Hed _].
  assert (Hshape : 3 <= start_month rules /\ start_month rules + 2 <= end_month rules
                   /\ end_month rules <= 12
                   /\ 0 <= start_hour rules < 24 /\ 0 <= end_hour rules < 24).
  { destruct (lookup_rule_cases _ _ Hr) as [E|[E|E]]; subst rules; simpl in *; lia. }
  destruct Hshape as (H3 & H2 & H12 & Hsh & Heh).
  assert (Hys : tm_year (localtime dst_start) = year)
    by (subst dst_start; apply localtime_mktime_year; lia).
  assert (Hye : tm_year (localtime dst_end) = year)
    by (subst dst_end; apply localtime_mktime_year; lia).
  assert (Hord : dst_start < dst_end)
    by (subst dst_start dst_end; apply mktime_month_lt; lia).
  split.
  - rewrite (is_dst_active_unfold s dst_start region rules dst_start dst_end);
      [| assumption | assumption | rewrite Hys; assumption ].
    destruct (Z.ltb_spec (start_month rules) (end_month rules)); [|lia].
    apply andb_true_iff. split; [apply Z.leb_le | apply Z.ltb_lt]; lia.
  - rewrite (is_dst_active_unfold s dst_end region rules dst_start dst_end);
      [| assumption | assumption | rewrite Hye; assumption ].
    destruct (Z.ltb_spec (start_month rules) (end_month rules)); [|lia].
    apply andb_false_iff. right. apply Z.ltb_ge. lia.
Qed.

(** C7.  With DST enabled, for every rule of the table and every year whose
    two boundaries are computed: when [start_month < end_month],
    [is_dst_active] is true at the instant of the start boundary and false
    at the instant of the end boundary; when [start_month >= end_month], an
    instant of that year is in DST exactly when it is at or after the start
    boundary or before the end boundary. *)
Theorem is_dst_active_boundaries s year region rules dst_start dst_end :
  dst_enabled s = true ->
  lookup_rule region DST_RULES = Some rules ->
  calculate_dst_transitions year region = (Some dst_start, Some dst_end) ->
  (start_month rules < end_month rules ->
     is_dst_active s dst_start region = true
     /\ is_dst_active s dst_end region = false)
  /\ (start_month rules >= end_month rules ->
      forall t, tm_year (localtime t) = year ->
        (is_dst_active s t region = true <-> (t >= dst_start \/ t < dst_end))).
Proof.
  intros Hen Hr Hc. split.
  - intros Hlt. eapply northern_rule_boundaries; eassumption.
  - intros Hge t Ht.
    rewrite (is_dst_active_unfold s t region rules dst_start dst_end);
      [| assumption | assumption | rewrite Ht; assumption ].
    destruct (Z.ltb_spec (start_month rules) (end_month rules)); [lia|].
    rewrite orb_true_iff, Z.geb_le, Z.ltb_lt. lia.
Qed.

Lemma is_dst_active_boundaries_witness :
  is_dst_active default_settings (mktime 2024 3 9 2 0 0) "US" = true
  /\ is_dst_active default_settings (mktime 2024 11 2 2 0 0) "US" = false.
Proof.
  apply (is_dst_active_boundaries default_settings 2024 "US" (mk_rule 3 2 2 11 1 2 60)
           (mktime 2024 3 9 2 0 0) (mktime 2024 11 2 2 0 0)).
  - reflexivity.
  - reflexivity.
  - vm_compute. reflexivity.
  - simpl. lia.
Defined.

(** ** The schedule of [update_leds] *)

Module ScheduleFacts.

Lemma Qeq_bool_inject_Z_nonzero z :
  z <> 0 -> Qeq_bool (inject_Z z) 0%Q = false.
Proof.
  intros Hz. destruct (Qeq_bool (inject_Z z) 0%Q) eqn:E; [|reflexivity].
  apply Qeq_bool_eq in E. unfold Qeq in E. simpl in E. lia.
Qed.

Lemma truediv_nonzero a z :
  z <> 0 -> truediv a (inject_Z z) = Ok (a / inject_Z z)%Q.
Proof. intros Hz. unfold truediv. rewrite Qeq_bool_inject_Z_nonzero by assumption. reflexivity. Qed.

(** The wake-up transition logic always selects a colour: the division of
    the transition branch has a positive divisor. *)
Lemma wake_transition_total s wake_minutes m :
  exists br c,
    wake_transition s wake_minutes (wake_minutes - transition_minutes s) m = Ok (br, c)
    /\ br <> InStayPeriod.
Proof.
  unfold wake_transition.
  destruct (Z.geb_spec m wake_minutes).
  - eexists _, _. split; [reflexivity | discriminate].
  - destruct (Z.geb_spec m (wake_minutes - transition_minutes s)).
    + rewrite truediv_nonzero by lia. cbn [bind].
      eexists _, _. split; [reflexivity | discriminate].
    + eexists _, _. split; [reflexivity | discriminate].
Qed.

(** The branch the wake-up transition logic takes. *)
Lemma wake_transition_branch s wake_minutes m br c :
  wake_transition s wake_minutes (wake_minutes - transition_minutes s) m = Ok (br, c) ->
  (br = AfterWake /\ m >= wake_minutes /\ c = wake_color s)
  \/ (br = InTransition /\ wake_minutes - transition_minutes s <= m < wake_minutes
      /\ transition_minutes s > 0)
  \/ (br = BeforeTransition /\ m < wake_minutes
      /\ m < wake_minutes - transition_minutes s /\ c = stay_color s).
Proof.
  unfold wake_transition.
  destruct (Z.geb_spec m wake_minutes).
  - intros E. inversion E; subst. left. repeat split; lia.
  - destruct (Z.geb_spec m (wake_minutes - transition_minutes s)).
    + rewrite truediv_nonzero by lia. cbn [bind].
      intros E. inversion E; subst. right. left. repeat split; lia.
    + intros E. inversion E; subst. right. right. repeat split; lia.
Qed.

Lemma in_stay_period_spec bed wake ts m :
  in_stay_period bed wake ts m = true <-> in_night_period bed wake ts m.
Proof.
  unfold in_stay_period, in_night_period.
  destruct (Z.gtb_spec bed wake).
  - rewrite orb_true_iff, Z.geb_le, Z.ltb_lt. split; [intros E; split; lia | intros [E _]; lia].
  - rewrite andb_true_iff, Z.geb_le, Z.ltb_lt. split; [intros E; split; lia | intros [_ E]; lia].
Qed.

Lemma select_color_bedtime w wake bed :
  bedtime_enabled (settings w) = true ->
  time_to_minutes (wake_time (settings w)) = Ok wake ->
  time_to_minutes (bedtime (settings w)) = Ok bed ->
  select_color w =
    if in_stay_period bed wake (wake - transition_minutes (settings w)) (get_current_minutes w)
    then Ok (InStayPeriod, stay_color (settings w))
    else wake_transition (settings w) wake (wake - transition_minutes (settings w))
                         (get_current_minutes w).
Proof.
  intros Hen Hw Hb. unfold select_color. rewrite Hw. cbn [bind].
  rewrite Hen, Hb. cbn [bind]. reflexivity.
Qed.

Lemma select_color_no_bedtime w wake :
  bedtime_enabled (settings w) = false ->
  time_to_minutes (wake_time (settings w)) = Ok wake ->
  select_color w =
    wake_transition (settings w) wake (wake - transition_minutes (settings w))
                    (get_current_minutes w).
Proof.
  intros Hen Hw. unfold select_color. rewrite Hw. cbn [bind].
  rewrite Hen. reflexivity.
Qed.

Lemma update_leds_stay_branch w r g b :
  leds_enabled (settings w) = true ->
  select_color w = Ok (InStayPeriod, (r, g, b)) ->
  update_leds w = set_all_leds r g b w.
Proof.
  intros Hl Hs. unfold update_leds. rewrite Hl, Hs. reflexivity.
Qed.

End ScheduleFacts.
Import ScheduleFacts.

(** C3.  With bedtime enabled, the evaluation is in the night period (the
    colour selection returns from the bedtime branch) exactly when, for
    [bedtime_minute > wake_minute], [m >= bedtime_minute] or
    [m < transition_start], and otherwise [bedtime_minute <= m] and
    [m < transition_start]; in the night period the colour is the stay
    colour, and with the LEDs enabled [update_leds] is the steady display of
    the stay colour. *)
Theorem night_period_shows_stay_color w wake bed :
  bedtime_enabled (settings w) = true ->
  time_to_minutes (wake_time (settings w)) = Ok wake ->
  time_to_minutes (bedtime (settings w)) = Ok bed ->
  let m := get_current_minutes w in
  let transition_start := wake - transition_minutes (settings w) in
  ((exists c, select_color w = Ok (InStayPeriod, c))
   <-> in_night_period bed wake transition_start m)
  /\ (in_night_period bed wake transition_start m ->
      select_color w = Ok (InStayPeriod, stay_color (settings w))
      /\ (leds_enabled (settings w) = true ->
          update_leds w =
            let '(r, g, b) := stay_color (settings w) in set_all_leds r g b w)).
Proof.
  intros Hen Hw Hb m ts.
  pose proof (select_color_bedtime w wake bed Hen Hw Hb) as Hsel.
  fold m ts in Hsel.
  pose proof (in_stay_period_spec bed wake ts m) as Hspec.
  destruct (in_stay_period bed wake ts m) eqn:E.
  - assert (Hn : in_night_period bed wake ts m) by (apply Hspec; reflexivity).
    split.
    + split; [intros _; exact Hn | intros _; eexists; exact Hsel].
    + intros _. split; [exact Hsel|].
      intros Hl. destruct (stay_color (settings w)) as [[r g] b].
      apply update_leds_stay_branch; assumption.
  - split.
    + split.
      * intros [c Hc]. rewrite Hsel in Hc.
        destruct (wake_transition_total (settings w) wake m) as (br & c' & Hwt & Hbr).
        fold ts in Hwt. rewrite Hwt in Hc. inversion Hc. congruence.
      * intros Hn. apply Hspec in Hn. discriminate.
    + intros Hn. apply Hspec in Hn. discriminate.
Qed.

Lemma night_period_shows_stay_color_witness :
  select_color (example_world (example_settings "07:00" "21:00" 30 false false) 23 30 0 0 0)
  = Ok (InStayPeriod, (255, 0, 0)).
Proof.
  apply (night_period_shows_stay_color
           (example_world (example_settings "07:00" "21:00" 30 false false) 23 30 0 0 0)
           420 1260).
  - reflexivity.
  - reflexivity.
  - reflexivity.
  - vm_compute. split; intros; [left|]; congruence.
Defined.

(** ** Divisions *)

Module NoZeroDivision.

Lemma bind_no_zerodiv {A B : Type} (r : result A) (k : A -> result B) :
  no_zerodiv r -> (forall a, r = Ok a -> no_zerodiv (k a)) -> no_zerodiv (bind r k).
Proof.
  unfold no_zerodiv. destruct r as [a|e]; cbn [bind]; intros Hr Hk.
  - apply Hk. reflexivity.
  - congruence.
Qed.

Lemma index_no_zerodiv {A : Type} (l : list A) i : no_zerodiv (index l i).
Proof. unfold no_zerodiv, index. destruct (nth_error l i); discriminate. Qed.

Lemma int_of_string_no_zerodiv s : no_zerodiv (int_of_string s).
Proof.
  unfold no_zerodiv, int_of_string. destruct s as [|c rest]; [discriminate|].
  destruct (Ascii.eqb c "-").
  - destruct rest; [discriminate|]. destruct (digits_value 0 _); discriminate.
  - destruct (Ascii.eqb c "+").
    + destruct rest; [discriminate|]. destruct (digits_value 0 _); discriminate.
    + destruct (digits_value 0 _); discriminate.
Qed.

Lemma time_to_minutes_no_zerodiv s : no_zerodiv (time_to_minutes s).
Proof.
  unfold time_to_minutes.
  apply bind_no_zerodiv; [apply index_no_zerodiv | intros p0 _].
  apply bind_no_zerodiv; [apply int_of_string_no_zerodiv | intros h _].
  apply bind_no_zerodiv; [apply index_no_zerodiv | intros p1 _].
  apply bind_no_zerodiv; [apply int_of_string_no_zerodiv | intros m _].
  discriminate.
Qed.

(** The colour selection never divides by zero, whatever the transition
    duration. *)
Lemma select_color_no_zerodiv w : no_zerodiv (select_color w).
Proof.
  unfold select_color.
  apply bind_no_zerodiv; [apply time_to_minutes_no_zerodiv | intros wake _].
  assert (Hwt : no_zerodiv (wake_transition (settings w) wake
                              (wake - transition_minutes (settings w))
                              (get_current_minutes w))).
  { destruct (wake_transition_total (settings w) wake (get_current_minutes w))
      as (br & c & E & _).
    rewrite E. discriminate. }
  destruct (bedtime_enabled (settings w)); [|exact Hwt].
  apply bind_no_zerodiv; [apply time_to_minutes_no_zerodiv | intros bed _].
  destruct (in_stay_period _ _ _ _); [discriminate | exact Hwt].
Qed.

Lemma get_current_brightness_no_zerodiv w : no_zerodiv (get_current_brightness w).
Proof.
  unfold get_current_brightness.
  destruct (negb (brightness_ramp_enabled (settings w))); [discriminate|].
  apply bind_no_zerodiv; [apply time_to_minutes_no_zerodiv | intros wake _].
  destruct (Z.geb_spec (get_current_minutes w) wake); cbn [andb].
  - destruct (Z.ltb_spec (get_current_minutes w)
                (wake + brightness_ramp_minutes (settings w))).
    + rewrite truediv_nonzero by lia. discriminate.
    + destruct (_ >=? _); discriminate.
  - destruct (_ >=? _); discriminate.
Qed.

Lemma set_all_leds_no_zerodiv r g b w : no_zerodiv (set_all_leds r g b w).
Proof.
  unfold set_all_leds. destruct (np w); [|discriminate].
  destruct (negb (leds_enabled (settings w))); [discriminate|].
  apply bind_no_zerodiv.
  - unfold apply_brightness.
    apply bind_no_zerodiv; [apply get_current_brightness_no_zerodiv | discriminate].
  - intros [[r' g'] b'] _. discriminate.
Qed.

Lemma should_flash_no_zerodiv w : no_zerodiv (should_flash w).
Proof.
  unfold should_flash.
  destruct (negb (flash_enabled (settings w))); [discriminate|].
  destruct (negb (bedtime_enabled (settings w))); [discriminate|].
  apply bind_no_zerodiv; [apply time_to_minutes_no_zerodiv | intros bed _].
  destruct (_ =? _); [|discriminate].
  destruct (ltb _ _); discriminate.
Qed.

Lemma should_flash_settings w flashing w' :
  should_flash w = Ok (flashing, w') -> settings w' = settings w.
Proof.
  unfold should_flash.
  destruct (negb (flash_enabled (settings w))); [intros E; inversion E; reflexivity|].
  destruct (negb (bedtime_enabled (settings w))); [intros E; inversion E; reflexivity|].
  destruct (time_to_minutes (bedtime (settings w))) as [bed|e]; cbn [bind]; [|discriminate].
  destruct (_ =? _); [|intros E; inversion E; reflexivity].
  destruct (ltb _ _); intros E; inversion E; reflexivity.
Qed.

(** With a non-zero flash interval, an evaluation of [update_leds] raises no
    [ZeroDivisionError]. *)
Lemma update_leds_no_zerodiv w :
  flash_interval (settings w) <> 0 -> no_zerodiv (update_leds w).
Proof.
  intros Hfi. unfold update_leds.
  destruct (negb (leds_enabled (settings w))); [discriminate|].
  apply bind_no_zerodiv; [apply select_color_no_zerodiv | intros [br [[r g] b]] _].
  assert (Hflash :
    no_zerodiv
      (' (flashing, w0) <- should_flash w ;;
       if flashing then
         let flash_interval := (inject_Z (flash_interval (settings w0)) / 1000)%Q in
         let current_time := clock w0 in
         if geb (current_time - last_flash_toggle w0)%Q flash_interval then
           let w1 := set_last_flash_toggle current_time w0 in
           on <- flash_phase_on current_time flash_interval ;;
           if on then set_all_leds r g b w1 else set_all_leds 0 0 0 w1
         else Ok w0
       else set_all_leds r g b w0)).
  { apply bind_no_zerodiv; [apply should_flash_no_zerodiv | intros [flashing w0] Hsf].
    apply should_flash_settings in Hsf.
    destruct flashing; [|apply set_all_leds_no_zerodiv].
    cbv zeta. destruct (geb _ _); [|discriminate].
    apply bind_no_zerodiv.
    - unfold flash_phase_on, truediv.
      destruct (Qeq_bool (inject_Z (flash_interval (settings w0)) / 1000) 0) eqn:E.
      + apply Qeq_bool_eq in E. rewrite Hsf in E.
        exfalso. apply Hfi. unfold Qeq in E. simpl in E. lia.
      + discriminate.
    - intros on _. destruct on; apply set_all_leds_no_zerodiv. }
  destruct br; [apply set_all_leds_no_zerodiv | exact Hflash | exact Hflash | exact Hflash].
Qed.

End NoZeroDivision.
Import NoZeroDivision.

(** The colour selection returns a branch and a colour as soon as the times
    of day it reads are well formed. *)
Lemma select_color_total w wake bed :
  time_to_minutes (wake_time (settings w)) = Ok wake ->
  (bedtime_enabled (settings w) = true ->
   time_to_minutes (bedtime (settings w)) = Ok bed) ->
  exists br c, select_color w = Ok (br, c).
Proof.
  intros Hw Hb.
  destruct (wake_transition_total (settings w) wake (get_current_minutes w))
    as (br & c & Hwt & _).
  destruct (bedtime_enabled (settings w)) eqn:Hen.
  - rewrite (select_color_bedtime w wake bed Hen Hw (Hb eq_refl)).
    destruct (in_stay_period _ _ _ _); eauto.
  - rewrite (select_color_no_bedtime w wake Hen Hw). eauto.
Qed.

(** C5.  For a fixed configuration whose times of day are well formed, an
    evaluation at any local minute selects exactly one of the states NIGHT,
    TRANSITION and DAY: one is selected, and no other one is. *)
Theorem exactly_one_state_selected w wake bed :
  time_to_minutes (wake_time (settings w)) = Ok wake ->
  (bedtime_enabled (settings w) = true ->
   time_to_minutes (bedtime (settings w)) = Ok bed) ->
  exists st, selects w st /\ forall st', selects w st' -> st' = st.
Proof.
  intros Hw Hb.
  destruct (select_color_total w wake bed Hw Hb) as (br & c & Hsel).
  exists (state_of br). split.
  - exists br, c. split; [exact Hsel | reflexivity].
  - intros st' (br' & c' & Hsel' & Hst). rewrite Hsel in Hsel'.
    inversion Hsel'; subst. reflexivity.
Qed.

Lemma exactly_one_state_selected_witness :
  exists st,
    selects (example_world (example_settings "07:00" "21:00" 30 false false) 6 45 0 0 0) st
    /\ forall st',
        selects (example_world (example_settings "07:00" "21:00" 30 false false) 6 45 0 0 0) st'
        -> st' = st.
Proof.
  apply (exactly_one_state_selected
           (example_world (example_settings "07:00" "21:00" 30 false false) 6 45 0 0 0)
           420 1260).
  - reflexivity.
  - intros _. reflexivity.
Defined.

(** Without a flash session, [update_leds] displays the selected colour. *)
Lemma update_leds_flash_disabled w br r g b :
  leds_enabled (settings w) = true ->
  flash_enabled (settings w) = false ->
  select_color w = Ok (br, (r, g, b)) ->
  update_leds w =
    set_all_leds r g b
      (match br with
       | InStayPeriod => w
       | _ => set_flash_start_time None w
       end).
Proof.
  intros Hl Hf Hs. unfold update_leds. rewrite Hl, Hs. cbn [negb bind].
  unfold should_flash. rewrite Hf. cbn [negb bind].
  destruct br; reflexivity.
Qed.

(** C6 (amended).  With [transition_minutes = 0] the colour selection
    returns without dividing: the TRANSITION branch is not taken, and an
    evaluation raises no [ZeroDivisionError] when the flash interval is not
    zero.  The selected colour is the stay colour at every minute
    [m < wake_minute]; at every minute [m >= wake_minute] it is the wake
    colour, unless bedtime is enabled with [bedtime_minute > wake_minute]
    and [m >= bedtime_minute], where it is the stay colour.  With the flash
    disabled, [update_leds] displays the selected colour. *)
Theorem zero_transition_switches_at_wake w wake bed :
  transition_minutes (settings w) = 0 ->
  time_to_minutes (wake_time (settings w)) = Ok wake ->
  (bedtime_enabled (settings w) = true ->
   time_to_minutes (bedtime (settings w)) = Ok bed) ->
  let m := get_current_minutes w in
  let bedtime_night :=
    bedtime_enabled (settings w) = true /\ bed > wake /\ m >= bed in
  exists br c,
    select_color w = Ok (br, c)
    /\ br <> InTransition
    /\ (m < wake -> c = stay_color (settings w))
    /\ (m >= wake -> ~ bedtime_night -> c = wake_color (settings w))
    /\ (m >= wake -> bedtime_night -> c = stay_color (settings w))
    /\ (flash_interval (settings w) <> 0 -> no_zerodiv (update_leds w))
    /\ (leds_enabled (settings w) = true -> flash_enabled (settings w) = false ->
        update_leds w =
          let '(r, g, b) := c in
          set_all_leds r g b
            (match br with
             | InStayPeriod => w
             | _ => set_flash_start_time None w
             end)).
Proof.
  intros Htm Hw Hb m night.
  assert (Htail : forall br c, select_color w = Ok (br, c) ->
            (flash_interval (settings w) <> 0 -> no_zerodiv (update_leds w))
            /\ (leds_enabled (settings w) = true -> flash_enabled (settings w) = false ->
                update_leds w =
                  let '(r, g, b) := c in
                  set_all_leds r g b
                    (match br with
                     | InStayPeriod => w
                     | _ => set_flash_start_time None w
                     end))).
  { intros br [[r g] b] Hsel. split.
    - apply update_leds_no_zerodiv.
    - intros Hl Hf. apply update_leds_flash_disabled; assumption. }
  assert (Hwt : forall br c,
            wake_transition (settings w) wake (wake - transition_minutes (settings w)) m
            = Ok (br, c) ->
            br <> InTransition
            /\ (m < wake -> c = stay_color (settings w))
            /\ (m >= wake -> c = wake_color (settings w))).
  { intros br c E. apply wake_transition_branch in E.
    destruct E as [(-> & Hm & ->) | [(-> & Hm & Hpos) | (-> & Hm & _ & ->)]].
    - split; [discriminate|]. split; [lia | reflexivity].
    - lia.
    - split; [discriminate|]. split; [reflexivity | lia]. }
  destruct (bedtime_enabled (settings w)) eqn:Hen.
  - pose proof (select_color_bedtime w wake bed Hen Hw (Hb eq_refl)) as Hsel.
    fold m in Hsel. rewrite Htm in Hsel.
    destruct (in_stay_period bed wake (wake - 0) m) eqn:E.
    + exists InStayPeriod, (stay_color (settings w)).
      apply in_stay_period_spec in E. destruct E as [E1 E2].
      split; [exact Hsel|]. split; [discriminate|].
      split; [reflexivity|].
      split; [intros Hm Hn; exfalso; apply Hn; unfold night; split; [reflexivity | lia]|].
      split; [reflexivity|]. exact (Htail InStayPeriod _ Hsel).
    + destruct (wake_transition_total (settings w) wake m) as (br & c & Hc & _).
      rewrite Htm in Hc. rewrite Hc in Hsel.
      exists br, c. split; [exact Hsel|].
      rewrite <- Htm in Hc. destruct (Hwt br c Hc) as (Hbr & Hlt & Hge).
      split; [exact Hbr|]. split; [exact Hlt|].
      split; [intros Hm _; apply Hge; exact Hm|].
      split; [|exact (Htail br c Hsel)].
      intros Hm (_ & Hbw & Hmb). exfalso.
      assert (in_stay_period bed wake (wake - 0) m = true); [|congruence].
      apply in_stay_period_spec. split; lia.
  - pose proof (select_color_no_bedtime w wake Hen Hw) as Hsel. fold m in Hsel.
    destruct (wake_transition_total (settings w) wake m) as (br & c & Hc & _).
    rewrite Hc in Hsel. exists br, c. split; [exact Hsel|].
    destruct (Hwt br c Hc) as (Hbr & Hlt & Hge).
    split; [exact Hbr|]. split; [exact Hlt|].
    split; [intros Hm _; apply Hge; exact Hm|].
    split; [|exact (Htail br c Hsel)].
    intros _ (Hf & _). discriminate.
Qed.

Lemma zero_transition_switches_at_wake_witness :
  exists br c,
    select_color (example_world (example_settings "07:00" "21:00" 0 false false) 8 0 0 0 0)
    = Ok (br, c)
    /\ br <> InTransition
    /\ c = (0, 255, 0).
Proof.
  destruct (zero_transition_switches_at_wake
              (example_world (example_settings "07:00" "21:00" 0 false false) 8 0 0 0 0)
              420 1260)
    as (br & c & Hsel & Hbr & _ & Hwake & _).
  - reflexivity.
  - reflexivity.
  - intros _. reflexivity.
  - exists br, c. split; [exact Hsel|]. split; [exact Hbr|].
    apply Hwake.
    + vm_compute. discriminate.
    + vm_compute. intros (_ & _ & H). apply H. reflexivity.
Defined.

(** The proviso on the flash interval is needed: with [flash_interval = 0]
    and a flash session open at [bedtime = wake_time], the phase test of the
    flash divides by zero. *)
Lemma zero_flash_interval_divides :
  update_leds
    (mk_world
       (mk_settings "07:00" "07:00" true (255, 0, 0) (0, 255, 0) 0 0 true None
                    12 true 100 "RGB" true false 15 10 true 10 0)
       (mk_datetime 2024 1 15 0 7 0 5 0) None (Some (blank_ring 12))
       None 0%Q (inject_Z (mktime 2024 1 15 7 0 5)))
  = Raise ZeroDivisionError.
Proof. vm_compute. reflexivity. Qed.

(** C6 as stated fails: with the default bedtime 21:00, a zero transition
    and wake time 07:00, the minute 21:40 is past [wake_minute] and the ring
    shows the stay colour (255, 0, 0), not the wake colour (0, 255, 0). *)
Lemma zero_transition_counterexample :
  transition_minutes
    (settings (example_world (example_settings "07:00" "21:00" 0 false false) 21 40 0 0 0)) = 0
  /\ time_to_minutes "07:00" = Ok 420
  /\ get_current_minutes
       (example_world (example_settings "07:00" "21:00" 0 false false) 21 40 0 0 0) = 1300
  /\ select_color
       (example_world (example_settings "07:00" "21:00" 0 false false) 21 40 0 0 0)
     = Ok (InStayPeriod, (255, 0, 0))
  /\ wake_color
       (settings (example_world (example_settings "07:00" "21:00" 0 false false) 21 40 0 0 0))
     = (0, 255, 0)
  /\ shown (update_leds
              (example_world (example_settings "07:00" "21:00" 0 false false) 21 40 0 0 0))
     = Some (repeat [255; 0; 0] 12).
Proof. vm_compute. repeat split; reflexivity. Qed.

(** C1 (the code departs from the claim).  Defaults with the LEDs and the
    flash enabled, bedtime 21:00, local time 21:00:05: the evaluation is in
    the night period and a flash session is active ([should_flash] answers
    true), at an instant of the lit phase and at one, half a second later,
    of the dark phase.  [update_leds] returns from the bedtime branch before
    it looks at the flash, and the ring shows the stay colour at both
    instants instead of alternating with all-off. *)
Theorem bedtime_flash_never_shown :
  let w_on := example_world (example_settings "07:00" "21:00" 30 false true) 21 0 5 (1 # 4) 0 in
  let w_off := example_world (example_settings "07:00" "21:00" 30 false true) 21 0 5 (3 # 4) 0 in
  get_current_minutes w_on = 1260
  /\ time_to_minutes (bedtime (settings w_on)) = Ok 1260
  /\ select_color w_on = Ok (InStayPeriod, (255, 0, 0))
  /\ (exists w', should_flash w_on = Ok (true, w'))
  /\ (exists w', should_flash w_off = Ok (true, w'))
  /\ flash_phase_on (clock w_on) (inject_Z 500 / 1000) = Ok true
  /\ flash_phase_on (clock w_off) (inject_Z 500 / 1000) = Ok false
  /\ shown (update_leds w_on) = Some (repeat [255; 0; 0] 12)
  /\ shown (update_leds w_off) = Some (repeat [255; 0; 0] 12).
Proof.
  cbv zeta.
  split; [vm_compute; reflexivity|].
  split; [vm_compute; reflexivity|].
  split; [vm_compute; reflexivity|].
  split; [eexists; vm_compute; reflexivity|].
  split; [eexists; vm_compute; reflexivity|].
  split; [vm_compute; reflexivity|].
  split; [vm_compute; reflexivity|].
  split; vm_compute; reflexivity.
Qed.

(** ** Easing and interpolation *)

Module FloatFacts.

Lemma ltb_true_iff x y : ltb x y = true <-> (x < y)%Q.
Proof.
  unfold ltb. rewrite negb_true_iff. split.
  - intros E. apply Qnot_le_lt. intros H. apply Qle_bool_iff in H. congruence.
  - intros H. destruct (Qle_bool y x) eqn:E; [|reflexivity].
    apply Qle_bool_iff in E. exfalso. apply (Qlt_not_le _ _ H E).
Qed.

Lemma ltb_false_iff x y : ltb x y = false <-> (y <= x)%Q.
Proof.
  unfold ltb. rewrite negb_false_iff. apply Qle_bool_iff.
Qed.

Lemma Qfloor_unique x k :
  (inject_Z k <= x)%Q -> (x < inject_Z (k + 1))%Q -> Qfloor x = k.
Proof.
  intros Hlo Hhi.
  pose proof (Qfloor_le x) as H1. pose proof (Qlt_floor x) as H2.
  assert (Ha : (inject_Z k < inject_Z (Qfloor x + 1))%Q) by (eapply Qle_lt_trans; eassumption).
  assert (Hb : (inject_Z (Qfloor x) < inject_Z (k + 1))%Q) by (eapply Qle_lt_trans; eassumption).
  rewrite <- Zlt_Qlt in Ha, Hb. lia.
Qed.

Lemma int_of_float_nonneg x : (0 <= x)%Q -> int_of_float x = Qfloor x.
Proof.
  intros H. unfold int_of_float. apply Qle_bool_iff in H. rewrite H. reflexivity.
Qed.

Lemma int_of_float_inject_Z x z : (x == inject_Z z)%Q -> int_of_float x = z.
Proof.
  intros H. unfold int_of_float. destruct (Qle_bool 0 x).
  - rewrite H. apply Qfloor_Z.
  - rewrite H. apply Qceiling_Z.
Qed.

End FloatFacts.
Import FloatFacts.

Lemma ease_first_half t : (t < 1 # 2)%Q -> ease_in_out_cubic t = (4 * t * t * t)%Q.
Proof. intros H. unfold ease_in_out_cubic. apply ltb_true_iff in H. rewrite H. reflexivity. Qed.

Lemma ease_second_half t :
  (1 # 2 <= t)%Q -> ease_in_out_cubic t = (1 - (-2 * t + 2) ^ 3 / 2)%Q.
Proof. intros H. unfold ease_in_out_cubic. apply ltb_false_iff in H. rewrite H. reflexivity. Qed.

Lemma cube_expand x : (x ^ 3 == x * x * x)%Q.
Proof. simpl. ring. Qed.

Lemma cube_monotone a b : (0 <= a)%Q -> (a <= b)%Q -> (a * a * a <= b * b * b)%Q.
Proof.
  intros Ha Hab. apply Qle_minus_iff.
  setoid_replace (b * b * b + - (a * a * a))%Q
    with ((b - a) * (b * b + a * b + a * a))%Q by ring.
  assert (Hb : (0 <= b)%Q) by lra.
  pose proof (Qmult_le_0_compat _ _ Ha Ha).
  pose proof (Qmult_le_0_compat _ _ Ha Hb).
  pose proof (Qmult_le_0_compat _ _ Hb Hb).
  apply Qmult_le_0_compat; lra.
Qed.

Lemma ease_second_half_cube t :
  (1 # 2 <= t)%Q ->
  (ease_in_out_cubic t == 1 - (1 # 2) * ((-2 * t + 2) * (-2 * t + 2) * (-2 * t + 2)))%Q.
Proof.
  intros H. rewrite ease_second_half by assumption. rewrite cube_expand. field.
Qed.

Lemma ease_monotone t1 t2 :
  (0 <= t1)%Q -> (t1 <= t2)%Q -> (t2 <= 1)%Q ->
  (ease_in_out_cubic t1 <= ease_in_out_cubic t2)%Q.
Proof.
  intros H0 H12 H1.
  destruct (Qlt_le_dec t1 (1 # 2)) as [Ha|Ha]; destruct (Qlt_le_dec t2 (1 # 2)) as [Hb|Hb].
  - rewrite !ease_first_half by assumption.
    pose proof (cube_monotone t1 t2 H0 H12). lra.
  - rewrite ease_first_half by assumption. rewrite ease_second_half_cube by assumption.
    assert (Hc1 : (t1 * t1 * t1 <= (1#2) * (1#2) * (1#2))%Q) by (apply cube_monotone; lra).
    assert (Hc2 : ((-2 * t2 + 2) * (-2 * t2 + 2) * (-2 * t2 + 2) <= 1 * 1 * 1)%Q)
      by (apply cube_monotone; lra).
    revert Hc2. generalize ((-2 * t2 + 2) * (-2 * t2 + 2) * (-2 * t2 + 2))%Q.
    intros u Hc2. lra.
  - exfalso. lra.
  - rewrite !ease_second_half_cube by assumption.
    assert (Hc : ((-2 * t2 + 2) * (-2 * t2 + 2) * (-2 * t2 + 2)
                  <= (-2 * t1 + 2) * (-2 * t1 + 2) * (-2 * t1 + 2))%Q)
      by (apply cube_monotone; lra).
    revert Hc. generalize ((-2 * t2 + 2) * (-2 * t2 + 2) * (-2 * t2 + 2))%Q.
    generalize ((-2 * t1 + 2) * (-2 * t1 + 2) * (-2 * t1 + 2))%Q.
    intros u1 u2 Hc. lra.
Qed.

(** C9.  [ease_in_out_cubic] is non-decreasing on [0, 1], with value 0 at
    0, 1 at 1 and 0.5 at 0.5; and [interpolate_color] returns exactly the
    first colour at ratio 0 and exactly the second colour at ratio 1. *)
Theorem ease_in_out_cubic_properties :
  (forall t1 t2 : Q,
      (0 <= t1)%Q -> (t1 <= t2)%Q -> (t2 <= 1)%Q ->
      (ease_in_out_cubic t1 <= ease_in_out_cubic t2)%Q)
  /\ (ease_in_out_cubic 0 == 0)%Q
  /\ (ease_in_out_cubic 1 == 1)%Q
  /\ (ease_in_out_cubic (1 # 2) == 1 # 2)%Q
  /\ (forall color1 color2 : color,
         interpolate_color color1 color2 0 = color1
         /\ interpolate_color color1 color2 1 = color2).
Proof.
  split; [exact ease_monotone|].
  assert (E0 : (ease_in_out_cubic 0 == 0)%Q) by reflexivity.
  assert (E1 : (ease_in_out_cubic 1 == 1)%Q) by reflexivity.
  split; [exact E0|]. split; [exact E1|]. split; [reflexivity|].
  intros [[r1 g1] b1] [[r2 g2] b2]. unfold interpolate_color. split.
  - f_equal; [f_equal|]; apply int_of_float_inject_Z; rewrite E0; ring.
  - f_equal; [f_equal|]; apply int_of_float_inject_Z; rewrite E1;
      unfold Z.sub; rewrite inject_Z_plus, inject_Z_opp; ring.
Qed.

(** ** The brightness ramp *)

(** C8.  With a well-formed wake time, [get_current_brightness] returns the
    base percentage whenever the ramp is disabled, or the local minute is
    before [wake_minute], or it is at or past [wake_minute + ramp_minutes];
    and with the ramp enabled, [wake_minute = 420], [ramp_minutes = 15],
    [ramp_start = 10] and [base = 100] it returns 10 at [m = 420], 100 at
    [m = 435] and a value strictly between 10 and 100 at [m = 427]. *)
Theorem get_current_brightness_ramp w wake :
  time_to_minutes (wake_time (settings w)) = Ok wake ->
  let s := settings w in
  let m := get_current_minutes w in
  ((brightness_ramp_enabled s = false
    \/ m < wake
    \/ m >= wake + brightness_ramp_minutes s) ->
   get_current_brightness w = Ok (inject_Z (brightness s)))
  /\ (brightness_ramp_enabled s = true -> wake = 420 ->
      brightness_ramp_minutes s = 15 -> brightness_ramp_start s = 10 ->
      brightness s = 100 ->
      (m = 420 -> exists q, get_current_brightness w = Ok q /\ (q == 10)%Q)
      /\ (m = 435 -> exists q, get_current_brightness w = Ok q /\ (q == 100)%Q)
      /\ (m = 427 ->
          exists q, get_current_brightness w = Ok q /\ (10 < q)%Q /\ (q < 100)%Q)).
Proof.
  intros Hw s m. subst s. split.
  - intros H. unfold get_current_brightness.
    destruct (brightness_ramp_enabled (settings w)) eqn:Hr; cbn [negb]; [|reflexivity].
    rewrite Hw. cbn [bind]. fold m.
    destruct H as [H | [H | H]]; [discriminate | |].
    + destruct (Z.geb_spec m wake); [lia|]. cbn [andb].
      destruct (m >=? wake + brightness_ramp_minutes (settings w)); reflexivity.
    + destruct (Z.ltb_spec m (wake + brightness_ramp_minutes (settings w))); [lia|].
      rewrite andb_false_r.
      destruct (m >=? wake + brightness_ramp_minutes (settings w)); reflexivity.
  - intros Hr -> Hd Hs Hb.
    unfold get_current_brightness. rewrite Hr, Hw. cbn [negb bind]. fold m.
    rewrite Hd, Hs, Hb.
    split; [|split]; intros ->.
    + eexists. split; [vm_compute; reflexivity | reflexivity].
    + eexists. split; [vm_compute; reflexivity | reflexivity].
    + eexists. split; [vm_compute; reflexivity | split; reflexivity].
Qed.

Lemma get_current_brightness_ramp_witness :
  exists q,
    get_current_brightness
      (example_world (example_settings "07:00" "21:00" 30 true false) 7 7 0 0 0) = Ok q
    /\ (10 < q)%Q /\ (q < 100)%Q.
Proof.
  apply (get_current_brightness_ramp
           (example_world (example_settings "07:00" "21:00" 30 true false) 7 7 0 0 0) 420);
    reflexivity.
Defined.

(** ** Syncing from the external clock *)

(** C10.  When there is no external clock, or the register read raises,
    [sync_time_from_ds3231] reports failure and leaves the world, and with it
    the internal clock, as it was; and on every path on which it reports
    failure the world is unchanged. *)
Theorem sync_failure_leaves_clock w :
  ((external_rtc w = None
    \/ exists bus e,
         external_rtc w = Some bus /\ readfrom_mem bus DS3231_ADDR 0 7 = Raise e) ->
   sync_time_from_ds3231 w = (false, w))
  /\ (forall w', sync_time_from_ds3231 w = (false, w') -> w' = w /\ rtc w' = rtc w).
Proof.
  split.
  - intros [Hnone | (bus & e & Hbus & Herr)]; unfold sync_time_from_ds3231.
    + rewrite Hnone. reflexivity.
    + rewrite Hbus. unfold read_ds3231_time. rewrite Hbus.
      unfold read_ds3231_registers. rewrite Herr. reflexivity.
  - intros w'. unfold sync_time_from_ds3231. destruct (external_rtc w).
    + destruct (read_ds3231_time w); intros E; inversion E; split; reflexivity.
    + intros E; inversion E; split; reflexivity.
Qed.

Lemma sync_failure_leaves_clock_witness :
  sync_time_from_ds3231 failing_bus_world = (false, failing_bus_world).
Proof.
  apply (sync_failure_leaves_clock failing_bus_world).
  right. exists failing_bus, OSError. split; reflexivity.
Defined.

(** * Further properties of the program *)

(** ** The calendar: periodicity and the last day of a month *)

Module CalendarMore.

Lemma Z_range_forallb (f : Z -> bool) n :
  forallb f (Z_range n) = true ->
  forall z, 0 <= z < Z.of_nat n -> f z = true.
Proof.
  intros H z Hz. rewrite forallb_forall in H. apply H.
  unfold Z_range. apply in_map_iff. exists (Z.to_nat z). split; [lia|].
  apply in_seq. lia.
Qed.

Lemma days_from_civil_shift y q m d :
  days_from_civil (y + 400 * q) m d = days_from_civil y m d + 146097 * q.
Proof.
  cbv beta zeta iota delta [days_from_civil].
  generalize ((m - 1) / 12). intros c.
  destruct ((m - 1) mod 12 + 1 <=? 2).
  - replace (y + 400 * q + c - 1) with (y + c - 1 + q * 400) by lia.
    rewrite Z.div_add by lia.
    replace (y + c - 1 + q * 400 - ((y + c - 1) / 400 + q) * 400)
      with (y + c - 1 - (y + c - 1) / 400 * 400) by lia.
    lia.
  - replace (y + 400 * q + c) with (y + c + q * 400) by lia.
    rewrite Z.div_add by lia.
    replace (y + c + q * 400 - ((y + c) / 400 + q) * 400)
      with (y + c - (y + c) / 400 * 400) by lia.
    lia.
Qed.

Lemma days_from_civil_day y m d :
  days_from_civil y m d = days_from_civil y m 0 + d.
Proof. cbv beta zeta iota delta [days_from_civil]. lia. Qed.

Lemma civil_mday_shift z q :
  snd (civil_from_days (z + 146097 * q)) = snd (civil_from_days z).
Proof.
  cbv beta zeta iota delta [civil_from_days snd].
  replace (z + 146097 * q + 719468) with (z + 719468 + q * 146097) by lia.
  rewrite Z.div_add by lia.
  replace (z + 719468 + q * 146097 - ((z + 719468) / 146097 + q) * 146097)
    with (z + 719468 - (z + 719468) / 146097 * 146097) by lia.
  reflexivity.
Qed.

Lemma is_leap_year_shift y q : is_leap_year (y + 400 * q) = is_leap_year y.
Proof.
  unfold is_leap_year.
  replace ((y + 400 * q) mod 4) with (y mod 4)
    by (replace (y + 400 * q) with (y + (100 * q) * 4) by lia; now rewrite Z.mod_add).
  replace ((y + 400 * q) mod 100) with (y mod 100)
    by (replace (y + 400 * q) with (y + (4 * q) * 100) by lia; now rewrite Z.mod_add).
  replace ((y + 400 * q) mod 400) with (y mod 400)
    by (replace (y + 400 * q) with (y + q * 400) by lia; now rewrite Z.mod_add).
  reflexivity.
Qed.

Lemma days_in_month_shift y q m : days_in_month (y + 400 * q) m = days_in_month y m.
Proof. unfold days_in_month. rewrite is_leap_year_shift. reflexivity. Qed.

Lemma days_in_month_bounds y m : 28 <= days_in_month y m <= 31.
Proof.
  unfold days_in_month. destruct (m =? 2); [destruct (is_leap_year y); lia|].
  destruct ((m =? 4) || (m =? 6) || (m =? 9) || (m =? 11)); lia.
Qed.

Lemma mktime_midnight_days y m d :
  (mktime y m d 0 0 0 - 86400) / 86400 = days_from_civil y m d - 1.
Proof.
  unfold mktime. generalize (days_from_civil y m d). intros n.
  Z.div_mod_to_equations. lia.
Qed.

Lemma mday_before_shift y q m d :
  snd (civil_from_days (days_from_civil (y + 400 * q) m d - 1))
  = snd (civil_from_days (days_from_civil y m d - 1)).
Proof.
  rewrite days_from_civil_shift.
  replace (days_from_civil y m d + 146097 * q - 1)
    with (days_from_civil y m d - 1 + 146097 * q) by lia.
  apply civil_mday_shift.
Qed.

Lemma last_day_of_month_shift y q m :
  last_day_of_month (y + 400 * q) m = last_day_of_month y m.
Proof.
  unfold last_day_of_month. destruct (m =? 12).
  - rewrite !localtime_mday, !mktime_midnight_days.
    replace (y + 400 * q + 1) with (y + 1 + 400 * q) by lia.
    apply mday_before_shift.
  - rewrite !localtime_mday, !mktime_midnight_days. apply mday_before_shift.
Qed.

Lemma last_day_check_all : forallb last_day_check (Z_range 4800) = true.
Proof. vm_compute. reflexivity. Qed.

Lemma last_day_of_month_base r m :
  0 <= r < 400 -> 1 <= m <= 12 -> last_day_of_month r m = days_in_month r m.
Proof.
  intros Hr Hm. apply Z.eqb_eq.
  replace r with ((r * 12 + (m - 1)) / 12) by (Z.div_mod_to_equations; lia).
  replace m with ((r * 12 + (m - 1)) mod 12 + 1) at 2 4
    by (Z.div_mod_to_equations; lia).
  apply (Z_range_forallb last_day_check 4800 last_day_check_all). lia.
Qed.

(** The backward search starts from the true last day of the month. *)
Lemma last_day_of_month_correct y m :
  1 <= m <= 12 -> last_day_of_month y m = days_in_month y m.
Proof.
  intros Hm.
  rewrite (Z.div_mod y 400) by lia.
  rewrite (Z.add_comm (400 * (y / 400))).
  rewrite last_day_of_month_shift, days_in_month_shift.
  apply last_day_of_month_base; [|exact Hm].
  apply Z.mod_pos_bound. lia.
Qed.

(** Weekdays advance with the day number, whatever the month. *)
Lemma current_weekday_offset y m d :
  current_weekday y m d = (d + current_weekday y m 0) mod 7.
Proof.
  unfold current_weekday. rewrite !localtime_wday.
  rewrite !mktime_days by lia. rewrite (days_from_civil_day y m d).
  generalize (days_from_civil y m 0). intros n.
  Z.div_mod_to_equations. lia.
Qed.

Lemma current_weekday_range y m d : 0 <= current_weekday y m d < 7.
Proof. unfold current_weekday. apply Z.mod_pos_bound. lia. Qed.

Lemma scan_forward_by_ext wd_of fuel y m weekday n :
  (forall d, current_weekday y m d = wd_of d) ->
  forall day count,
    scan_forward fuel y m weekday n day count
    = scan_forward_by wd_of fuel weekday n day count.
Proof.
  intros Hwd. induction fuel as [|fuel IH]; intros day count;
    cbn [scan_forward scan_forward_by].
  - reflexivity.
  - rewrite Hwd, !IH. reflexivity.
Qed.

Lemma scan_backward_by_ext wd_of fuel y m weekday :
  (forall d, current_weekday y m d = wd_of d) ->
  forall day,
    scan_backward fuel y m weekday day = scan_backward_by wd_of fuel weekday day.
Proof.
  intros Hwd. induction fuel as [|fuel IH]; intros day;
    cbn [scan_backward scan_backward_by].
  - reflexivity.
  - rewrite Hwd, !IH. reflexivity.
Qed.

End CalendarMore.
Import CalendarMore.

(** ** The Nth-weekday search *)

Module SearchFacts.

Lemma forward_check_all : forallb forward_check (Z_range 245) = true.
Proof. vm_compute. reflexivity. Qed.

Lemma backward_check_all : forallb backward_check (Z_range 196) = true.
Proof. vm_compute. reflexivity. Qed.

Lemma option_Z_eqb_eq a b : option_Z_eqb a b = true -> a = b.
Proof.
  destruct a as [x|], b as [y|]; simpl; intros H; try discriminate; [|reflexivity].
  apply Z.eqb_eq in H. congruence.
Qed.

Lemma forward_check_unfold k weekday n :
  0 <= k < 7 -> 0 <= weekday < 7 -> 1 <= n <= 5 ->
  forward_check (k + 7 * weekday + 49 * (n - 1)) =
  option_Z_eqb (scan_forward_by (fun day => (day + k) mod 7) 31 weekday n 1 0)
               (if first_match k weekday + 7 * (n - 1) <=? 31
                then Some (first_match k weekday + 7 * (n - 1)) else None).
Proof.
  intros Hk Hw Hn. unfold forward_check. cbv zeta.
  replace ((k + 7 * weekday + 49 * (n - 1)) mod 7) with k
    by (Z.div_mod_to_equations; lia).
  replace ((k + 7 * weekday + 49 * (n - 1)) / 7 mod 7) with weekday
    by (Z.div_mod_to_equations; lia).
  replace ((k + 7 * weekday + 49 * (n - 1)) / 49 + 1) with n
    by (Z.div_mod_to_equations; lia).
  reflexivity.
Qed.

Lemma scan_forward_by_enum k weekday n :
  0 <= k < 7 -> 0 <= weekday < 7 -> 1 <= n <= 5 ->
  scan_forward_by (fun day => (day + k) mod 7) 31 weekday n 1 0
  = if first_match k weekday + 7 * (n - 1) <=? 31
    then Some (first_match k weekday + 7 * (n - 1)) else None.
Proof.
  intros Hk Hw Hn. apply option_Z_eqb_eq.
  rewrite <- forward_check_unfold by assumption.
  apply (Z_range_forallb forward_check 245 forward_check_all). lia.
Qed.

Lemma backward_check_unfold k weekday last :
  0 <= k < 7 -> 0 <= weekday < 7 -> 28 <= last <= 31 ->
  backward_check (k + 7 * weekday + 49 * (last - 28)) =
  match scan_backward_by (fun day => (day + k) mod 7) (Z.to_nat last) weekday last with
  | Some d => (last - 7 <? d) && (d <=? last) && ((d + k) mod 7 =? weekday)
  | None => false
  end.
Proof.
  intros Hk Hw Hl. unfold backward_check. cbv zeta.
  replace ((k + 7 * weekday + 49 * (last - 28)) mod 7) with k
    by (Z.div_mod_to_equations; lia).
  replace ((k + 7 * weekday + 49 * (last - 28)) / 7 mod 7) with weekday
    by (Z.div_mod_to_equations; lia).
  replace ((k + 7 * weekday + 49 * (last - 28)) / 49 + 28) with last
    by (Z.div_mod_to_equations; lia).
  reflexivity.
Qed.

Lemma scan_backward_by_enum k weekday last :
  0 <= k < 7 -> 0 <= weekday < 7 -> 28 <= last <= 31 ->
  exists d,
    scan_backward_by (fun day => (day + k) mod 7) (Z.to_nat last) weekday last = Some d
    /\ last - 7 < d <= last /\ (d + k) mod 7 = weekday.
Proof.
  intros Hk Hw Hl.
  assert (Hc : backward_check (k + 7 * weekday + 49 * (last - 28)) = true)
    by (apply (Z_range_forallb backward_check 196 backward_check_all); lia).
  rewrite backward_check_unfold in Hc by assumption.
  destruct (scan_backward_by _ _ _ _) as [d|]; [|discriminate].
  exists d. split; [reflexivity|].
  rewrite !andb_true_iff in Hc. destruct Hc as [[H1 H2] H3].
  apply Z.ltb_lt in H1. apply Z.leb_le in H2. apply Z.eqb_eq in H3.
  split; [lia | exact H3].
Qed.

Lemma first_match_spec k weekday :
  0 <= k < 7 -> 0 <= weekday < 7 ->
  1 <= first_match k weekday <= 7
  /\ (first_match k weekday + k) mod 7 = weekday
  /\ (forall d, 1 <= d < first_match k weekday -> (d + k) mod 7 <> weekday).
Proof.
  intros Hk Hw. unfold first_match. split; [|split].
  - Z.div_mod_to_equations. lia.
  - Z.div_mod_to_equations. lia.
  - intros d Hd. Z.div_mod_to_equations. lia.
Qed.

Lemma get_nth_weekday_last year month weekday n :
  n <= 0 ->
  get_nth_weekday_of_month year month weekday n
  = scan_backward (Z.to_nat (last_day_of_month year month)) year month weekday
                  (last_day_of_month year month).
Proof.
  intros Hn. unfold get_nth_weekday_of_month, last_day_of_month.
  destruct (Z.gtb_spec n 0); [lia|].
  destruct (month =? 12); reflexivity.
Qed.

(** The forward search in closed form, from the alignment of the month. *)
Lemma get_nth_weekday_forward year month weekday n :
  0 <= weekday < 7 -> 1 <= n <= 5 ->
  get_nth_weekday_of_month year month weekday n
  = if first_match (current_weekday year month 0) weekday + 7 * (n - 1) <=? 31
    then Some (first_match (current_weekday year month 0) weekday + 7 * (n - 1))
    else None.
Proof.
  intros Hw Hn.
  pose proof (current_weekday_range year month 0) as Hk.
  unfold get_nth_weekday_of_month. destruct (Z.gtb_spec n 0); [|lia].
  rewrite (scan_forward_by_ext (fun day => (day + current_weekday year month 0) mod 7))
    by (intros d; apply current_weekday_offset).
  apply scan_forward_by_enum; assumption.
Qed.

(** The backward search finds a day among the last seven of the month. *)
Lemma get_nth_weekday_last_found year month weekday n :
  1 <= month <= 12 -> 0 <= weekday < 7 -> n <= 0 ->
  exists d,
    get_nth_weekday_of_month year month weekday n = Some d
    /\ days_in_month year month - 7 < d <= days_in_month year month
    /\ (d + current_weekday year month 0) mod 7 = weekday.
Proof.
  intros Hm Hw Hn.
  rewrite get_nth_weekday_last by exact Hn.
  rewrite last_day_of_month_correct by exact Hm.
  pose proof (days_in_month_bounds year month) as Hl.
  pose proof (current_weekday_range year month 0) as Hk.
  rewrite (scan_backward_by_ext (fun day => (day + current_weekday year month 0) mod 7))
    by (intros d; apply current_weekday_offset).
  exact (scan_backward_by_enum (current_weekday year month 0) weekday
                               (days_in_month year month) Hk Hw Hl).
Qed.

End SearchFacts.
Import SearchFacts.

(** X1.  For a weekday from 0 to 6 and an ordinal [n] from 1 to 5, the
    forward search finds the first day [first] of the month with that
    converted weekday, which is among the days 1 to 7, and returns
    [first + 7 * (n - 1)] when that number is at most 31 and [None]
    otherwise.  The length of the month plays no part: [time.mktime] carries
    a day past the end of the month over to the next one. *)
Theorem nth_weekday_forward year month weekday n :
  0 <= weekday < 7 -> 1 <= n <= 5 ->
  exists first,
    1 <= first <= 7
    /\ current_weekday year month first = weekday
    /\ (forall d, 1 <= d < first -> current_weekday year month d <> weekday)
    /\ get_nth_weekday_of_month year month weekday n
       = if first + 7 * (n - 1) <=? 31 then Some (first + 7 * (n - 1)) else None.
Proof.
  intros Hw Hn.
  pose proof (current_weekday_range year month 0) as Hk.
  destruct (first_match_spec (current_weekday year month 0) weekday Hk Hw)
    as (Hr & Hm & Hfirst).
  exists (first_match (current_weekday year month 0) weekday).
  split; [exact Hr|]. split; [rewrite current_weekday_offset; exact Hm|].
  split.
  - intros d Hd. rewrite current_weekday_offset. apply Hfirst. exact Hd.
  - apply get_nth_weekday_forward; assumption.
Qed.

Lemma nth_weekday_forward_witness :
  exists first,
    1 <= first <= 7
    /\ current_weekday 2023 2 first = 3
    /\ (forall d, 1 <= d < first -> current_weekday 2023 2 d <> 3)
    /\ get_nth_weekday_of_month 2023 2 3 5
       = if first + 7 * (5 - 1) <=? 31 then Some (first + 7 * (5 - 1)) else None.
Proof. apply (nth_weekday_forward 2023 2 3 5); lia. Defined.

(** X2.  For a month from 1 to 12 and a weekday from 0 to 6, the search of
    the last occurrence ([n <= 0]) always finds a day: it lies among the
    last seven days of the month, whose length (28 to 31 days, with leap
    years) the code obtains from the day before the first of the next month,
    and it has the converted weekday asked for. *)
Theorem nth_weekday_last year month weekday n :
  1 <= month <= 12 -> 0 <= weekday < 7 -> n <= 0 ->
  exists d,
    get_nth_weekday_of_month year month weekday n = Some d
    /\ days_in_month year month - 7 < d <= days_in_month year month
    /\ current_weekday year month d = weekday.
Proof.
  intros Hm Hw Hn.
  destruct (get_nth_weekday_last_found year month weekday n Hm Hw Hn) as (d & Hs & Hd & Hwd).
  exists d. split; [exact Hs|]. split; [exact Hd|].
  rewrite current_weekday_offset. exact Hwd.
Qed.

Lemma nth_weekday_last_witness :
  exists d,
    get_nth_weekday_of_month 2024 2 4 (-1) = Some d
    /\ days_in_month 2024 2 - 7 < d <= days_in_month 2024 2
    /\ current_weekday 2024 2 d = 4.
Proof. apply (nth_weekday_last 2024 2 4 (-1)); lia. Defined.

(** ** DST boundaries and local time *)

Module DstMore.

Lemma january_before_march y : days_from_civil y 1 31 + 28 <= days_from_civil y 3 1.
Proof.
  cbv beta zeta iota delta [days_from_civil].
  change ((1 - 1) / 12) with 0. change ((1 - 1) mod 12 + 1) with 1.
  change ((3 - 1) / 12) with 0. change ((3 - 1) mod 12 + 1) with 3.
  change (1 <=? 2) with true. change (3 <=? 2) with false.
  change (1 >? 2) with false. change (3 >? 2) with true. cbv beta iota.
  change ((153 * (1 + 9) + 2) / 5) with 306. change ((153 * (3 - 3) + 2) / 5) with 0.
  rewrite !Z.add_0_r.
  Z.div_mod_to_equations. lia.
Qed.

Lemma civil_year_of_january y d :
  1 <= d <= 31 -> fst (fst (civil_from_days (days_from_civil y 1 d))) = y.
Proof.
  intros Hd. cbv beta zeta iota delta [fst civil_from_days days_from_civil].
  change ((1 - 1) / 12) with 0. change ((1 - 1) mod 12 + 1) with 1.
  change (1 <=? 2) with true. change (1 >? 2) with false. cbv beta iota.
  change ((153 * (1 + 9) + 2) / 5) with 306.
  rewrite Z.add_0_r.
  set (era := (y - 1) / 400).
  set (yoe := y - 1 - era * 400).
  set (doy := 306 + d - 1).
  assert (Hyoe : 0 <= yoe <= 399) by (subst yoe era; Z.div_mod_to_equations; lia).
  assert (Hdoy : 306 <= doy <= 336) by (subst doy; lia).
  set (doe := yoe * 365 + yoe / 4 - yoe / 100 + doy).
  assert (Hdoe : 0 <= doe < 146097) by (subst doe; Z.div_mod_to_equations; lia).
  replace (era * 146097 + doe - 719468 + 719468) with (doe + era * 146097) by lia.
  rewrite Z.div_add by lia. rewrite (Z.div_small doe) by lia. rewrite Z.add_0_l.
  replace (doe + era * 146097 - era * 146097) with doe by lia.
  assert (Hy : (doe - doe / 1460 + doe / 36524 - doe / 146096) / 365 = yoe)
    by (subst doe; clearbody doy; Z.div_mod_to_equations; lia).
  rewrite Hy.
  replace (doe - (365 * yoe + yoe / 4 - yoe / 100)) with doy by (subst doe; lia).
  assert (Hmp : (5 * doy + 2) / 153 = 10) by (Z.div_mod_to_equations; lia).
  rewrite Hmp. change (10 <? 10) with false. cbv iota.
  change (10 - 9 <=? 2) with true. cbv iota.
  subst yoe. lia.
Qed.

Lemma mktime_days_full y m d h mi s :
  0 <= h < 24 -> 0 <= mi < 60 -> 0 <= s < 60 ->
  mktime y m d h mi s / 86400 = days_from_civil y m d.
Proof.
  intros Hh Hmi Hs. unfold mktime. generalize (days_from_civil y m d). intros n.
  Z.div_mod_to_equations. lia.
Qed.

Lemma days_month_lt y m1 d1 m2 d2 :
  3 <= m1 -> m1 + 2 <= m2 -> m2 <= 12 -> 1 <= d1 <= 31 -> 1 <= d2 <= 31 ->
  days_from_civil y m1 d1 < days_from_civil y m2 d2.
Proof.
  intros Hm1 Hm12 Hm2 Hd1 Hd2.
  pose proof (mktime_month_lt y m1 d1 0 m2 d2 0) as H.
  unfold mktime in H. lia.
Qed.

Lemma days_january_lt y d1 m2 d2 :
  3 <= m2 <= 12 -> 1 <= d1 <= 31 -> 1 <= d2 <= 31 ->
  days_from_civil y 1 d1 < days_from_civil y m2 d2.
Proof.
  intros Hm2 Hd1 Hd2.
  pose proof (january_before_march y) as H.
  rewrite (days_from_civil_day y 1 d1). rewrite (days_from_civil_day y 1 31) in H.
  assert (days_from_civil y 3 1 <= days_from_civil y m2 d2); [|lia].
  destruct (Z.eq_dec m2 3) as [->|Hne].
  - rewrite (days_from_civil_day y 3 d2), (days_from_civil_day y 3 1). lia.
  - destruct (Z.eq_dec m2 4) as [->|Hne4].
    + rewrite (days_from_civil_day y 4 d2), (days_from_civil_day y 3 1).
      cbv beta zeta iota delta [days_from_civil].
      change ((4 - 1) / 12) with 0. change ((4 - 1) mod 12 + 1) with 4.
      change ((3 - 1) / 12) with 0. change ((3 - 1) mod 12 + 1) with 3.
      change (4 <=? 2) with false. change (3 <=? 2) with false.
      change (4 >? 2) with true. change (3 >? 2) with true. cbv beta iota.
      change ((153 * (4 - 3) + 2) / 5) with 31. change ((153 * (3 - 3) + 2) / 5) with 0.
      lia.
    + pose proof (days_month_lt y 3 1 m2 d2). lia.
Qed.

Lemma localtime_mktime_year_full y m d h mi s :
  (m = 1 \/ 3 <= m <= 12) -> 1 <= d <= 31 ->
  0 <= h < 24 -> 0 <= mi < 60 -> 0 <= s < 60 ->
  tm_year (localtime (mktime y m d h mi s)) = y.
Proof.
  intros Hm Hd Hh Hmi Hs. rewrite localtime_year, mktime_days_full by assumption.
  destruct Hm as [->|Hm].
  - apply civil_year_of_january; assumption.
  - apply civil_year_of_days; assumption.
Qed.

(** The Nth occurrence, for [n] up to 4, exists in every month. *)
Lemma nth_weekday_found year month weekday n :
  0 <= weekday < 7 -> 1 <= n <= 4 ->
  exists d,
    get_nth_weekday_of_month year month weekday n = Some d
    /\ 7 * (n - 1) < d <= 7 * n.
Proof.
  intros Hw Hn.
  pose proof (current_weekday_range year month 0) as Hk.
  destruct (first_match_spec (current_weekday year month 0) weekday Hk Hw) as (Hf & _ & _).
  exists (first_match (current_weekday year month 0) weekday + 7 * (n - 1)).
  split; [|lia].
  rewrite get_nth_weekday_forward by lia.
  destruct (Z.leb_spec (first_match (current_weekday year month 0) weekday + 7 * (n - 1)) 31);
    [reflexivity | lia].
Qed.

(** The day a rule of the table asks for: the occurrence number [week] of
    the month when it is positive, the last occurrence otherwise. *)
Lemma rule_day_found year month week :
  1 <= month <= 12 -> week <= 4 ->
  exists d,
    get_nth_weekday_of_month year month 6 week = Some d
    /\ 1 <= d <= 31
    /\ (week > 0 -> 7 * (week - 1) < d <= 7 * week)
    /\ (week <= 0 -> days_in_month year month - 7 < d <= days_in_month year month).
Proof.
  intros Hm Hw. destruct (Z_le_gt_dec week 0) as [Hle|Hgt].
  - destruct (get_nth_weekday_last_found year month 6 week Hm) as (d & Hg & Hd & _);
      [lia | lia |].
    pose proof (days_in_month_bounds year month).
    exists d. split; [exact Hg|]. split; [lia|]. split; [lia | intros _; exact Hd].
  - destruct (nth_weekday_found year month 6 week) as (d & Hg & Hd); [lia | lia |].
    exists d. split; [exact Hg|]. split; [lia|]. split; [intros _; exact Hd | lia].
Qed.

Lemma rule_shape region rules :
  lookup_rule region DST_RULES = Some rules ->
  1 <= start_month rules <= 12 /\ 1 <= end_month rules <= 12
  /\ start_week rules <= 4 /\ end_week rules <= 4.
Proof.
  intros Hr. destruct (lookup_rule_cases _ _ Hr) as [E|[E|E]]; subst rules; simpl; lia.
Qed.

Lemma truthy_positive d : 1 <= d -> truthy (Some d) = true.
Proof. intros H. unfold truthy. destruct (Z.eqb_spec d 0); [lia | reflexivity]. Qed.

(** The boundaries of a rule of the table, from the days the search finds. *)
Lemma calculate_dst_transitions_days year region rules :
  lookup_rule region DST_RULES = Some rules ->
  exists sd ed,
    calculate_dst_transitions year region
    = (Some (mktime year (start_month rules) sd (start_hour rules) 0 0),
       Some (mktime year (end_month rules) ed (end_hour rules) 0 0))
    /\ (start_week rules > 0 -> 7 * (start_week rules - 1) < sd <= 7 * start_week rules)
    /\ (end_week rules > 0 -> 7 * (end_week rules - 1) < ed <= 7 * end_week rules).
Proof.
  intros Hr. destruct (rule_shape region rules Hr) as (Hsm & Hem & Hsw & Hew).
  destruct (rule_day_found year (start_month rules) (start_week rules) Hsm Hsw)
    as (sd & Hsd & Hsr & Hs1 & Hs2).
  destruct (rule_day_found year (end_month rules) (end_week rules) Hem Hew)
    as (ed & Hed & Her & He1 & He2).
  exists sd, ed. split; [|auto].
  unfold calculate_dst_transitions. rewrite Hr, Hsd, Hed.
  rewrite !truthy_positive by lia. reflexivity.
Qed.

End DstMore.
Import DstMore.

(** X3.  For every region of the rule table and every year,
    [calculate_dst_transitions] returns both boundaries, never
    [(None, None)]: each is the instant, at the rule's hour, of a day the
    search found, which lies in the week the rule names (days
    [7 * (week - 1) + 1] to [7 * week] for a positive [week], the last seven
    days of the month for the last occurrence). *)
Theorem dst_transitions_always_computed year region rules :
  lookup_rule region DST_RULES = Some rules ->
  exists sd ed,
    calculate_dst_transitions year region
    = (Some (mktime year (start_month rules) sd (start_hour rules) 0 0),
       Some (mktime year (end_month rules) ed (end_hour rules) 0 0))
    /\ (start_week rules > 0 -> 7 * (start_week rules - 1) < sd <= 7 * start_week rules)
    /\ (start_week rules <= 0 ->
        days_in_month year (start_month rules) - 7 < sd
        <= days_in_month year (start_month rules))
    /\ (end_week rules > 0 -> 7 * (end_week rules - 1) < ed <= 7 * end_week rules)
    /\ (end_week rules <= 0 ->
        days_in_month year (end_month rules) - 7 < ed
        <= days_in_month year (end_month rules)).
Proof.
  intros Hr. destruct (rule_shape region rules Hr) as (Hsm & Hem & Hsw & Hew).
  destruct (rule_day_found year (start_month rules) (start_week rules) Hsm Hsw)
    as (sd & Hsd & Hsr & Hs1 & Hs2).
  destruct (rule_day_found year (end_month rules) (end_week rules) Hem Hew)
    as (ed & Hed & Her & He1 & He2).
  exists sd, ed. split; [|auto].
  unfold calculate_dst_transitions. rewrite Hr, Hsd, Hed.
  rewrite !truthy_positive by lia. reflexivity.
Qed.

Lemma dst_transitions_always_computed_witness :
  exists sd ed,
    calculate_dst_transitions 2031 "EU"
    = (Some (mktime 2031 3 sd 1 0 0), Some (mktime 2031 10 ed 1 0 0))
    /\ (-1 > 0 -> 7 * (-1 - 1) < sd <= 7 * -1)
    /\ (-1 <= 0 -> days_in_month 2031 3 - 7 < sd <= days_in_month 2031 3)
    /\ (-1 > 0 -> 7 * (-1 - 1) < ed <= 7 * -1)
    /\ (-1 <= 0 -> days_in_month 2031 10 - 7 < ed <= days_in_month 2031 10).
Proof.
  apply (dst_transitions_always_computed 2031 "EU" (mk_rule 3 (-1) 1 10 (-1) 1 60)).
  reflexivity.
Defined.

(** X4.  With DST enabled, in every year: under the rule US every instant
    of July is in DST and every instant of January is not; under the rule
    AU, whose window wraps around the new year, every instant of January is
    in DST and every instant of July is not. *)
Theorem dst_summer_and_winter s year d h mi sec :
  dst_enabled s = true ->
  1 <= d <= 31 -> 0 <= h < 24 -> 0 <= mi < 60 -> 0 <= sec < 60 ->
  is_dst_active s (mktime year 7 d h mi sec) "US" = true
  /\ is_dst_active s (mktime year 1 d h mi sec) "US" = false
  /\ is_dst_active s (mktime year 1 d h mi sec) "AU" = true
  /\ is_dst_active s (mktime year 7 d h mi sec) "AU" = false.
Proof.
  intros Hen Hd Hh Hmi Hs.
  assert (Hy7 : tm_year (localtime (mktime year 7 d h mi sec)) = year)
    by (apply localtime_mktime_year_full; lia).
  assert (Hy1 : tm_year (localtime (mktime year 1 d h mi sec)) = year)
    by (apply localtime_mktime_year_full; lia).
  destruct (calculate_dst_transitions_days year "US" (mk_rule 3 2 2 11 1 2 60) eq_refl)
    as (sd & ed & Hus & Hsd & Hed).
  destruct (calculate_dst_transitions_days year "AU" (mk_rule 10 1 2 4 1 3 60) eq_refl)
    as (sd' & ed' & Hau & Hsd' & Hed').
  cbn [start_month start_week start_hour end_month end_week end_hour] in *.
  specialize (Hsd ltac:(lia)). specialize (Hed ltac:(lia)).
  specialize (Hsd' ltac:(lia)). specialize (Hed' ltac:(lia)).
  pose proof (days_month_lt year 3 sd 7 d) as L1.
  pose proof (days_month_lt year 7 d 11 ed) as L2.
  pose proof (days_january_lt year d 3 sd) as L3.
  pose proof (days_january_lt year d 4 ed') as L4.
  pose proof (days_month_lt year 4 ed' 7 d) as L5.
  pose proof (days_month_lt year 7 d 10 sd') as L6.
  repeat split.
  - rewrite (is_dst_active_unfold s _ "US" _ _ _ Hen eq_refl (eq_trans (f_equal (fun y => calculate_dst_transitions y "US") Hy7) Hus)).
    cbn [start_month end_month]. change (3 <? 11) with true. cbv iota.
    apply andb_true_iff. rewrite Z.leb_le, Z.ltb_lt. unfold mktime. lia.
  - rewrite (is_dst_active_unfold s _ "US" _ _ _ Hen eq_refl (eq_trans (f_equal (fun y => calculate_dst_transitions y "US") Hy1) Hus)).
    cbn [start_month end_month]. change (3 <? 11) with true. cbv iota.
    apply andb_false_iff. left. apply Z.leb_gt. unfold mktime. lia.
  - rewrite (is_dst_active_unfold s _ "AU" _ _ _ Hen eq_refl (eq_trans (f_equal (fun y => calculate_dst_transitions y "AU") Hy1) Hau)).
    cbn [start_month end_month]. change (10 <? 4) with false. cbv iota.
    apply orb_true_iff. right. apply Z.ltb_lt. unfold mktime. lia.
  - rewrite (is_dst_active_unfold s _ "AU" _ _ _ Hen eq_refl (eq_trans (f_equal (fun y => calculate_dst_transitions y "AU") Hy7) Hau)).
    cbn [start_month end_month]. change (10 <? 4) with false. cbv iota.
    apply orb_false_iff. split; [rewrite Z.geb_leb; apply Z.leb_gt | apply Z.ltb_ge];
      unfold mktime; lia.
Qed.

Lemma dst_summer_and_winter_witness :
  is_dst_active default_settings (mktime 2025 7 4 12 0 0) "US" = true
  /\ is_dst_active default_settings (mktime 2025 1 4 12 0 0) "US" = false
  /\ is_dst_active default_settings (mktime 2025 1 4 12 0 0) "AU" = true
  /\ is_dst_active default_settings (mktime 2025 7 4 12 0 0) "AU" = false.
Proof. apply (dst_summer_and_winter default_settings 2025 4 12 0 0); [reflexivity | lia ..]. Defined.

(** ** Local time *)

Module LocalTimeFacts.

Lemma localtime_minute_of_day t :
  tm_hour (localtime t) * 60 + tm_min (localtime t) = (t / 60) mod 1440.
Proof.
  unfold localtime. destruct (civil_from_days (t / 86400)) as [[y m] d].
  cbn [tm_hour tm_min]. Z.div_mod_to_equations. lia.
Qed.

Lemma utc_minute_of_day w extra :
  0 <= dt_seconds (rtc w) < 60 ->
  ((utc_timestamp w + extra * 60) / 60) mod 1440
  = (dt_hours (rtc w) * 60 + dt_minutes (rtc w) + extra) mod 1440.
Proof.
  intros Hs. unfold utc_timestamp, mktime.
  generalize (days_from_civil (dt_year (rtc w)) (dt_month (rtc w)) (dt_day (rtc w))).
  intros n. Z.div_mod_to_equations. lia.
Qed.

(** [get_local_time] without a DST shift, and with the shift of a rule. *)
Lemma get_local_time_standard w :
  (dst_region (settings w) = None
   \/ dst_enabled (settings w) = false
   \/ exists region,
        dst_region (settings w) = Some region /\ lookup_rule region DST_RULES = None) ->
  get_local_time w = localtime (utc_timestamp w + utc_offset_minutes (settings w) * 60).
Proof.
  intros H. unfold get_local_time. fold (utc_timestamp w).
  destruct H as [H | [H | (region & H & Hl)]].
  - rewrite H. reflexivity.
  - destruct (dst_region (settings w)) as [region|]; [|reflexivity].
    unfold is_dst_active. rewrite H. cbn [negb orb]. rewrite andb_false_r. reflexivity.
  - rewrite H. unfold is_dst_active, in_rules. rewrite Hl. cbn [negb].
    rewrite orb_true_r, andb_false_r. reflexivity.
Qed.

Lemma get_local_time_dst w region rules :
  dst_region (settings w) = Some region ->
  lookup_rule region DST_RULES = Some rules ->
  is_dst_active (settings w) (utc_timestamp w) region = true ->
  get_local_time w
  = localtime (utc_timestamp w
               + (utc_offset_minutes (settings w) + offset_minutes rules) * 60).
Proof.
  intros Hr Hl Ha. unfold get_local_time. fold (utc_timestamp w).
  rewrite Hr, Ha, Hl.
  assert (He : String.eqb region "" = false).
  { destruct (String.eqb_spec region ""); [subst region; discriminate | reflexivity]. }
  rewrite He. cbn [negb andb]. f_equal. lia.
Qed.

Lemma get_local_time_is_localtime w : exists t, get_local_time w = localtime t.
Proof. unfold get_local_time. eexists. reflexivity. Qed.

End LocalTimeFacts.
Import LocalTimeFacts.

(** X5.  Whatever the clock, the offsets and the DST rule, the local minute
    of the day that the schedule reads lies in [0, 1440). *)
Theorem get_current_minutes_range w : 0 <= get_current_minutes w < 1440.
Proof.
  unfold get_current_minutes. cbv zeta.
  destruct (get_local_time_is_localtime w) as [t ->].
  rewrite localtime_minute_of_day. apply Z.mod_pos_bound. lia.
Qed.

(** X6.  When no DST applies (no region configured, DST disabled, or a
    region that is not in the rule table), the local minute of the day is
    the minute of the internal clock shifted by [utc_offset_minutes], modulo
    one day. *)
Theorem get_current_minutes_standard w :
  (dst_region (settings w) = None
   \/ dst_enabled (settings w) = false
   \/ exists region,
        dst_region (settings w) = Some region /\ lookup_rule region DST_RULES = None) ->
  0 <= dt_seconds (rtc w) < 60 ->
  get_current_minutes w
  = (dt_hours (rtc w) * 60 + dt_minutes (rtc w) + utc_offset_minutes (settings w))
      mod 1440.
Proof.
  intros H Hs. unfold get_current_minutes. cbv zeta.
  rewrite get_local_time_standard by exact H.
  rewrite localtime_minute_of_day. apply utc_minute_of_day. exact Hs.
Qed.

Lemma get_current_minutes_standard_witness :
  get_current_minutes
    (mk_world
       (mk_settings "07:00" "21:00" true (255, 0, 0) (0, 255, 0) 30 (-300) true
                    (Some "XX"%string) 12 true 100 "RGB" true false 15 10 false 10 500)
       (mk_datetime 2024 7 4 0 2 30 15 0) None None None 0%Q 0%Q)
  = (2 * 60 + 30 + -300) mod 1440.
Proof.
  apply (get_current_minutes_standard
           (mk_world
              (mk_settings "07:00" "21:00" true (255, 0, 0) (0, 255, 0) 30 (-300) true
                           (Some "XX"%string) 12 true 100 "RGB" true false 15 10 false 10 500)
              (mk_datetime 2024 7 4 0 2 30 15 0) None None None 0%Q 0%Q)).
  - right. right. exists "XX"%string. split; reflexivity.
  - simpl. lia.
Defined.

(** X7.  When the configured region is in the rule table and
    [is_dst_active] holds at the clock's instant, the local minute of the
    day is shifted by [utc_offset_minutes] plus the rule's
    [offset_minutes], modulo one day. *)
Theorem get_current_minutes_dst w region rules :
  dst_region (settings w) = Some region ->
  lookup_rule region DST_RULES = Some rules ->
  is_dst_active (settings w) (utc_timestamp w) region = true ->
  0 <= dt_seconds (rtc w) < 60 ->
  get_current_minutes w
  = (dt_hours (rtc w) * 60 + dt_minutes (rtc w)
     + (utc_offset_minutes (settings w) + offset_minutes rules)) mod 1440.
Proof.
  intros Hr Hl Ha Hs. unfold get_current_minutes. cbv zeta.
  rewrite (get_local_time_dst w region rules Hr Hl Ha).
  rewrite localtime_minute_of_day. apply utc_minute_of_day. exact Hs.
Qed.

Lemma get_current_minutes_dst_witness :
  get_current_minutes
    (mk_world
       (mk_settings "07:00" "21:00" true (255, 0, 0) (0, 255, 0) 30 (-300) true
                    (Some "US"%string) 12 true 100 "RGB" true false 15 10 false 10 500)
       (mk_datetime 2024 7 4 0 2 30 15 0) None None None 0%Q 0%Q)
  = (2 * 60 + 30 + (-300 + 60)) mod 1440.
Proof.
  apply (get_current_minutes_dst
           (mk_world
              (mk_settings "07:00" "21:00" true (255, 0, 0) (0, 255, 0) 30 (-300) true
                           (Some "US"%string) 12 true 100 "RGB" true false 15 10 false 10 500)
              (mk_datetime 2024 7 4 0 2 30 15 0) None None None 0%Q 0%Q)
           "US" (mk_rule 3 2 2 11 1 2 60)).
  - reflexivity.
  - reflexivity.
  - vm_compute. reflexivity.
  - simpl. lia.
Defined.

(** ** The DS3231 codec *)

Module ClockMore.

Lemma bcd_check_all : forallb bcd_check (Z_range 100) = true.
Proof. vm_compute. reflexivity. Qed.

Lemma bcd_byte_check_all : forallb bcd_byte_check (Z_range 256) = true.
Proof. vm_compute. reflexivity. Qed.

Lemma bcd_field v :
  0 <= v <= 99 ->
  0 <= dec_to_bcd v <= 153
  /\ bcd_to_dec (dec_to_bcd v) = v
  /\ (v < 80 -> bcd_to_dec (Z.land (dec_to_bcd v) 127) = v)
  /\ (v < 40 -> bcd_to_dec (Z.land (dec_to_bcd v) 63) = v)
  /\ (v < 20 -> bcd_to_dec (Z.land (dec_to_bcd v) 31) = v).
Proof.
  intros Hv.
  assert (Hc : bcd_check v = true)
    by (apply (Z_range_forallb bcd_check 100 bcd_check_all); lia).
  unfold bcd_check in Hc. rewrite !andb_true_iff, !orb_true_iff in Hc.
  destruct Hc as (((((H1 & H2) & H3) & H4) & H5) & H6).
  apply Z.leb_le in H1, H2. apply Z.eqb_eq in H3.
  split; [lia|]. split; [exact H3|].
  split; [|split]; intros Hlt.
  - destruct H4 as [H4|H4]; [apply Z.leb_le in H4; lia | apply Z.eqb_eq; exact H4].
  - destruct H5 as [H5|H5]; [apply Z.leb_le in H5; lia | apply Z.eqb_eq; exact H5].
  - destruct H6 as [H6|H6]; [apply Z.leb_le in H6; lia | apply Z.eqb_eq; exact H6].
Qed.

Lemma byte_ok b : 0 <= b <= 255 -> (0 <=? b) && (b <=? 255) = true.
Proof. intros H. apply andb_true_iff. rewrite !Z.leb_le. lia. Qed.

Lemma read_registers_of_data bus d0 d1 d2 d3 d4 d5 d6 rest :
  readfrom_mem bus DS3231_ADDR 0 7 = Ok (d0 :: d1 :: d2 :: d3 :: d4 :: d5 :: d6 :: rest) ->
  read_ds3231_registers bus
  = Ok (mk_datetime (bcd_to_dec d6 + 2000) (bcd_to_dec (Z.land d5 31))
                    (bcd_to_dec (Z.land d4 63)) (bcd_to_dec (Z.land d3 7))
                    (bcd_to_dec (Z.land d2 63)) (bcd_to_dec (Z.land d1 127))
                    (bcd_to_dec (Z.land d0 127)) 0).
Proof. intros H. unfold read_ds3231_registers. rewrite H. reflexivity. Qed.

Lemma read_registers_short bus data :
  readfrom_mem bus DS3231_ADDR 0 7 = Ok data ->
  (List.length data < 7)%nat ->
  read_ds3231_registers bus = Raise IndexError.
Proof.
  intros H Hl. unfold read_ds3231_registers. rewrite H. cbn [bind].
  do 7 (destruct data as [|? data]; [reflexivity|]).
  simpl in Hl. lia.
Qed.

End ClockMore.
Import ClockMore.

(** X8.  The packed-decimal codec of the DS3231 registers: [dec_to_bcd]
    maps every number from 0 to 99 to a byte (at most 0x99) that
    [bcd_to_dec] maps back to it, and [dec_to_bcd] restores every byte whose
    two digits are decimal from what [bcd_to_dec] makes of it. *)
Theorem bcd_round_trip :
  (forall v, 0 <= v <= 99 ->
     0 <= dec_to_bcd v <= 153 /\ bcd_to_dec (dec_to_bcd v) = v)
  /\ (forall b, 0 <= b <= 255 -> Z.land b 15 <= 9 -> Z.shiftr b 4 <= 9 ->
        dec_to_bcd (bcd_to_dec b) = b /\ 0 <= bcd_to_dec b <= 99).
Proof.
  split.
  - intros v Hv. destruct (bcd_field v Hv) as (H1 & H2 & _). split; assumption.
  - intros b Hb Hlo Hhi.
    assert (Hc : bcd_byte_check b = true)
      by (apply (Z_range_forallb bcd_byte_check 256 bcd_byte_check_all); lia).
    unfold bcd_byte_check in Hc. apply orb_true_iff in Hc. destruct Hc as [Hc|Hc].
    + apply negb_true_iff, andb_false_iff in Hc.
      destruct Hc as [Hc|Hc]; apply Z.leb_gt in Hc; lia.
    + apply andb_true_iff in Hc. destruct Hc as [H1 H2].
      apply Z.eqb_eq in H1. apply Z.leb_le in H2. split; [exact H1|].
      split; [|exact H2]. unfold bcd_to_dec.
      pose proof (Z.shiftr_nonneg b 4). pose proof (Z.land_nonneg b 15). lia.
Qed.

(** X9.  A date and time in the ranges of the DS3231 (years 2000 to 2099)
    survive the trip through the chip: [write_ds3231_time] hands the bus
    seven bytes, and when the bus later returns these bytes
    [sync_time_from_ds3231] succeeds and sets the internal clock to the same
    year, month, day, hours, minutes and seconds, with weekday 1 and no
    subseconds. *)
Theorem write_then_sync year month day hours minutes seconds :
  2000 <= year <= 2099 -> 1 <= month <= 12 -> 1 <= day <= 31 ->
  0 <= hours < 24 -> 0 <= minutes < 60 -> 0 <= seconds < 60 ->
  exists data,
    List.length data = 7%nat
    /\ (forall w bus writeto_mem,
          external_rtc w = Some bus ->
          write_ds3231_time w writeto_mem year month day hours minutes seconds
          = match writeto_mem DS3231_ADDR 0 data with
            | Ok _ => true
            | Raise _ => false
            end)
    /\ (forall w bus,
          external_rtc w = Some bus ->
          readfrom_mem bus DS3231_ADDR 0 7 = Ok data ->
          sync_time_from_ds3231 w
          = (true, set_rtc (mk_datetime year month day 1 hours minutes seconds 0) w)).
Proof.
  intros Hy Hmo Hd Hh Hmi Hs.
  destruct (bcd_field seconds) as (Bs & _ & Rs & _); [lia|].
  destruct (bcd_field minutes) as (Bmi & _ & Rmi & _); [lia|].
  destruct (bcd_field hours) as (Bh & _ & _ & Rh & _); [lia|].
  destruct (bcd_field day) as (Bd & _ & _ & Rd & _); [lia|].
  destruct (bcd_field month) as (Bmo & _ & _ & _ & Rmo); [lia|].
  destruct (bcd_field (year - 2000)) as (By & Ry & _); [lia|].
  exists [dec_to_bcd seconds; dec_to_bcd minutes; dec_to_bcd hours; 1;
          dec_to_bcd day; dec_to_bcd month; dec_to_bcd (year - 2000)].
  split; [reflexivity|]. split.
  - intros w bus wr Hbus. unfold write_ds3231_time, bytearray. rewrite Hbus.
    cbn [forallb]. rewrite !byte_ok by lia. reflexivity.
  - intros w bus Hbus Hread. unfold sync_time_from_ds3231, read_ds3231_time.
    rewrite Hbus. rewrite (read_registers_of_data _ _ _ _ _ _ _ _ _ Hread).
    rewrite Rs, Rmi, Rh, Rd, Rmo, Ry by lia.
    change (bcd_to_dec (Z.land 1 7)) with 1.
    replace (year - 2000 + 2000) with year by lia. reflexivity.
Qed.

Lemma write_then_sync_witness :
  exists data,
    List.length data = 7%nat
    /\ (forall w bus writeto_mem,
          external_rtc w = Some bus ->
          write_ds3231_time w writeto_mem 2024 2 29 23 59 58
          = match writeto_mem DS3231_ADDR 0 data with
            | Ok _ => true
            | Raise _ => false
            end)
    /\ (forall w bus,
          external_rtc w = Some bus ->
          readfrom_mem bus DS3231_ADDR 0 7 = Ok data ->
          sync_time_from_ds3231 w
          = (true, set_rtc (mk_datetime 2024 2 29 1 23 59 58 0) w)).
Proof. apply (write_then_sync 2024 2 29 23 59 58); lia. Defined.

(** X10.  What a read of the register block does to the sync: fewer than
    seven bytes make it fail and leave the world as it was; seven bytes or
    more make it succeed, and then only the internal clock changes, to a
    time with no subseconds and a year from 2000 on. *)
Theorem sync_by_read_length w bus data :
  external_rtc w = Some bus ->
  readfrom_mem bus DS3231_ADDR 0 7 = Ok data ->
  ((List.length data < 7)%nat -> sync_time_from_ds3231 w = (false, w))
  /\ ((7 <= List.length data)%nat ->
      exists ds_time,
        sync_time_from_ds3231 w = (true, set_rtc ds_time w)
        /\ dt_subseconds ds_time = 0
        /\ (Forall (fun b => 0 <= b) data -> 2000 <= dt_year ds_time)).
Proof.
  intros Hbus Hread. split.
  - intros Hl. unfold sync_time_from_ds3231, read_ds3231_time. rewrite Hbus.
    rewrite (read_registers_short bus data Hread Hl). reflexivity.
  - intros Hl.
    destruct data as [|d0 [|d1 [|d2 [|d3 [|d4 [|d5 [|d6 rest]]]]]]];
      try (simpl in Hl; lia).
    eexists. unfold sync_time_from_ds3231, read_ds3231_time. rewrite Hbus.
    rewrite (read_registers_of_data _ _ _ _ _ _ _ _ _ Hread).
    split; [reflexivity|]. split; [reflexivity|].
    intros Hf. cbn [dt_year].
    assert (Hd6 : 0 <= d6).
    { do 6 (apply Forall_inv_tail in Hf). apply Forall_inv in Hf. exact Hf. }
    unfold bcd_to_dec.
    pose proof (Z.shiftr_nonneg d6 4). pose proof (Z.land_nonneg d6 15). lia.
Qed.

Lemma sync_by_read_length_witness :
  sync_time_from_ds3231
    (mk_world default_settings (mk_datetime 2024 1 15 0 12 0 0 0)
              (Some (mk_i2c (fun _ _ _ => Ok [0; 0; 0]))) None None 0%Q 0%Q)
  = (false,
     mk_world default_settings (mk_datetime 2024 1 15 0 12 0 0 0)
              (Some (mk_i2c (fun _ _ _ => Ok [0; 0; 0]))) None None 0%Q 0%Q).
Proof.
  apply (sync_by_read_length
           (mk_world default_settings (mk_datetime 2024 1 15 0 12 0 0 0)
                     (Some (mk_i2c (fun _ _ _ => Ok [0; 0; 0]))) None None 0%Q 0%Q)
           (mk_i2c (fun _ _ _ => Ok [0; 0; 0])) [0; 0; 0]).
  - reflexivity.
  - reflexivity.
  - simpl. lia.
Defined.

(** ** Dates and times as strings *)

Module StringFacts.

Lemma split_on_no_sep sep s : has_char sep s = false -> split_on sep s = [s].
Proof.
  induction s as [|c s IH]; intros H; [reflexivity|].
  cbn [has_char] in H. apply orb_false_iff in H. destruct H as [Hc Hs].
  cbn [split_on]. rewrite Hc, (IH Hs). reflexivity.
Qed.

Lemma split_on_app sep s1 s2 :
  has_char sep s1 = false ->
  split_on sep (s1 ++ String sep s2) = s1 :: split_on sep s2.
Proof.
  induction s1 as [|c s1 IH]; intros H.
  - cbn [append split_on]. rewrite Ascii.eqb_refl. reflexivity.
  - cbn [has_char] in H. apply orb_false_iff in H. destruct H as [Hc Hs].
    cbn [append split_on]. rewrite Hc, (IH Hs). reflexivity.
Qed.

Lemma year_str_check_all : forallb year_str_check (Z_range (Z.to_nat 10000)) = true.
Proof. vm_compute. reflexivity. Qed.

Lemma field_str_check_all : forallb field_str_check (Z_range 100) = true.
Proof. vm_compute. reflexivity. Qed.

Lemma result_Z_eqb_eq r z : result_Z_eqb r z = true -> r = Ok z.
Proof.
  destruct r as [x|e]; simpl; [|discriminate].
  intros H. apply Z.eqb_eq in H. congruence.
Qed.

Lemma year_str y :
  0 <= y <= 9999 ->
  has_char "-" (str_of_int y) = false /\ int_of_string (str_of_int y) = Ok y.
Proof.
  intros Hy.
  assert (Hc : year_str_check y = true)
    by (apply (Z_range_forallb year_str_check (Z.to_nat 10000) year_str_check_all); lia).
  unfold year_str_check in Hc. apply andb_true_iff in Hc. destruct Hc as [H1 H2].
  apply negb_true_iff in H1. apply result_Z_eqb_eq in H2. split; assumption.
Qed.

Lemma field_str v :
  0 <= v <= 99 ->
  has_char "-" (format_02d v) = false /\ has_char ":" (format_02d v) = false
  /\ int_of_string (format_02d v) = Ok v.
Proof.
  intros Hv.
  assert (Hc : field_str_check v = true)
    by (apply (Z_range_forallb field_str_check 100 field_str_check_all); lia).
  unfold field_str_check in Hc. rewrite !andb_true_iff in Hc.
  destruct Hc as [[H1 H2] H3].
  apply negb_true_iff in H1, H2. apply result_Z_eqb_eq in H3. auto.
Qed.

Lemma localtime_fields t :
  0 <= tm_hour (localtime t) < 24 /\ 0 <= tm_min (localtime t) < 60
  /\ 1 <= tm_mon (localtime t) <= 12 /\ 1 <= tm_mday (localtime t) <= 31.
Proof.
  split; [|split; [|split]]; [| | |apply localtime_mday_bounds].
  - unfold localtime. destruct (civil_from_days (t / 86400)) as [[y m] d].
    cbn [tm_hour]. Z.div_mod_to_equations. lia.
  - unfold localtime. destruct (civil_from_days (t / 86400)) as [[y m] d].
    cbn [tm_min]. Z.div_mod_to_equations. lia.
  - assert (Hm : tm_mon (localtime t) = snd (fst (civil_from_days (t / 86400)))).
    { unfold localtime. destruct (civil_from_days (t / 86400)) as [[y m] d]. reflexivity. }
    rewrite Hm. generalize (t / 86400). intros z.
    cbv beta zeta iota delta [civil_from_days fst snd].
    set (z0 := z + 719468).
    set (doe := z0 - z0 / 146097 * 146097).
    assert (Hdoe : 0 <= doe < 146097) by (subst doe; Z.div_mod_to_equations; lia).
    pose proof (doy_of_doe doe Hdoe) as Hdoy. cbv zeta in Hdoy.
    revert Hdoy.
    generalize (doe - (365 * ((doe - doe / 1460 + doe / 36524 - doe / 146096) / 365)
                       + (doe - doe / 1460 + doe / 36524 - doe / 146096) / 365 / 4
                       - (doe - doe / 1460 + doe / 36524 - doe / 146096) / 365 / 100)).
    intros doy Hdoy.
    destruct (Z.ltb_spec ((5 * doy + 2) / 153) 10); Z.div_mod_to_equations; lia.
Qed.

Lemma time_to_minutes_formatted h mi :
  0 <= h <= 99 -> 0 <= mi <= 99 ->
  time_to_minutes (format_02d h ++ ":" ++ format_02d mi) = Ok (h * 60 + mi).
Proof.
  intros Hh Hmi.
  destruct (field_str h Hh) as (_ & Hh2 & Hh3).
  destruct (field_str mi Hmi) as (_ & Hmi2 & Hmi3).
  unfold time_to_minutes. cbn [append].
  rewrite (split_on_app ":" (format_02d h) (format_02d mi) Hh2).
  rewrite (split_on_no_sep ":" (format_02d mi) Hmi2).
  cbn [index nth_error bind]. rewrite Hh3. cbn [bind]. rewrite Hmi3. reflexivity.
Qed.

End StringFacts.
Import StringFacts.

(** X11.  The time shown by [get_current_time_str] reads back, through
    [time_to_minutes], as the local minute of the day that the schedule
    uses. *)
Theorem current_time_str_round_trip w :
  time_to_minutes (get_current_time_str w) = Ok (get_current_minutes w).
Proof.
  unfold get_current_time_str, get_current_minutes. cbv zeta.
  destruct (get_local_time_is_localtime w) as [t ->].
  destruct (localtime_fields t) as (Hh & Hmi & _).
  apply time_to_minutes_formatted; lia.
Qed.

(** ** Setting the time *)

Module SetTimeFacts.

(** What a successful [set_time_from_string] has parsed and done. *)
Lemma set_time_from_string_ok date_str time_str writeto_mem w w' :
  set_time_from_string date_str time_str writeto_mem w = Ok w' ->
  exists year month day hour minute,
    time_to_minutes time_str = Ok (hour * 60 + minute)
    /\ w' = set_rtc (mk_datetime year month day 0 hour minute 0 0) w.
Proof.
  unfold set_time_from_string, time_to_minutes. intros H.
  destruct (index (split_on "-" date_str) 0) as [y0|]; cbn [bind] in H; [|discriminate].
  destruct (int_of_string y0) as [year|]; cbn [bind] in H; [|discriminate].
  destruct (index (split_on "-" date_str) 1) as [m0|]; cbn [bind] in H; [|discriminate].
  destruct (int_of_string m0) as [month|]; cbn [bind] in H; [|discriminate].
  destruct (index (split_on "-" date_str) 2) as [d0|]; cbn [bind] in H; [|discriminate].
  destruct (int_of_string d0) as [day|]; cbn [bind] in H; [|discriminate].
  destruct (index (split_on ":" time_str) 0) as [h0|]; cbn [bind] in H |- *; [|discriminate].
  destruct (int_of_string h0) as [hour|]; cbn [bind] in H |- *; [|discriminate].
  destruct (index (split_on ":" time_str) 1) as [mi0|]; cbn [bind] in H |- *; [|discriminate].
  destruct (int_of_string mi0) as [minute|]; cbn [bind] in H |- *; [|discriminate].
  inversion H; subst w'. clear H.
  exists year, month, day, hour, minute. split; reflexivity.
Qed.

Lemma date_str_parts y m d :
  0 <= y <= 9999 -> 0 <= m <= 99 -> 0 <= d <= 99 ->
  split_on "-" (str_of_int y ++ "-" ++ format_02d m ++ "-" ++ format_02d d)
  = [str_of_int y; format_02d m; format_02d d].
Proof.
  intros Hy Hm Hd.
  destruct (year_str y Hy) as (Hy1 & _).
  destruct (field_str m Hm) as (Hm1 & _).
  destruct (field_str d Hd) as (Hd1 & _).
  cbn [append].
  rewrite (split_on_app "-" _ _ Hy1), (split_on_app "-" _ _ Hm1).
  rewrite (split_on_no_sep "-" _ Hd1). reflexivity.
Qed.

Lemma time_str_parts h mi :
  0 <= h <= 99 -> 0 <= mi <= 99 ->
  split_on ":" (format_02d h ++ ":" ++ format_02d mi) = [format_02d h; format_02d mi].
Proof.
  intros Hh Hmi.
  destruct (field_str h Hh) as (_ & Hh2 & _).
  destruct (field_str mi Hmi) as (_ & Hmi2 & _).
  cbn [append]. rewrite (split_on_app ":" _ _ Hh2), (split_on_no_sep ":" _ Hmi2).
  reflexivity.
Qed.

Lemma get_current_minutes_set_rtc w year month day weekday hours minutes seconds sub :
  (dst_region (settings w) = None
   \/ dst_enabled (settings w) = false
   \/ exists region,
        dst_region (settings w) = Some region /\ lookup_rule region DST_RULES = None) ->
  0 <= seconds < 60 ->
  get_current_minutes
    (set_rtc (mk_datetime year month day weekday hours minutes seconds sub) w)
  = (hours * 60 + minutes + utc_offset_minutes (settings w)) mod 1440.
Proof.
  intros Hdst Hs. unfold get_current_minutes. cbv zeta.
  rewrite get_local_time_standard by exact Hdst.
  rewrite localtime_minute_of_day. rewrite utc_minute_of_day by exact Hs. reflexivity.
Qed.

Lemma get_current_minutes_unfold w :
  get_current_minutes w = tm_hour (get_local_time w) * 60 + tm_min (get_local_time w).
Proof. unfold get_current_minutes. reflexivity. Qed.

Lemma set_time_from_string_shown y mo d h mi writeto_mem w :
  0 <= y <= 9999 -> 1 <= mo <= 12 -> 1 <= d <= 31 -> 0 <= h < 24 -> 0 <= mi < 60 ->
  set_time_from_string
    (str_of_int y ++ "-" ++ format_02d mo ++ "-" ++ format_02d d)
    (format_02d h ++ ":" ++ format_02d mi) writeto_mem w
  = Ok (set_rtc (mk_datetime y mo d 0 h mi 0 0) w).
Proof.
  intros Hy Hmo Hd Hh Hmi.
  unfold set_time_from_string.
  rewrite date_str_parts by lia. rewrite time_str_parts by lia.
  destruct (year_str y Hy) as (_ & Ey).
  destruct (field_str mo) as (_ & _ & Emo); [lia|].
  destruct (field_str d) as (_ & _ & Ed); [lia|].
  destruct (field_str h) as (_ & _ & Eh); [lia|].
  destruct (field_str mi) as (_ & _ & Emi); [lia|].
  cbn [index nth_error bind].
  rewrite Ey. cbn [bind]. rewrite Emo. cbn [bind]. rewrite Ed. cbn [bind].
  rewrite Eh. cbn [bind]. rewrite Emi. cbn [bind]. reflexivity.
Qed.

End SetTimeFacts.
Import SetTimeFacts.

(** X12.  When [set_time_from_string] succeeds, the settings are untouched,
    the internal clock stands at second 0 of the minute the time string
    names, and (when no DST applies) the local minute the schedule then
    reads is that minute shifted by [utc_offset_minutes], modulo one day. *)
Theorem set_time_then_minutes date_str time_str writeto_mem w w' :
  set_time_from_string date_str time_str writeto_mem w = Ok w' ->
  exists minute_of_day,
    time_to_minutes time_str = Ok minute_of_day
    /\ settings w' = settings w
    /\ dt_seconds (rtc w') = 0
    /\ ((dst_region (settings w) = None
         \/ dst_enabled (settings w) = false
         \/ exists region,
              dst_region (settings w) = Some region
              /\ lookup_rule region DST_RULES = None) ->
        get_current_minutes w'
        = (minute_of_day + utc_offset_minutes (settings w)) mod 1440).
Proof.
  intros H.
  destruct (set_time_from_string_ok _ _ _ _ _ H)
    as (year & month & day & hour & minute & Ht & ->).
  exists (hour * 60 + minute). split; [exact Ht|]. split; [reflexivity|].
  split; [reflexivity|]. intros Hdst.
  apply get_current_minutes_set_rtc; [exact Hdst | lia].
Qed.

Lemma set_time_then_minutes_witness :
  exists minute_of_day,
    time_to_minutes "06:15" = Ok minute_of_day
    /\ settings (set_rtc (mk_datetime 2024 5 1 0 6 15 0 0) failing_bus_world)
       = settings failing_bus_world
    /\ dt_seconds (rtc (set_rtc (mk_datetime 2024 5 1 0 6 15 0 0) failing_bus_world)) = 0
    /\ ((dst_region (settings failing_bus_world) = None
         \/ dst_enabled (settings failing_bus_world) = false
         \/ exists region,
              dst_region (settings failing_bus_world) = Some region
              /\ lookup_rule region DST_RULES = None) ->
        get_current_minutes (set_rtc (mk_datetime 2024 5 1 0 6 15 0 0) failing_bus_world)
        = (minute_of_day + utc_offset_minutes (settings failing_bus_world)) mod 1440).
Proof.
  apply (set_time_then_minutes "2024-05-01" "06:15" (fun _ _ _ => Raise OSError)
           failing_bus_world).
  reflexivity.
Defined.

(** X13.  The settings page shows the local date and time in the fields it
    labels UTC.  Handing these two strings back to [set_time_from_string]
    (for a local year from 0 to 9999) sets the internal clock to the local
    date and time, seconds dropped: when no DST applies, the local minute
    moves on by [utc_offset_minutes], and only stays when that offset is a
    multiple of a day. *)
Theorem resubmitting_shown_time w writeto_mem :
  0 <= tm_year (get_local_time w) <= 9999 ->
  let shown_time := get_local_time w in
  let w' :=
    set_rtc (mk_datetime (tm_year shown_time) (tm_mon shown_time) (tm_mday shown_time) 0
                         (tm_hour shown_time) (tm_min shown_time) 0 0) w in
  set_time_from_string (get_current_date_str w) (get_current_time_str w) writeto_mem w
  = Ok w'
  /\ ((dst_region (settings w) = None
       \/ dst_enabled (settings w) = false
       \/ exists region,
            dst_region (settings w) = Some region
            /\ lookup_rule region DST_RULES = None) ->
      get_current_minutes w'
      = (get_current_minutes w + utc_offset_minutes (settings w)) mod 1440).
Proof.
  intros Hy shown_time w'. subst w' shown_time. split.
  - unfold get_current_date_str, get_current_time_str. cbv zeta.
    destruct (get_local_time_is_localtime w) as [t Ht]. rewrite Ht in Hy |- *.
    destruct (localtime_fields t) as (Hh & Hmi & Hmo & Hd).
    apply set_time_from_string_shown; assumption.
  - intros Hdst. rewrite get_current_minutes_set_rtc by (exact Hdst || lia).
    rewrite (get_current_minutes_unfold w). reflexivity.
Qed.

Lemma resubmitting_shown_time_witness :
  get_current_minutes
    (mk_world
       (mk_settings "07:00" "21:00" true (255, 0, 0) (0, 255, 0) 30 60 true None
                    12 true 100 "RGB" true false 15 10 false 10 500)
       (mk_datetime 2024 7 4 0 11 30 15 0) None None None 0%Q 0%Q)
  = 12 * 60 + 30
  /\ exists w',
       set_time_from_string "2024-07-04" "12:30" (fun _ _ _ => Raise OSError)
         (mk_world
            (mk_settings "07:00" "21:00" true (255, 0, 0) (0, 255, 0) 30 60 true None
                         12 true 100 "RGB" true false 15 10 false 10 500)
            (mk_datetime 2024 7 4 0 11 30 15 0) None None None 0%Q 0%Q)
       = Ok w'
       /\ get_current_minutes w' = 13 * 60 + 30.
Proof.
  split; [vm_compute; reflexivity|].
  destruct (resubmitting_shown_time
              (mk_world
                 (mk_settings "07:00" "21:00" true (255, 0, 0) (0, 255, 0) 30 60 true None
                              12 true 100 "RGB" true false 15 10 false 10 500)
                 (mk_datetime 2024 7 4 0 11 30 15 0) None None None 0%Q 0%Q)
              (fun _ _ _ => Raise OSError)) as [Hset Hmin].
  - vm_compute. split; discriminate.
  - eexists. split; [exact Hset|].
    rewrite Hmin; [vm_compute; reflexivity | left; reflexivity].
Defined.

(** ** The flash session *)

Module FlashFacts.

Lemma get_current_minutes_frame w1 w2 :
  settings w1 = settings w2 -> rtc w1 = rtc w2 ->
  get_current_minutes w1 = get_current_minutes w2.
Proof.
  intros Hs Hr. unfold get_current_minutes, get_local_time. rewrite Hs, Hr. reflexivity.
Qed.

Lemma should_flash_at_bedtime w bed :
  flash_enabled (settings w) = true ->
  bedtime_enabled (settings w) = true ->
  time_to_minutes (bedtime (settings w)) = Ok bed ->
  get_current_minutes w = bed ->
  should_flash w =
    let start := match flash_start_time w with
                 | None => clock w
                 | Some t0 => t0
                 end in
    if ltb (clock w - start) (inject_Z (flash_duration (settings w)))
    then Ok (true, set_flash_start_time (Some start) w)
    else Ok (false, set_flash_start_time None w).
Proof.
  intros Hf Hb Hbed Hm. unfold should_flash.
  rewrite Hf, Hb, Hbed. cbn [negb bind]. rewrite Hm, Z.eqb_refl. reflexivity.
Qed.

End FlashFacts.
Import FlashFacts.

(** X14.  What [should_flash] answers and leaves behind: it changes at most
    [flash_start_time]; when it answers false no session is open
    afterwards; when it answers true, the flash and the bedtime are enabled,
    the local minute is the bedtime minute, and a session is open whose
    start is the one already recorded, or the present instant if there was
    none, and less than [flash_duration] seconds old. *)
Theorem should_flash_outcome w flashing w' :
  should_flash w = Ok (flashing, w') ->
  w' = set_flash_start_time (flash_start_time w') w
  /\ (flashing = false -> flash_start_time w' = None)
  /\ (flashing = true ->
      flash_enabled (settings w) = true
      /\ bedtime_enabled (settings w) = true
      /\ time_to_minutes (bedtime (settings w)) = Ok (get_current_minutes w)
      /\ exists start,
           flash_start_time w' = Some start
           /\ (clock w - start < inject_Z (flash_duration (settings w)))%Q
           /\ start = match flash_start_time w with
                      | None => clock w
                      | Some t0 => t0
                      end).
Proof.
  unfold should_flash.
  destruct (flash_enabled (settings w)) eqn:Hf; cbn [negb];
    [|intros E; inversion E; subst; repeat split; discriminate].
  destruct (bedtime_enabled (settings w)) eqn:Hb; cbn [negb];
    [|intros E; inversion E; subst; repeat split; discriminate].
  destruct (time_to_minutes (bedtime (settings w))) as [bed|e] eqn:Hbed; cbn [bind];
    [|discriminate].
  destruct (Z.eqb_spec (get_current_minutes w) bed) as [Hm|Hm];
    [|intros E; inversion E; subst; repeat split; discriminate].
  cbv zeta. cbn [clock set_flash_start_time].
  destruct (ltb _ _) eqn:Hlt; intros E; inversion E; subst flashing w'; clear E.
  - split; [reflexivity|]. split; [discriminate|]. intros _.
    split; [reflexivity|]. split; [reflexivity|]. split; [congruence|].
    eexists. split; [reflexivity|]. split; [|reflexivity].
    apply ltb_true_iff. exact Hlt.
  - split; [reflexivity|]. split; [reflexivity | discriminate].
Qed.

Lemma should_flash_outcome_witness :
  exists w',
    should_flash (example_world (example_settings "07:00" "06:45" 30 false true) 6 45 5 0 0)
    = Ok (true, w')
    /\ flash_start_time w' = Some (inject_Z (mktime 2024 1 15 6 45 5) + 0)%Q.
Proof.
  eexists. split; [vm_compute; reflexivity|].
  destruct (should_flash_outcome
              (example_world (example_settings "07:00" "06:45" 30 false true) 6 45 5 0 0)
              true
              (set_flash_start_time (Some (inject_Z (mktime 2024 1 15 6 45 5) + 0)%Q)
                 (example_world (example_settings "07:00" "06:45" 30 false true) 6 45 5 0 0)))
    as (_ & _ & _).
  - vm_compute. reflexivity.
  - vm_compute. reflexivity.
Defined.

(** X15.  A session that has run its [flash_duration] does not end the
    flashing for the rest of the bedtime minute: the evaluation that finds
    it expired answers false and clears it, and the next evaluation in the
    same local minute, at any later reading [now] of the clock, opens a new
    session and answers true again (for a positive duration). *)
Theorem flash_session_restarts w bed start now :
  flash_enabled (settings w) = true ->
  bedtime_enabled (settings w) = true ->
  time_to_minutes (bedtime (settings w)) = Ok bed ->
  get_current_minutes w = bed ->
  flash_start_time w = Some start ->
  (inject_Z (flash_duration (settings w)) <= clock w - start)%Q ->
  0 < flash_duration (settings w) ->
  should_flash w = Ok (false, set_flash_start_time None w)
  /\ should_flash (set_clock now (set_flash_start_time None w))
     = Ok (true, set_flash_start_time (Some now) (set_clock now w)).
Proof.
  intros Hf Hb Hbed Hm Hs Hexp Hpos. split.
  - rewrite (should_flash_at_bedtime w bed Hf Hb Hbed Hm). cbv zeta. rewrite Hs.
    apply ltb_false_iff in Hexp. rewrite Hexp. reflexivity.
  - assert (Hm' : get_current_minutes (set_clock now (set_flash_start_time None w)) = bed)
      by (rewrite <- Hm; apply get_current_minutes_frame; reflexivity).
    rewrite (should_flash_at_bedtime (set_clock now (set_flash_start_time None w)) bed
               Hf Hb Hbed Hm').
    cbv zeta. cbn [flash_start_time set_clock set_flash_start_time clock settings].
    assert (Hlt : ltb (now - now) (inject_Z (flash_duration (settings w))) = true).
    { apply ltb_true_iff. setoid_replace (now - now)%Q with 0%Q by ring.
      change 0%Q with (inject_Z 0). rewrite <- Zlt_Qlt. exact Hpos. }
    rewrite Hlt. reflexivity.
Qed.

Lemma flash_session_restarts_witness :
  should_flash
    (set_flash_start_time (Some (inject_Z (mktime 2024 1 15 6 45 0)))
       (example_world (example_settings "07:00" "06:45" 30 false true) 6 45 10 0 0))
  = Ok (false,
        set_flash_start_time None
          (set_flash_start_time (Some (inject_Z (mktime 2024 1 15 6 45 0)))
             (example_world (example_settings "07:00" "06:45" 30 false true) 6 45 10 0 0)))
  /\ should_flash
       (set_clock (inject_Z (mktime 2024 1 15 6 45 20))
          (set_flash_start_time None
             (set_flash_start_time (Some (inject_Z (mktime 2024 1 15 6 45 0)))
                (example_world (example_settings "07:00" "06:45" 30 false true) 6 45 10 0 0))))
     = Ok (true,
           set_flash_start_time (Some (inject_Z (mktime 2024 1 15 6 45 20)))
             (set_clock (inject_Z (mktime 2024 1 15 6 45 20))
                (set_flash_start_time (Some (inject_Z (mktime 2024 1 15 6 45 0)))
                   (example_world (example_settings "07:00" "06:45" 30 false true)
                      6 45 10 0 0)))).
Proof.
  apply (flash_session_restarts
           (set_flash_start_time (Some (inject_Z (mktime 2024 1 15 6 45 0)))
              (example_world (example_settings "07:00" "06:45" 30 false true) 6 45 10 0 0))
           405 (inject_Z (mktime 2024 1 15 6 45 0)) (inject_Z (mktime 2024 1 15 6 45 20))).
  - reflexivity.
  - reflexivity.
  - reflexivity.
  - vm_compute. reflexivity.
  - reflexivity.
  - vm_compute. discriminate.
  - reflexivity.
Defined.

(** ** Driving the ring *)

Module RingFacts.

Lemma set_pixel_length buf i c : List.length (set_pixel buf i c) = List.length buf.
Proof.
  revert i. induction buf as [|p buf IH]; intros i; [reflexivity|].
  destruct i; cbn [set_pixel List.length]; [reflexivity | now rewrite IH].
Qed.

Lemma set_pixel_spec buf i c :
  (i < List.length buf)%nat ->
  set_pixel buf i c = firstn i buf ++ c :: skipn (S i) buf.
Proof.
  revert i. induction buf as [|p buf IH]; intros i Hi; [simpl in Hi; lia|].
  destruct i; cbn [set_pixel firstn skipn app]; [reflexivity|].
  rewrite IH by (simpl in Hi; lia). reflexivity.
Qed.

(** The loop fills [count] pixels from index [i] on when they fit. *)
Lemma assign_range_fits count c :
  forall i buf,
    (i + count <= List.length buf)%nat ->
    assign_range count i c buf
    = (firstn i buf ++ repeat c count ++ skipn (i + count) buf, true).
Proof.
  induction count as [|count IH]; intros i buf H.
  - cbn [assign_range repeat app]. rewrite Nat.add_0_r, firstn_skipn. reflexivity.
  - cbn [assign_range]. destruct (Nat.ltb_spec i (List.length buf)); [|lia].
    rewrite IH by (rewrite set_pixel_length; lia).
    rewrite set_pixel_spec by assumption. f_equal.
    rewrite firstn_app, firstn_firstn, Nat.min_r by lia.
    rewrite firstn_length_le by lia.
    replace (S i - i)%nat with 1%nat by lia. cbn [firstn].
    rewrite <- app_assoc. f_equal. cbn [app repeat]. f_equal. f_equal.
    rewrite skipn_app, firstn_length_le by lia.
    rewrite (skipn_all2 (firstn i buf)) by (rewrite firstn_length_le; lia).
    replace (S i + count - i)%nat with (S count) by lia.
    cbn [app]. change (skipn (S count) (c :: skipn (S i) buf))
      with (skipn count (skipn (S i) buf)).
    rewrite skipn_skipn. f_equal. lia.
Qed.

(** When they do not fit, the loop stops at the end of the buffer. *)
Lemma assign_range_overflow count c :
  forall i buf,
    (i <= List.length buf)%nat -> (List.length buf < i + count)%nat ->
    assign_range count i c buf
    = (firstn i buf ++ repeat c (List.length buf - i), false).
Proof.
  induction count as [|count IH]; intros i buf Hi H; [lia|].
  cbn [assign_range]. destruct (Nat.ltb_spec i (List.length buf)) as [Hlt|Hge].
  - rewrite IH by (rewrite set_pixel_length; lia).
    rewrite set_pixel_length, set_pixel_spec by assumption. f_equal.
    rewrite firstn_app, firstn_firstn, Nat.min_r by lia.
    rewrite firstn_length_le by lia.
    replace (S i - i)%nat with 1%nat by lia. cbn [firstn].
    rewrite <- app_assoc. f_equal.
    replace (List.length buf - i)%nat with (S (List.length buf - S i)) by lia.
    reflexivity.
  - replace (List.length buf - i)%nat with 0%nat by lia.
    cbn [repeat]. rewrite app_nil_r, firstn_all2 by lia. reflexivity.
Qed.

Lemma show_all_fits s c leds :
  (Z.to_nat (num_leds s) <= List.length (np_pixels leds))%nat ->
  show_all s c leds =
    mk_np (repeat c (Z.to_nat (num_leds s)) ++ skipn (Z.to_nat (num_leds s)) (np_pixels leds))
          (repeat c (Z.to_nat (num_leds s)) ++ skipn (Z.to_nat (num_leds s)) (np_pixels leds)).
Proof.
  intros H. unfold show_all. rewrite assign_range_fits by (simpl; lia). reflexivity.
Qed.

Lemma show_all_overflow s c leds :
  (List.length (np_pixels leds) < Z.to_nat (num_leds s))%nat ->
  show_all s c leds
  = mk_np (repeat c (List.length (np_pixels leds))) (np_strip leds).
Proof.
  intros H. unfold show_all. rewrite assign_range_overflow by (simpl; lia).
  cbn [firstn app]. rewrite Nat.sub_0_r. reflexivity.
Qed.

(** [set_all_leds] and [turn_off_leds] change nothing but the ring. *)
Lemma set_all_leds_frame r g b w w' :
  set_all_leds r g b w = Ok w' -> w' = set_np (np w') w.
Proof.
  unfold set_all_leds. destruct w as [s rt ext p fs lt ck]. cbn [np settings].
  destruct p as [leds|]; [|intros E; inversion E; reflexivity].
  destruct (negb (leds_enabled s)); [intros E; inversion E; reflexivity|].
  destruct (apply_brightness r g b _) as [[[r' g'] b']|e]; cbn [bind]; [|discriminate].
  intros E. inversion E. reflexivity.
Qed.

Lemma turn_off_leds_frame w : turn_off_leds w = set_np (np (turn_off_leds w)) w.
Proof.
  unfold turn_off_leds. destruct w as [s rt ext p fs lt ck]. cbn [np settings].
  destruct p; reflexivity.
Qed.

(** [should_flash] changes nothing but [flash_start_time]. *)
Lemma should_flash_frame w flashing w' :
  should_flash w = Ok (flashing, w') ->
  w' = set_flash_start_time (flash_start_time w') w.
Proof.
  unfold should_flash.
  destruct (negb (flash_enabled (settings w))); [intros E; inversion E; reflexivity|].
  destruct (negb (bedtime_enabled (settings w))); [intros E; inversion E; reflexivity|].
  destruct (time_to_minutes (bedtime (settings w))) as [bed|e]; cbn [bind]; [|discriminate].
  destruct (get_current_minutes w =? bed); [|intros E; inversion E; reflexivity].
  cbv zeta. destruct (ltb _ _); intros E; inversion E; reflexivity.
Qed.

(** Outside the bedtime minute, and with the flash or the bedtime switched
    off, [should_flash] answers false and clears the session. *)
Lemma should_flash_not_bedtime w :
  (flash_enabled (settings w) = false
   \/ bedtime_enabled (settings w) = false
   \/ exists bed, time_to_minutes (bedtime (settings w)) = Ok bed
                  /\ get_current_minutes w <> bed) ->
  should_flash w = Ok (false, set_flash_start_time None w).
Proof.
  intros H. unfold should_flash.
  destruct (flash_enabled (settings w)); cbn [negb]; [|reflexivity].
  destruct (bedtime_enabled (settings w)); cbn [negb]; [|reflexivity].
  destruct H as [H | [H | (bed & Hbed & Hne)]]; try discriminate.
  rewrite Hbed. cbn [bind].
  destruct (Z.eqb_spec (get_current_minutes w) bed); [contradiction | reflexivity].
Qed.

End RingFacts.
Import RingFacts.

(** ** The flash phase on a whole-second clock *)

(** At a whole-second reading and [flash_interval = 500] the quotient
    [current_time / flash_interval] is an even whole number. *)
Lemma flash_phase_whole_second t n :
  (t == inject_Z n)%Q -> flash_phase_on t (inject_Z 500 / 1000) = Ok true.
Proof.
  intros Ht. unfold flash_phase_on, truediv.
  replace (Qeq_bool (inject_Z 500 / 1000) 0) with false by reflexivity.
  cbn [bind].
  rewrite (int_of_float_inject_Z _ (2 * n)).
  - rewrite Z.mul_comm, Z_mod_mult. reflexivity.
  - rewrite Ht, inject_Z_mult. change (inject_Z 500) with 500%Q.
    change (inject_Z 2) with 2%Q. field.
Qed.

(** C4 (the code departs from the claim).  [time.time()] returns whole
    seconds on the Pico.  With [flash_interval = 500] the phase
    [int(current_time / flash_interval) % 2 == 0] then holds at every
    reading, so that two evaluations 600 ms apart have the same phase, not
    different ones, and [update_leds] never takes the branch that writes
    all-off: it leaves the ring as it is or writes the colour of the
    schedule.  During a flash session (bedtime 06:45 inside the transition
    window of wake time 07:00, local time 06:45:05) the ring is lit after
    the first evaluation, after one 600 ms later that reads the same second,
    and after one that reads the next second. *)
Theorem flash_never_dark_on_whole_seconds :
  (forall n : Z, flash_phase_on (inject_Z n) (inject_Z 500 / 1000) = Ok true)
  /\ (forall w n br r g b w',
        leds_enabled (settings w) = true ->
        flash_interval (settings w) = 500 ->
        (clock w == inject_Z n)%Q ->
        select_color w = Ok (br, (r, g, b)) ->
        update_leds w = Ok w' ->
        np w' = np w
        \/ exists w0,
             settings w0 = settings w /\ np w0 = np w
             /\ set_all_leds r g b w0 = Ok w')
  /\ (let w1 := example_world (example_settings "07:00" "06:45" 30 false true)
                              6 45 5 0 0 in
      exists w1',
        (exists w0, should_flash w1 = Ok (true, w0))
        /\ update_leds w1 = Ok w1'
        /\ shown (update_leds w1) = Some (repeat [127; 127; 0] 12)
        /\ (exists w0, should_flash w1' = Ok (true, w0))
        /\ shown (update_leds w1') = Some (repeat [127; 127; 0] 12)
        /\ (exists w0, should_flash (set_clock (clock w1 + 1) w1') = Ok (true, w0))
        /\ shown (update_leds (set_clock (clock w1 + 1) w1'))
           = Some (repeat [127; 127; 0] 12)).
Proof.
  split; [|split].
  - intros n. apply (flash_phase_whole_second _ n). reflexivity.
  - intros w n br r g b w' Hl Hfi Hck Hsel. unfold update_leds.
    rewrite Hl, Hsel. cbn [negb bind].
    destruct br;
      [intros E; right; exists w; split; [reflexivity | split; [reflexivity | exact E]]
      | | | ];
      (destruct (should_flash w) as [[flashing w0]|e] eqn:Hsf; cbn [bind]; [|discriminate];
       apply should_flash_frame in Hsf;
       assert (Hs0 : settings w0 = settings w) by (rewrite Hsf; reflexivity);
       assert (Hn0 : np w0 = np w) by (rewrite Hsf; reflexivity);
       assert (Hc0 : clock w0 = clock w) by (rewrite Hsf; reflexivity);
       destruct flashing;
       [ cbv zeta; destruct (geb _ _);
         [ rewrite Hs0, Hfi, Hc0, (flash_phase_whole_second (clock w) n Hck);
           cbn [bind]; intros E; right;
           exists (set_last_flash_toggle (clock w) w0);
           split; [exact Hs0 | split; [exact Hn0 | exact E]]
         | intros E; inversion E; subst w'; left; exact Hn0 ]
       | intros E; right; exists w0;
         split; [exact Hs0 | split; [exact Hn0 | exact E]] ]).
  - cbv zeta. eexists.
    split; [eexists; vm_compute; reflexivity|].
    split; [vm_compute; reflexivity|].
    split; [vm_compute; reflexivity|].
    split; [eexists; vm_compute; reflexivity|].
    split; [vm_compute; reflexivity|].
    split; [eexists; vm_compute; reflexivity|].
    vm_compute; reflexivity.
Qed.

(** X16.  An evaluation of [update_leds] that returns leaves the settings,
    the internal clock, the bus of the external clock and the time reading
    as they were: only the ring and the two flash timers can change. *)
Theorem update_leds_frame w w' :
  update_leds w = Ok w' ->
  settings w' = settings w /\ rtc w' = rtc w
  /\ external_rtc w' = external_rtc w /\ clock w' = clock w.
Proof.
  assert (Hset : forall r g b w0 w1,
            set_all_leds r g b w0 = Ok w1 ->
            settings w1 = settings w0 /\ rtc w1 = rtc w0
            /\ external_rtc w1 = external_rtc w0 /\ clock w1 = clock w0).
  { intros r g b w0 w1 E. apply set_all_leds_frame in E. rewrite E.
    repeat split. }
  unfold update_leds.
  destruct (negb (leds_enabled (settings w))).
  - intros E. inversion E. rewrite turn_off_leds_frame. repeat split.
  - destruct (select_color w) as [[br [[r g] b]]|e]; cbn [bind]; [|discriminate].
    assert (Hflash :
      (' (flashing, w0) <- should_flash w ;;
       if flashing then
         let flash_interval := (inject_Z (flash_interval (settings w0)) / 1000)%Q in
         let current_time := clock w0 in
         if geb (current_time - last_flash_toggle w0)%Q flash_interval then
           let w1 := set_last_flash_toggle current_time w0 in
           on <- flash_phase_on current_time flash_interval ;;
           if on then set_all_leds r g b w1 else set_all_leds 0 0 0 w1
         else Ok w0
       else set_all_leds r g b w0) = Ok w' ->
      settings w' = settings w /\ rtc w' = rtc w
      /\ external_rtc w' = external_rtc w /\ clock w' = clock w).
    { destruct (should_flash w) as [[flashing w0]|e] eqn:Hsf; cbn [bind]; [|discriminate].
      apply should_flash_frame in Hsf. rename Hsf into Hw0.
      assert (H0 : settings w0 = settings w /\ rtc w0 = rtc w
                   /\ external_rtc w0 = external_rtc w /\ clock w0 = clock w)
        by (rewrite Hw0; repeat split).
      destruct H0 as (H1 & H2 & H3 & H4).
      destruct flashing.
      - cbv zeta. destruct (geb _ _).
        + destruct (flash_phase_on _ _) as [on|e]; cbn [bind]; [|discriminate].
          destruct on; intros E; apply Hset in E; cbn [settings rtc external_rtc clock
            set_last_flash_toggle] in E; destruct E as (E1 & E2 & E3 & E4);
            repeat split; congruence.
        + intros E. inversion E; subst w'. repeat split; assumption.
      - intros E. apply Hset in E. destruct E as (E1 & E2 & E3 & E4).
        repeat split; congruence. }
    destruct br; [apply Hset | exact Hflash | exact Hflash | exact Hflash].
Qed.

Lemma update_leds_frame_witness :
  exists w',
    update_leds (example_world (example_settings "07:00" "06:45" 30 false true) 6 45 5 0 0)
    = Ok w'
    /\ settings w'
       = settings (example_world (example_settings "07:00" "06:45" 30 false true) 6 45 5 0 0).
Proof.
  destruct (update_leds
              (example_world (example_settings "07:00" "06:45" 30 false true) 6 45 5 0 0))
    as [w'|e] eqn:E.
  - exists w'. split; [reflexivity|].
    apply (update_leds_frame _ _ E).
  - exfalso. revert E. vm_compute. discriminate.
Defined.

(** X17.  With the LEDs disabled in the settings, [set_all_leds] does
    nothing whatever the colour; and on a ring of three-byte pixels (one
    created for the orders RGB and GRB) that holds [num_leds] pixels,
    [update_leds] writes all-off to the first [num_leds] pixels, whatever
    the time, the schedule and the flash, and leaves the flash timers
    untouched. *)
Theorem leds_disabled_dark w leds :
  leds_enabled (settings w) = false ->
  np w = Some leds ->
  Forall (fun p => List.length p = 3%nat) (np_pixels leds) ->
  (Z.to_nat (num_leds (settings w)) <= List.length (np_pixels leds))%nat ->
  let n := Z.to_nat (num_leds (settings w)) in
  let dark := repeat [0; 0; 0] n ++ skipn n (np_pixels leds) in
  (forall r g b, set_all_leds r g b w = Ok w)
  /\ update_leds w = Ok (set_np (Some (mk_np dark dark)) w).
Proof.
  intros Hl Hnp _ Hfit n dark. split.
  - intros r g b. unfold set_all_leds. rewrite Hnp, Hl. reflexivity.
  - unfold update_leds. rewrite Hl. cbn [negb]. unfold turn_off_leds. rewrite Hnp.
    rewrite show_all_fits by exact Hfit. reflexivity.
Qed.

Lemma leds_disabled_dark_witness :
  update_leds
    (mk_world default_settings (mk_datetime 2024 1 15 0 12 0 0 0) None
              (Some (mk_np (repeat [9; 9; 9] 12) (repeat [9; 9; 9] 12))) None 0%Q 0%Q)
  = Ok (set_np (Some (mk_np (repeat [0; 0; 0] 12) (repeat [0; 0; 0] 12)))
          (mk_world default_settings (mk_datetime 2024 1 15 0 12 0 0 0) None
                    (Some (mk_np (repeat [9; 9; 9] 12) (repeat [9; 9; 9] 12))) None 0%Q 0%Q)).
Proof.
  apply (leds_disabled_dark
           (mk_world default_settings (mk_datetime 2024 1 15 0 12 0 0 0) None
                     (Some (mk_np (repeat [9; 9; 9] 12) (repeat [9; 9; 9] 12))) None 0%Q 0%Q)
           (mk_np (repeat [9; 9; 9] 12) (repeat [9; 9; 9] 12))).
  - reflexivity.
  - reflexivity.
  - simpl. repeat constructor.
  - simpl. lia.
Defined.

(** X18.  When [num_leds] exceeds the size of the ring, the loop over the
    pixels raises [IndexError] after the last pixel, the handler skips
    [np.write()], and neither [turn_off_leds] nor [set_all_leds] changes
    what the ring shows: in particular [turn_off_leds] does not turn the
    LEDs off. *)
Theorem oversized_count_writes_nothing w leds :
  np w = Some leds ->
  (List.length (np_pixels leds) < Z.to_nat (num_leds (settings w)))%nat ->
  np (turn_off_leds w)
  = Some (mk_np (repeat [0; 0; 0] (List.length (np_pixels leds))) (np_strip leds))
  /\ (forall r g b w',
        set_all_leds r g b w = Ok w' ->
        exists leds', np w' = Some leds' /\ np_strip leds' = np_strip leds).
Proof.
  intros Hnp Hbig. split.
  - unfold turn_off_leds. rewrite Hnp. cbn [np set_np].
    rewrite show_all_overflow by exact Hbig. reflexivity.
  - intros r g b w'. unfold set_all_leds. rewrite Hnp.
    destruct (negb (leds_enabled (settings w))).
    + intros E. inversion E; subst w'. exists leds. split; [exact Hnp | reflexivity].
    + destruct (apply_brightness r g b w) as [[[r' g'] b']|e]; cbn [bind]; [|discriminate].
      intros E. inversion E; subst w'. cbn [np set_np].
      rewrite show_all_overflow by exact Hbig. eexists. split; reflexivity.
Qed.

Lemma oversized_count_writes_nothing_witness :
  np (turn_off_leds
        (mk_world default_settings (mk_datetime 2024 1 15 0 12 0 0 0) None
                  (Some (mk_np (repeat [9; 9; 9] 8) (repeat [9; 9; 9] 8))) None 0%Q 0%Q))
  = Some (mk_np (repeat [0; 0; 0] 8) (repeat [9; 9; 9] 8)).
Proof.
  apply (oversized_count_writes_nothing
           (mk_world default_settings (mk_datetime 2024 1 15 0 12 0 0 0) None
                     (Some (mk_np (repeat [9; 9; 9] 8) (repeat [9; 9; 9] 8))) None 0%Q 0%Q)
           (mk_np (repeat [9; 9; 9] 8) (repeat [9; 9; 9] 8))).
  - reflexivity.
  - simpl. lia.
Defined.

(** ** Colours and brightness *)

Module LedFacts.

(** Truncation keeps a float between two integers between them. *)
Lemma int_of_float_between a b x :
  (inject_Z a <= x)%Q -> (x <= inject_Z b)%Q -> a <= int_of_float x <= b.
Proof.
  intros Ha Hb. unfold int_of_float. destruct (Qle_bool 0 x).
  - split.
    + rewrite <- (Qfloor_Z a). apply Qfloor_resp_le. exact Ha.
    + rewrite <- (Qfloor_Z b). apply Qfloor_resp_le. exact Hb.
  - split.
    + rewrite <- (Qceiling_Z a). apply Qceiling_resp_le. exact Ha.
    + rewrite <- (Qceiling_Z b). apply Qceiling_resp_le. exact Hb.
Qed.

Lemma ease_range t : (0 <= t)%Q -> (t <= 1)%Q ->
  (0 <= ease_in_out_cubic t)%Q /\ (ease_in_out_cubic t <= 1)%Q.
Proof.
  intros H0 H1. split.
  - assert (E : (ease_in_out_cubic 0 == 0)%Q) by reflexivity.
    rewrite <- E. apply ease_monotone; [apply Qle_refl | exact H0 | exact H1].
  - assert (E : (ease_in_out_cubic 1 == 1)%Q) by reflexivity.
    rewrite <- E. apply ease_monotone; [exact H0 | exact H1 | apply Qle_refl].
Qed.

(** A mix [c1 + (c2 - c1) * e] with [e] in [0, 1] lies between its ends. *)
Lemma mix_between c1 c2 e :
  (0 <= e)%Q -> (e <= 1)%Q ->
  (inject_Z (Z.min c1 c2) <= inject_Z c1 + inject_Z (c2 - c1) * e)%Q
  /\ (inject_Z c1 + inject_Z (c2 - c1) * e <= inject_Z (Z.max c1 c2))%Q.
Proof.
  intros H0 H1.
  unfold Z.sub. rewrite inject_Z_plus, inject_Z_opp.
  assert (Hmin1 : (inject_Z (Z.min c1 c2) <= inject_Z c1)%Q)
    by (rewrite <- Zle_Qle; lia).
  assert (Hmin2 : (inject_Z (Z.min c1 c2) <= inject_Z c2)%Q)
    by (rewrite <- Zle_Qle; lia).
  assert (Hmax1 : (inject_Z c1 <= inject_Z (Z.max c1 c2))%Q)
    by (rewrite <- Zle_Qle; lia).
  assert (Hmax2 : (inject_Z c2 <= inject_Z (Z.max c1 c2))%Q)
    by (rewrite <- Zle_Qle; lia).
  revert Hmin1 Hmin2 Hmax1 Hmax2.
  generalize (inject_Z (Z.min c1 c2)) (inject_Z (Z.max c1 c2)) (inject_Z c1) (inject_Z c2).
  intros lo hi x y Hl1 Hl2 Hh1 Hh2.
  assert (Hxy : (x + (y + - x) * e == (1 - e) * x + e * y)%Q) by ring.
  rewrite Hxy.
  assert (A1 : (0 <= (1 - e) * (x - lo))%Q) by (apply Qmult_le_0_compat; lra).
  assert (A2 : (0 <= e * (y - lo))%Q) by (apply Qmult_le_0_compat; lra).
  assert (A3 : (0 <= (1 - e) * (hi - x))%Q) by (apply Qmult_le_0_compat; lra).
  assert (A4 : (0 <= e * (hi - y))%Q) by (apply Qmult_le_0_compat; lra).
  split; nra.
Qed.

(** A quotient [a / b] of integers with [0 <= a < b]. *)
Lemma progress_range a b q :
  0 <= a < b -> truediv (inject_Z a) (inject_Z b) = Ok q -> (0 <= q)%Q /\ (q <= 1)%Q.
Proof.
  intros Hab. unfold truediv. destruct (Qeq_bool (inject_Z b) 0); [discriminate|].
  intros E. inversion E; subst q; clear E.
  assert (Hb : (0 < inject_Z b)%Q) by (change 0%Q with (inject_Z 0); rewrite <- Zlt_Qlt; lia).
  assert (Ha : (0 <= inject_Z a)%Q) by (change 0%Q with (inject_Z 0); rewrite <- Zle_Qle; lia).
  assert (Hle : (inject_Z a <= inject_Z b)%Q) by (rewrite <- Zle_Qle; lia).
  split.
  - apply Qle_shift_div_l; [exact Hb | lra].
  - apply Qle_shift_div_r; [exact Hb | lra].
Qed.

(** The brightness percentage lies between the start of the ramp and the
    base brightness, whatever the time. *)
Lemma get_current_brightness_between w q :
  get_current_brightness w = Ok q ->
  let lo := Z.min (brightness_ramp_start (settings w)) (brightness (settings w)) in
  let hi := Z.max (brightness_ramp_start (settings w)) (brightness (settings w)) in
  (inject_Z lo <= q)%Q /\ (q <= inject_Z hi)%Q.
Proof.
  intros H lo hi. subst lo hi.
  assert (Hbase : (inject_Z (Z.min (brightness_ramp_start (settings w)) (brightness (settings w)))
                   <= inject_Z (brightness (settings w)))%Q
                  /\ (inject_Z (brightness (settings w))
                      <= inject_Z (Z.max (brightness_ramp_start (settings w))
                                         (brightness (settings w))))%Q)
    by (split; rewrite <- Zle_Qle; lia).
  revert H. unfold get_current_brightness.
  destruct (negb (brightness_ramp_enabled (settings w)));
    [intros E; inversion E; subst q; exact Hbase|].
  destruct (time_to_minutes (wake_time (settings w))) as [wake|e]; cbn [bind]; [|discriminate].
  cbv zeta.
  destruct (Z.geb_spec (get_current_minutes w) wake) as [Hge|Hlt]; cbn [andb].
  - destruct (Z.ltb_spec (get_current_minutes w)
                         (wake + brightness_ramp_minutes (settings w))) as [Hin|Hout].
    + destruct (truediv _ _) as [p|e] eqn:Hp; cbn [bind]; [|discriminate].
      intros E; inversion E; subst q; clear E.
      apply progress_range in Hp; [|lia]. destruct Hp as [Hp0 Hp1].
      destruct (ease_range p Hp0 Hp1) as [He0 He1].
      apply mix_between; assumption.
    + destruct (_ >=? _); intros E; inversion E; subst q; exact Hbase.
  - destruct (_ >=? _); intros E; inversion E; subst q; exact Hbase.
Qed.

(** A channel scaled by a percentage between 0 and 100. *)
Lemma scaled_channel_range c q :
  0 <= c -> (0 <= q)%Q -> (q <= 100)%Q ->
  0 <= int_of_float (inject_Z c * (q / 100))%Q <= c.
Proof.
  intros Hc H0 H100. apply int_of_float_between.
  - change (inject_Z 0) with 0%Q. apply Qmult_le_0_compat.
    + change 0%Q with (inject_Z 0). rewrite <- Zle_Qle. exact Hc.
    + apply Qle_shift_div_l; lra.
  - assert (Hc' : (0 <= inject_Z c)%Q)
      by (change 0%Q with (inject_Z 0); rewrite <- Zle_Qle; exact Hc).
    assert (Hq : (q / 100 <= 1)%Q) by (apply Qle_shift_div_r; lra).
    assert (Hq0 : (0 <= q / 100)%Q) by (apply Qle_shift_div_l; lra).
    revert Hq Hq0. generalize (q / 100)%Q. intros f Hf1 Hf0.
    assert (A : (0 <= inject_Z c * (1 - f))%Q) by (apply Qmult_le_0_compat; lra).
    nra.
Qed.

Lemma full_brightness_channel c : int_of_float (inject_Z c * (inject_Z 100 / 100))%Q = c.
Proof.
  apply int_of_float_inject_Z. change (inject_Z 100) with 100%Q. field.
Qed.

Lemma zero_brightness_channel c : int_of_float (inject_Z c * (inject_Z 0 / 100))%Q = 0.
Proof.
  apply int_of_float_inject_Z. change (inject_Z 0) with 0%Q. field.
Qed.

(** Where the normal wake-up logic runs, the local minute is outside the
    stay period. *)
Lemma select_color_branch w br c :
  select_color w = Ok (br, c) ->
  br <> InStayPeriod ->
  bedtime_enabled (settings w) = false
  \/ exists wake bed,
       time_to_minutes (wake_time (settings w)) = Ok wake
       /\ time_to_minutes (bedtime (settings w)) = Ok bed
       /\ in_stay_period bed wake (wake - transition_minutes (settings w))
                         (get_current_minutes w) = false.
Proof.
  unfold select_color.
  destruct (time_to_minutes (wake_time (settings w))) as [wake|e]; cbn [bind]; [|discriminate].
  destruct (bedtime_enabled (settings w)); [|intros _ _; left; reflexivity].
  destruct (time_to_minutes (bedtime (settings w))) as [bed|e]; cbn [bind]; [|discriminate].
  cbv zeta.
  destruct (in_stay_period _ _ _ _) eqn:Hin.
  - intros E; inversion E; subst br. congruence.
  - intros _ _. right. exists wake, bed. repeat split. exact Hin.
Qed.

Lemma select_color_in_transition w c :
  select_color w = Ok (InTransition, c) ->
  exists wake progress,
    time_to_minutes (wake_time (settings w)) = Ok wake
    /\ wake - transition_minutes (settings w) <= get_current_minutes w < wake
    /\ truediv (inject_Z (get_current_minutes w - (wake - transition_minutes (settings w))))
               (inject_Z (transition_minutes (settings w))) = Ok progress
    /\ c = interpolate_color (stay_color (settings w)) (wake_color (settings w)) progress.
Proof.
  assert (Hwt : forall wake,
            wake_transition (settings w) wake (wake - transition_minutes (settings w))
                            (get_current_minutes w) = Ok (InTransition, c) ->
            exists progress,
              wake - transition_minutes (settings w) <= get_current_minutes w < wake
              /\ truediv (inject_Z (get_current_minutes w
                                    - (wake - transition_minutes (settings w))))
                         (inject_Z (transition_minutes (settings w))) = Ok progress
              /\ c = interpolate_color (stay_color (settings w)) (wake_color (settings w))
                                       progress).
  { intros wake. unfold wake_transition.
    destruct (Z.geb_spec (get_current_minutes w) wake); [discriminate|].
    destruct (Z.geb_spec (get_current_minutes w) (wake - transition_minutes (settings w)));
      [|discriminate].
    destruct (truediv _ _) as [p|e] eqn:Hp; cbn [bind]; [|discriminate].
    intros E; inversion E. exists p. repeat split; try lia. }
  unfold select_color.
  destruct (time_to_minutes (wake_time (settings w))) as [wake|e]; cbn [bind]; [|discriminate].
  cbv zeta. intros H.
  assert (H' : wake_transition (settings w) wake (wake - transition_minutes (settings w))
                               (get_current_minutes w) = Ok (InTransition, c)).
  { destruct (bedtime_enabled (settings w)); [|exact H].
    destruct (time_to_minutes (bedtime (settings w))) as [bed|e]; cbn [bind] in H;
      [|discriminate].
    destruct (in_stay_period _ _ _ _); [discriminate | exact H]. }
  destruct (Hwt wake H') as (p & Hr & Hp & Hc).
  exists wake, p. repeat split; try assumption; lia.
Qed.

End LedFacts.
Import LedFacts.

(** X19.  When the bedtime lies after the wake time (the usual evening
    bedtime) or before the start of the wake-up transition, the flash never
    reaches the ring: whatever the flash settings and the state of the
    flash session, [update_leds] shows the colour of the schedule, as
    [set_all_leds] would, changing at most [flash_start_time], which it
    clears. *)
Theorem flash_never_shown_outside_transition w wake bed br r g b :
  leds_enabled (settings w) = true ->
  time_to_minutes (wake_time (settings w)) = Ok wake ->
  time_to_minutes (bedtime (settings w)) = Ok bed ->
  wake < bed \/ bed < wake - transition_minutes (settings w) ->
  select_color w = Ok (br, (r, g, b)) ->
  update_leds w = set_all_leds r g b w
  \/ update_leds w = set_all_leds r g b (set_flash_start_time None w).
Proof.
  intros Hl Hw Hb Hpos Hsel.
  assert (Hsf : br <> InStayPeriod ->
                should_flash w = Ok (false, set_flash_start_time None w)).
  { intros Hbr. apply should_flash_not_bedtime.
    destruct (select_color_branch w br (r, g, b) Hsel Hbr)
      as [Hoff | (wake' & bed' & Hw' & Hb' & Hin)].
    - right. left. exact Hoff.
    - right. right. exists bed. split; [exact Hb|].
      rewrite Hw in Hw'. rewrite Hb in Hb'.
      inversion Hw'; inversion Hb'; subst wake' bed'. clear Hw' Hb'.
      intros Heq. revert Hin. unfold in_stay_period. rewrite Heq.
      destruct (Z.gtb_spec bed wake).
      + destruct (Z.geb_spec bed bed); [discriminate | lia].
      + destruct (Z.geb_spec bed bed); [|lia].
        destruct (Z.ltb_spec bed (wake - transition_minutes (settings w)));
          [discriminate | lia]. }
  unfold update_leds. rewrite Hl, Hsel. cbn [negb bind].
  destruct br; [left; reflexivity | | |];
    right; rewrite Hsf by discriminate; reflexivity.
Qed.

Lemma flash_never_shown_outside_transition_witness :
  update_leds (example_world (example_settings "07:00" "21:00" 30 false true) 21 0 5 (3 # 4) 0)
  = set_all_leds 255 0 0
      (example_world (example_settings "07:00" "21:00" 30 false true) 21 0 5 (3 # 4) 0)
  \/ update_leds
       (example_world (example_settings "07:00" "21:00" 30 false true) 21 0 5 (3 # 4) 0)
     = set_all_leds 255 0 0
         (set_flash_start_time None
            (example_world (example_settings "07:00" "21:00" 30 false true)
               21 0 5 (3 # 4) 0)).
Proof.
  apply (flash_never_shown_outside_transition
           (example_world (example_settings "07:00" "21:00" 30 false true) 21 0 5 (3 # 4) 0)
           420 1260 InStayPeriod 255 0 0).
  - reflexivity.
  - reflexivity.
  - reflexivity.
  - left. lia.
  - vm_compute. reflexivity.
Defined.

(** X20.  During the wake-up transition every channel of the colour shown
    lies between that channel of the stay colour and of the wake colour:
    the interpolation never overshoots either end. *)
Theorem transition_color_between w r g b :
  select_color w = Ok (InTransition, (r, g, b)) ->
  let '(r1, g1, b1) := stay_color (settings w) in
  let '(r2, g2, b2) := wake_color (settings w) in
  Z.min r1 r2 <= r <= Z.max r1 r2
  /\ Z.min g1 g2 <= g <= Z.max g1 g2
  /\ Z.min b1 b2 <= b <= Z.max b1 b2.
Proof.
  intros Hsel.
  destruct (select_color_in_transition w (r, g, b) Hsel) as (wake & p & Hw & Hr & Hp & Hc).
  apply progress_range in Hp; [|lia]. destruct Hp as [Hp0 Hp1].
  destruct (ease_range p Hp0 Hp1) as [He0 He1].
  destruct (stay_color (settings w)) as [[r1 g1] b1].
  destruct (wake_color (settings w)) as [[r2 g2] b2].
  unfold interpolate_color in Hc. cbv zeta in Hc. inversion Hc; subst r g b; clear Hc.
  split; [|split]; apply int_of_float_between; apply mix_between; assumption.
Qed.

Lemma transition_color_between_witness :
  select_color (example_world (example_settings "07:00" "21:00" 30 false false) 6 45 0 0 0)
  = Ok (InTransition, (127, 127, 0))
  /\ (0 <= 127 <= 255 /\ 0 <= 127 <= 255 /\ 0 <= 0 <= 0).
Proof.
  split; [vm_compute; reflexivity|].
  apply (transition_color_between
           (example_world (example_settings "07:00" "21:00" 30 false false) 6 45 0 0 0)
           127 127 0).
  vm_compute. reflexivity.
Defined.

(** X21.  With the base brightness and the start of the ramp both between
    0 and 100, [apply_brightness] only dims: each channel it returns lies
    between 0 and the channel it was given, at every time of the day and
    every point of the ramp. *)
Theorem apply_brightness_only_dims w r g b r' g' b' :
  0 <= brightness (settings w) <= 100 ->
  0 <= brightness_ramp_start (settings w) <= 100 ->
  0 <= r -> 0 <= g -> 0 <= b ->
  apply_brightness r g b w = Ok (r', g', b') ->
  0 <= r' <= r /\ 0 <= g' <= g /\ 0 <= b' <= b.
Proof.
  intros Hbase Hstart Hr Hg Hb. unfold apply_brightness.
  destruct (get_current_brightness w) as [q|e] eqn:Hq; cbn [bind]; [|discriminate].
  apply get_current_brightness_between in Hq. cbv zeta in Hq. destruct Hq as [Hlo Hhi].
  assert (H0 : (0 <= q)%Q).
  { eapply Qle_trans; [|exact Hlo]. change 0%Q with (inject_Z 0).
    rewrite <- Zle_Qle. lia. }
  assert (H100 : (q <= 100)%Q).
  { eapply Qle_trans; [exact Hhi|]. change 100%Q with (inject_Z 100).
    rewrite <- Zle_Qle. lia. }
  intros E; inversion E; subst r' g' b'; clear E.
  split; [|split]; apply scaled_channel_range; assumption.
Qed.

Lemma apply_brightness_only_dims_witness :
  apply_brightness 200 100 50
    (example_world (example_settings "07:00" "21:00" 30 true false) 7 7 0 0 0)
  = Ok (93, 46, 23)
  /\ (0 <= 93 <= 200 /\ 0 <= 46 <= 100 /\ 0 <= 23 <= 50).
Proof.
  split; [vm_compute; reflexivity|].
  apply (apply_brightness_only_dims
           (example_world (example_settings "07:00" "21:00" 30 true false) 7 7 0 0 0)
           200 100 50 93 46 23).
  - simpl. lia.
  - simpl. lia.
  - lia.
  - lia.
  - lia.
  - vm_compute. reflexivity.
Defined.

(** X22.  With the LEDs enabled, the ramp off and a ring that holds
    [num_leds] pixels, [set_all_leds] at brightness 100 writes the colour it
    is given, unscaled and in the configured channel order, to the first
    [num_leds] pixels and leaves the others; at brightness 0 it writes
    all-zero pixels. *)
Theorem set_all_leds_full_and_zero_brightness w leds r g b :
  leds_enabled (settings w) = true ->
  brightness_ramp_enabled (settings w) = false ->
  np w = Some leds ->
  (Z.to_nat (num_leds (settings w)) <= List.length (np_pixels leds))%nat ->
  let n := Z.to_nat (num_leds (settings w)) in
  let fill c := repeat c n ++ skipn n (np_pixels leds) in
  (brightness (settings w) = 100 ->
   set_all_leds r g b w
   = Ok (set_np (Some (mk_np (fill (convert_color_order (settings w) r g b))
                             (fill (convert_color_order (settings w) r g b)))) w))
  /\ (brightness (settings w) = 0 ->
      set_all_leds r g b w
      = Ok (set_np (Some (mk_np (fill (convert_color_order (settings w) 0 0 0))
                                (fill (convert_color_order (settings w) 0 0 0)))) w)).
Proof.
  intros Hl Hramp Hnp Hfit n fill. subst n fill. cbv beta.
  split; intros Hbr; unfold set_all_leds, apply_brightness, get_current_brightness;
    rewrite Hnp, Hl, Hramp, Hbr; cbn [negb bind]; cbv zeta.
  - rewrite !full_brightness_channel. rewrite show_all_fits by exact Hfit. reflexivity.
  - rewrite !zero_brightness_channel. rewrite show_all_fits by exact Hfit. reflexivity.
Qed.

Lemma set_all_leds_full_and_zero_brightness_witness :
  set_all_leds 10 20 30
    (example_world (example_settings "07:00" "21:00" 30 false false) 12 0 0 0 0)
  = Ok (set_np (Some (mk_np (repeat [10; 20; 30] 12) (repeat [10; 20; 30] 12)))
          (example_world (example_settings "07:00" "21:00" 30 false false) 12 0 0 0 0)).
Proof.
  apply (set_all_leds_full_and_zero_brightness
           (example_world (example_settings "07:00" "21:00" 30 false false) 12 0 0 0 0)
           (blank_ring 12) 10 20 30).
  - reflexivity.
  - reflexivity.
  - reflexivity.
  - simpl. lia.
  - reflexivity.
Defined.

(** ** The web form helpers *)

Module WebFacts.

Lemma chars_app s1 s2 : chars (s1 ++ s2) = chars s1 ++ chars s2.
Proof. induction s1 as [|c s1 IH]; [reflexivity | simpl; now rewrite IH]. Qed.

Lemma replace_char_app old new s1 s2 :
  replace_char old new (s1 ++ s2)
  = (replace_char old new s1 ++ replace_char old new s2)%string.
Proof.
  induction s1 as [|c s1 IH]; [reflexivity|].
  cbn [replace_char String.append]. rewrite IH.
  destruct (Ascii.eqb c old); [|reflexivity].
  generalize (replace_char old new s1) (replace_char old new s2). clear.
  intros a b. induction new as [|d new IH]; [reflexivity | simpl; now rewrite IH].
Qed.

(** A replacement leaves a string without the character as it is. *)
Lemma replace_char_absent old new s :
  ~ In old (chars s) -> replace_char old new s = s.
Proof.
  induction s as [|c s IH]; [reflexivity|]. intros H. cbn [replace_char].
  destruct (Ascii.eqb_spec c old) as [->|Hne]; [exfalso; apply H; left; reflexivity|].
  rewrite IH; [reflexivity|]. intros Hin. apply H. right. exact Hin.
Qed.

(** After a replacement by a text without the character, the character is
    gone, and every character is one of the text or one that was there. *)
Lemma replace_char_chars old new s c :
  In c (chars (replace_char old new s)) ->
  (In c (chars new) \/ (In c (chars s) /\ c <> old)).
Proof.
  induction s as [|c0 s IH]; [intros []|]. cbn [replace_char].
  destruct (Ascii.eqb_spec c0 old) as [->|Hne].
  - rewrite chars_app, in_app_iff. intros [H|H]; [left; exact H|].
    destruct (IH H) as [H'|[H' Hc]]; [left; exact H'|].
    right. split; [right; exact H' | exact Hc].
  - cbn [chars]. intros [<-|H].
    + right. split; [left; reflexivity | exact Hne].
    + destruct (IH H) as [H'|[H' Hc]]; [left; exact H'|].
      right. split; [right; exact H' | exact Hc].
Qed.

Lemma uint_chars d c :
  In c (chars (NilEmpty.string_of_uint d)) -> ~ markup c.
Proof.
  induction d; cbn [NilEmpty.string_of_uint chars]; intros H;
    try (destruct H as [<-|H]; [unfold markup, dquote; intuition discriminate | auto]).
  destruct H.
Qed.

Lemma str_of_int_chars n c : In c (chars (str_of_int n)) -> ~ markup c.
Proof.
  unfold str_of_int, NilZero.string_of_int.
  assert (Hu : forall d, In c (chars (NilZero.string_of_uint d)) -> ~ markup c).
  { intros d. unfold NilZero.string_of_uint. destruct d; try apply uint_chars.
    cbn [chars]. intros [<-|[]]. unfold markup, dquote. intuition discriminate. }
  destruct (Z.to_int n) as [d|d]; [apply Hu|].
  cbn [chars]. intros [<-|H]; [unfold markup, dquote; intuition discriminate|].
  apply Hu in H. exact H.
Qed.

Lemma hex_char_not_hash d : Ascii.eqb (hex_char d) "#" = false.
Proof.
  unfold hex_char. destruct d as [|p|p]; try reflexivity.
  do 4 (destruct p as [p|p|]; try reflexivity).
Qed.

Lemma format_02x_check_all : forallb format_02x_check (Z_range 256) = true.
Proof. vm_compute. reflexivity. Qed.

Lemma format_02x_byte n :
  0 <= n <= 255 ->
  format_02x n = String (hex_char (n / 16)) (String (hex_char (n mod 16)) EmptyString).
Proof.
  intros H. apply String.eqb_eq.
  apply (Z_range_forallb format_02x_check 256 format_02x_check_all). lia.
Qed.

End WebFacts.
Import WebFacts.

(** X23.  The text [html_escape] returns holds none of the characters
    [<], [>], the double quote and the single quote, for a string and for an
    integer; it escapes a string character by character (the text of a
    concatenation is the concatenation of the texts); and a string with none
    of the five special characters comes back unchanged. *)
Theorem html_escape_safe :
  (forall text c, In c (chars (html_escape text)) -> ~ markup c)
  /\ (forall s1 s2,
         html_escape (inr (s1 ++ s2)%string)
         = (html_escape (inr s1) ++ html_escape (inr s2))%string)
  /\ (forall s, (forall c, In c (chars s) -> ~ special c) -> html_escape (inr s) = s).
Proof.
  split; [|split].
  - intros [n|s] c; [apply str_of_int_chars|].
    cbn [html_escape]. cbv zeta. intros H Hm.
    apply replace_char_chars in H. destruct H as [H|[H H5]].
    { cbn in H. unfold markup, dquote in Hm. intuition congruence. }
    apply replace_char_chars in H. destruct H as [H|[H H4]].
    { cbn in H. unfold markup, dquote in Hm. intuition congruence. }
    apply replace_char_chars in H. destruct H as [H|[H H3]].
    { cbn in H. unfold markup, dquote in Hm. intuition congruence. }
    apply replace_char_chars in H. destruct H as [H|[H H2]].
    { cbn in H. unfold markup, dquote in Hm. intuition congruence. }
    unfold markup in Hm. intuition congruence.
  - intros s1 s2. cbn [html_escape]. cbv zeta.
    now rewrite !replace_char_app.
  - intros s Hs. cbn [html_escape]. cbv zeta.
    rewrite (replace_char_absent "&" _ s)
      by (intros H; apply (Hs _ H); unfold special; auto).
    rewrite (replace_char_absent "<" _ s)
      by (intros H; apply (Hs _ H); unfold special; auto).
    rewrite (replace_char_absent ">" _ s)
      by (intros H; apply (Hs _ H); unfold special; auto).
    rewrite (replace_char_absent dquote _ s)
      by (intros H; apply (Hs _ H); unfold special; auto).
    apply replace_char_absent. intros H; apply (Hs _ H); unfold special; auto 6.
Qed.

(** X24.  The colour a form shows comes back as it was: for a colour with
    channels between 0 and 255, [hex_to_rgb] applied to the value
    [#rrggbb] that [web_page] writes into the colour input, followed by any
    further text, returns the three channels, provided [int(s, 16)] reads
    two lower-case hexadecimal digits as their value. *)
Theorem hex_to_rgb_of_color_input int16 r g b extra :
  (forall hi lo, 0 <= hi < 16 -> 0 <= lo < 16 ->
     int16 (String (hex_char hi) (String (hex_char lo) EmptyString)) = Ok (16 * hi + lo)) ->
  0 <= r <= 255 -> 0 <= g <= 255 -> 0 <= b <= 255 ->
  hex_to_rgb int16 (color_input_value (r, g, b) ++ extra) = Ok [r; g; b].
Proof.
  intros Hint Hr Hg Hb. unfold hex_to_rgb, color_input_value.
  rewrite (format_02x_byte r Hr), (format_02x_byte g Hg), (format_02x_byte b Hb).
  cbn [String.append lstrip_char]. rewrite Ascii.eqb_refl, hex_char_not_hash.
  cbv zeta. cbn [substring].
  assert (Hsub : forall s, substring 0 0 s = EmptyString) by (intros []; reflexivity).
  rewrite !Hsub.
  rewrite !Hint by (Z.div_mod_to_equations; lia).
  cbn [bind]. f_equal.
  f_equal; [|f_equal; [|f_equal]]; Z.div_mod_to_equations; lia.
Qed.

Lemma hex_to_rgb_of_color_input_witness :
  hex_to_rgb int16_of_hex_digits (color_input_value (255, 128, 10) ++ "") = Ok [255; 128; 10].
Proof.
  apply (hex_to_rgb_of_color_input int16_of_hex_digits 255 128 10 "").
  - intros hi lo Hhi Hlo.
    assert (Hh : hi = 0 \/ hi = 1 \/ hi = 2 \/ hi = 3 \/ hi = 4 \/ hi = 5 \/ hi = 6 \/ hi = 7
                 \/ hi = 8 \/ hi = 9 \/ hi = 10 \/ hi = 11 \/ hi = 12 \/ hi = 13 \/ hi = 14
                 \/ hi = 15) by lia.
    assert (Hl : lo = 0 \/ lo = 1 \/ lo = 2 \/ lo = 3 \/ lo = 4 \/ lo = 5 \/ lo = 6 \/ lo = 7
                 \/ lo = 8 \/ lo = 9 \/ lo = 10 \/ lo = 11 \/ lo = 12 \/ lo = 13 \/ lo = 14
                 \/ lo = 15) by lia.
    repeat (destruct Hh as [->|Hh]); try subst hi;
      repeat (destruct Hl as [->|Hl]); try subst lo; reflexivity.
  - lia.
  - lia.
  - lia.
Defined.
